(** * n26-vibe-analyzer: the transaction analysis and the sortable table

    A shallow embedding of [src/components/FinancialDashboard.js] (the
    analysis run by the [useEffect] hook on the parsed CSV rows) and of
    [src/components/ui/SortableTable.js] (sort state, sorted view, the two
    exports and the two row renderers), with the properties of the
    specification stated and proved over them.

    Conventions of the embedding.
    - JavaScript numbers are exact integers ([Z]) or [NaN], quotients (the
      averages) exact rationals ([Q]), [0/0] being [NaN].  The program
      computes with binary64 numbers; on amounts that are whole numbers its
      sums (below 2^53) are exact and are the ones of the model.  Where a
      property depends on the value of a sum, and not only on comparisons
      and on the grouping of the rows, it is a property of the program on
      such amounts; [Doubles] follows the sums in binary64 and shows how
      rounding breaks the equalities on amounts with decimals.
    - Strings are sequences of bytes; [toUpperCase] and [toLowerCase] act on
      the ASCII letters.
    - The host time zone is a parameter ([Date.Zone]) of the one loop that
      steps through local time while it names the days in UTC, the loop
      that fills the daily series.  The analysis as a whole ([analyze]) is
      the run in the zone UTC, where [getWeekNumber] and the quarter,
      which read local fields too, see the UTC fields.
    - [Date] parsing covers the date-only form [YYYY-MM-DD] (the form of the
      input files) with a day that exists in its month; any other text
      is an invalid date. *)

From Stdlib Require Import ZArith QArith Lia Bool Ascii String DecimalString.
From Stdlib Require DecimalZ PrimFloat.
From stdpp Require Import base list gmap strings sorting.

Local Open Scope Z_scope.

(* ================================================================== *)
(** * The JavaScript values and built-ins the program uses *)
(* ================================================================== *)

Module JS.

(** A JavaScript number: an exact integer or [NaN]. *)
Inductive number : Type :=
  | NaN : number
  | Fin (z : Z) : number.

(** The primitive values held by a parsed CSV cell or a table cell. *)
Inductive value : Type :=
  | VUndefined : value
  | VNull : value
  | VBool (b : bool) : value
  | VNum (n : number) : value
  | VStr (s : string) : value.

(** ToBoolean. *)
Definition truthy (v : value) : bool :=
  match v with
  | VUndefined | VNull => false
  | VBool b => b
  | VNum NaN => false
  | VNum (Fin z) => negb (z =? 0)
  | VStr s => negb (String.eqb s EmptyString)
  end.

(** [a || b]. *)
Definition jsOr (a b : value) : value := if truthy a then a else b.

(** ** Decimal digits *)

Definition isDigit (c : ascii) : bool :=
  let n := N_of_ascii c in ((48 <=? n) && (n <=? 57))%N.

Definition digitVal (c : ascii) : Z := Z.of_N (N_of_ascii c) - 48.

Definition digitChar (d : Z) : ascii := ascii_of_N (Z.to_N (48 + d)).

(** The value of a run of decimal digits, most significant first;
    [None] when a character is not a digit. *)
Fixpoint digitsVal (acc : Z) (s : string) : option Z :=
  match s with
  | EmptyString => Some acc
  | String c s' =>
      if isDigit c then digitsVal (10 * acc + digitVal c) s' else None
  end.

Definition isSpace (c : ascii) : bool :=
  let n := N_of_ascii c in
  ((n =? 32) || (n =? 9) || (n =? 10) || (n =? 13) || (n =? 11) || (n =? 12))%N.

Fixpoint trimStart (s : string) : string :=
  match s with
  | String c s' => if isSpace c then trimStart s' else s
  | EmptyString => EmptyString
  end.

Fixpoint trimEnd (s : string) : string :=
  match s with
  | EmptyString => EmptyString
  | String c s' =>
      match trimEnd s' with
      | EmptyString => if isSpace c then EmptyString else String c EmptyString
      | t => String c t
      end
  end.

(** StringToNumber on the integer literals: white space is trimmed, the
    empty text is [0], an optionally signed run of digits is its value and
    everything else is [NaN]. *)
Definition stringToNumber (s : string) : number :=
  match trimEnd (trimStart s) with
  | EmptyString => Fin 0
  | String c r as t =>
      let body (u : string) (sign : Z) :=
        match u with
        | EmptyString => NaN
        | _ => match digitsVal 0 u with Some z => Fin (sign * z) | None => NaN end
        end in
      if Ascii.eqb c "-" then body r (-1)
      else if Ascii.eqb c "+" then body r 1
      else body t 1
  end.

(** ToNumber. *)
Definition toNumber (v : value) : number :=
  match v with
  | VUndefined => NaN
  | VNull => Fin 0
  | VBool b => Fin (if b then 1 else 0)
  | VNum n => n
  | VStr s => stringToNumber s
  end.

Definition numberToString (n : number) : string :=
  match n with
  | NaN => "NaN"
  | Fin z => NilZero.string_of_int (Z.to_int z)
  end.

(** ToString, as applied by [String(v)], by template literals and by
    property keys. *)
Definition toString (v : value) : string :=
  match v with
  | VUndefined => "undefined"
  | VNull => "null"
  | VBool b => if b then "true" else "false"
  | VNum n => numberToString n
  | VStr s => s
  end.

(** [a - b] on numbers. *)
Definition numSub (a b : number) : number :=
  match a, b with
  | Fin x, Fin y => Fin (x - y)
  | _, _ => NaN
  end.

(** ** ASCII case mapping *)

Definition upperChar (c : ascii) : ascii :=
  let n := N_of_ascii c in
  if ((97 <=? n) && (n <=? 122))%N then ascii_of_N (n - 32) else c.

Definition lowerChar (c : ascii) : ascii :=
  let n := N_of_ascii c in
  if ((65 <=? n) && (n <=? 90))%N then ascii_of_N (n + 32) else c.

Fixpoint mapString (f : ascii -> ascii) (s : string) : string :=
  match s with
  | EmptyString => EmptyString
  | String c s' => String (f c) (mapString f s')
  end.

Definition toUpperCase : string -> string := mapString upperChar.
Definition toLowerCase : string -> string := mapString lowerChar.

(** [s.includes(c)] for a one-character needle. *)
Fixpoint includesChar (c : ascii) (s : string) : bool :=
  match s with
  | EmptyString => false
  | String d s' => Ascii.eqb c d || includesChar c s'
  end.

(** The relational comparison [a < b] of two strings (code-unit order). *)
Definition strLt (a b : string) : bool := String.ltb a b.

(** [a.localeCompare(b)] in the analysis, where it orders keys made of
    digits, hyphens and a [W] at the same places: code-unit order. *)
Definition localeCompare (a b : string) : number :=
  match String.compare a b with
  | Lt => Fin (-1)
  | Eq => Fin 0
  | Gt => Fin 1
  end.

(** [s.padStart(2, '0')]. *)
Definition padStart2 (s : string) : string :=
  match s with
  | EmptyString => "00"
  | String c EmptyString => String "0" s
  | _ => s
  end.

(** [a.join(sep)] on an array of strings. *)
Fixpoint join (sep : string) (l : list string) : string :=
  match l with
  | [] => EmptyString
  | [s] => s
  | s :: l' => s +:+ sep +:+ join sep l'
  end.

(** ** Objects whose property order is observed

    The own string-keyed properties of an object, in insertion order
    (the order of [Object.keys], [Object.entries] and [_.map] on an object
    when no key is an array index).  A write to an existing key keeps the
    place of the key. *)
Definition obj (V : Type) : Type := list (string * V).

Fixpoint objGet {V} (o : obj V) (k : string) : option V :=
  match o with
  | [] => None
  | (k', v) :: o' => if String.eqb k k' then Some v else objGet o' k
  end.

Fixpoint objSet {V} (k : string) (v : V) (o : obj V) : obj V :=
  match o with
  | [] => [(k, v)]
  | (k', v') :: o' =>
      if String.eqb k k' then (k', v) :: o' else (k', v') :: objSet k v o'
  end.

Definition objKeys {V} (o : obj V) : list string := map fst o.
Definition objValues {V} (o : obj V) : list V := map snd o.

(** ** Sorting

    [Array.prototype.sort], [_.sortBy] and [_.orderBy] are stable; they are
    modelled by a stable insertion sort.  [after x y] says that the
    comparison puts [x] behind [y]. *)
Fixpoint insertBy {A} (after : A -> A -> bool) (x : A) (l : list A) : list A :=
  match l with
  | [] => [x]
  | y :: l' => if after x y then y :: insertBy after x l' else x :: l
  end.

Definition stableSort {A} (after : A -> A -> bool) (l : list A) : list A :=
  foldr (insertBy after) [] l.

(** A comparator result counts when it is a positive number; [NaN] counts
    as [0]. *)
Definition isPositive (n : number) : bool :=
  match n with
  | Fin v => 0 <? v
  | NaN => false
  end.

(** [a.sort(comparefn)], as a function of the array contents. *)
Definition arraySort {A} (comparefn : A -> A -> number) : list A -> list A :=
  stableSort (fun a b => isPositive (comparefn a b)).

(** [a.sort()] on strings. *)
Definition sortStrings : list string -> list string :=
  stableSort (fun a b => strLt b a).

(** lodash's [compareAscending] on numbers: [NaN] goes last. *)
Definition compareAscending (a b : number) : Z :=
  match a, b with
  | NaN, _ => 1
  | Fin _, NaN => -1
  | Fin x, Fin y => if y <? x then 1 else if x <? y then -1 else 0
  end.

(** [_.sortBy(l, key)] with a numeric key. *)
Definition sortBy {A} (key : A -> number) : list A -> list A :=
  stableSort (fun a b => 0 <? compareAscending (key a) (key b)).

(** [_.orderBy(l, [key], ['desc'])] with an integer key. *)
Definition orderByDesc {A} (key : A -> Z) : list A -> list A :=
  stableSort (fun a b => key a <? key b).

(** [_.sumBy(l, f)] and [_.sum(l)]: [0] on the empty array. *)
Definition sumBy {A} (f : A -> Z) (l : list A) : Z :=
  foldl (fun acc x => acc + f x) 0 l.

Definition sumOf (l : list Z) : Z := sumBy id l.

(** [_.min(l)] and [_.max(l)]: [undefined] ([None]) on the empty array. *)
Definition minOf (l : list Z) : option Z :=
  match l with
  | [] => None
  | x :: l' => Some (foldl Z.min x l')
  end.

Definition maxOf (l : list Z) : option Z :=
  match l with
  | [] => None
  | x :: l' => Some (foldl Z.max x l')
  end.

(** [_.groupBy(l, key)]: the groups in the order in which their keys first
    occur, each group in the order of [l]. *)
Definition groupBy {A} (key : A -> string) (l : list A) : obj (list A) :=
  foldl (fun g x => objSet (key x) (default [] (objGet g (key x)) ++ [x]) g) [] l.

(** [a / b] for integers, exactly; [0 / 0] is [NaN] ([None]).  A non-zero
    number is never divided by zero in the program. *)
Definition divide (a b : Z) : option Q :=
  if b =? 0 then None else Some (inject_Z a / inject_Z b)%Q.

(** [Math.round(x / 7)] for an integer [x]: halves round up. *)
Definition roundDiv7 (x : Z) : Z := (2 * x + 7) / 14.

(** ** Exceptions

    What a [try] block of the program can catch; [LoopBound] marks a loop
    that used up the iterations it was given. *)
Inductive exn : Type :=
  | TypeError (msg : string)
  | RangeError (msg : string)
  | LoopBound.

Definition message (e : exn) : string :=
  match e with
  | TypeError m | RangeError m => m
  | LoopBound => "loop bound"
  end.

(** The result of a computation that may throw. *)
Inductive outcome (A : Type) : Type :=
  | Done (a : A)
  | Threw (e : exn).
Arguments Done {A} a.
Arguments Threw {A} e.

Definition bind {A B} (x : outcome A) (k : A -> outcome B) : outcome B :=
  match x with
  | Done a => k a
  | Threw e => Threw e
  end.

Notation "'let*' x ':=' e 'in' k" := (bind e (fun x => k))
  (at level 10, x binder, e at level 100, k at level 200).

Fixpoint mapM {A B} (f : A -> outcome B) (l : list A) : outcome (list B) :=
  match l with
  | [] => Done []
  | x :: l' => let* y := f x in let* ys := mapM f l' in Done (y :: ys)
  end.

End JS.

(* ================================================================== *)
(** * The [Date] built-in *)
(* ================================================================== *)

Module Date.
Import JS.

Definition msPerDay : Z := 86400000.

Definition isLeapYear (y : Z) : bool :=
  (y mod 4 =? 0) && (negb (y mod 100 =? 0) || (y mod 400 =? 0)).

Definition daysInMonth (y m : Z) : Z :=
  if m =? 2 then (if isLeapYear y then 29 else 28)
  else if (m =? 4) || (m =? 6) || (m =? 9) || (m =? 11) then 30
  else 31.

(** The proleptic Gregorian calendar repeats every 400 years, that is every
    146097 days.  Days are counted inside such an era, which starts on a
    1 March; [yoe] is the year of the era, counted from March. *)
Definition daysPerEra : Z := 146097.

(** The day of the era on which the year [yoe] of the era starts, and the
    day of such a year on which its month [mp] starts (month 0 is March). *)
Definition yearStart (yoe : Z) : Z := yoe * 365 + yoe / 4 - yoe / 100.
Definition monthStart (mp : Z) : Z := (153 * mp + 2) / 5.

Definition dayOfEra (yoe m d : Z) : Z :=
  let mp := if 2 <? m then m - 3 else m + 9 in
  yearStart yoe + monthStart mp + d - 1.

(** MakeDay: the day number of a calendar date, day 0 being 1970-01-01. *)
Definition makeDay (y m d : Z) : Z :=
  let y' := if m <=? 2 then y - 1 else y in
  (y' / 400) * daysPerEra + dayOfEra (y' mod 400) m d - 719468.

(** The calendar date of a day of the era: the year (counted from January,
    so from 0 to 400), the month and the day of the month.  The day is
    placed in its century [c], in its group [q] of four years and in its
    year [a] of the group; the last century and the last year of a group
    have the extra day. *)
Definition civilOfEraDay (doe : Z) : Z * Z * Z :=
  let c := Z.min (doe / 36524) 3 in
  let r := doe - c * 36524 in
  let q := r / 1461 in
  let r4 := r - q * 1461 in
  let a := Z.min (r4 / 365) 3 in
  let doy := r4 - a * 365 in
  let yoe := 100 * c + 4 * q + a in
  let mp := (5 * doy + 2) / 153 in
  let d := doy - monthStart mp + 1 in
  let m := if mp <? 10 then mp + 3 else mp - 9 in
  (if m <=? 2 then yoe + 1 else yoe, m, d).

(** YearFromTime, MonthFromTime (from 1) and DateFromTime of a day number. *)
Definition civilFromDays (n : Z) : Z * Z * Z :=
  let z := n + 719468 in
  let '(y, m, d) := civilOfEraDay (z mod daysPerEra) in
  (y + 400 * (z / daysPerEra), m, d).

(** Day(t) and WeekDay(t) of a time value in milliseconds. *)
Definition day (t : Z) : Z := t / msPerDay.
Definition weekDay (t : Z) : Z := (day t + 4) mod 7.

Definition getFullYear (t : Z) : Z := (civilFromDays (day t)).1.1.
(** The month from 1 to 12 ([getMonth() + 1]). *)
Definition monthFromTime (t : Z) : Z := (civilFromDays (day t)).1.2.
Definition getMonth (t : Z) : Z := monthFromTime t - 1.
Definition getDate (t : Z) : Z := (civilFromDays (day t)).2.
Definition getDay (t : Z) : Z := weekDay t.

(** [setDate(dt)]: the same month and time of day, the day of the month [dt]
    (days beyond the month run into the next ones, as MakeDay counts). *)
Definition setDate (t dt : Z) : Z :=
  makeDay (getFullYear t) (monthFromTime t) dt * msPerDay + t mod msPerDay.

(** [new Date(year, month - 1, d)]: the midnight that starts the day; a
    year from 0 to 99 stands for 1900 + year. *)
Definition ofYMD (y m d : Z) : Z :=
  let y' := if (0 <=? y) && (y <=? 99) then 1900 + y else y in
  makeDay y' m d * msPerDay.

(** TimeClip. *)
Definition timeClip (n : number) : number :=
  match n with
  | Fin t => if Z.abs t <=? 8640000000000000 then Fin t else NaN
  | NaN => NaN
  end.

(** [Date.parse] on the date-only form [YYYY-MM-DD]; the result is the
    midnight that starts the day, or [NaN]. *)
Definition parse (s : string) : number :=
  match s with
  | String y1 (String y2 (String y3 (String y4 (String h1
      (String m1 (String m2 (String h2
        (String d1 (String d2 EmptyString))))))))) =>
      if isDigit y1 && isDigit y2 && isDigit y3 && isDigit y4
         && Ascii.eqb h1 "-" && isDigit m1 && isDigit m2
         && Ascii.eqb h2 "-" && isDigit d1 && isDigit d2
      then
        let y := 1000 * digitVal y1 + 100 * digitVal y2
                 + 10 * digitVal y3 + digitVal y4 in
        let m := 10 * digitVal m1 + digitVal m2 in
        let d := 10 * digitVal d1 + digitVal d2 in
        if (1 <=? m) && (m <=? 12) && (1 <=? d) && (d <=? daysInMonth y m)
        then Fin (makeDay y m d * msPerDay)
        else NaN
      else NaN
  | _ => NaN
  end.

(** [new Date(v)]: a string is parsed, any other primitive is converted to
    a number of milliseconds.  The result is the time value of the object,
    [NaN] for an invalid date. *)
Definition create (v : value) : number :=
  match v with
  | VStr s => parse s
  | _ => timeClip (toNumber v)
  end.

Definition pad2 (n : Z) : string :=
  String (digitChar (n / 10 mod 10)) (String (digitChar (n mod 10)) EmptyString).

Definition pad3 (n : Z) : string :=
  String (digitChar (n / 100 mod 10)) (pad2 n).

Definition pad4 (n : Z) : string :=
  String (digitChar (n / 1000 mod 10)) (pad3 n).

Definition pad6 (n : Z) : string :=
  String (digitChar (n / 100000 mod 10))
    (String (digitChar (n / 10000 mod 10)) (pad4 n)).

(** The year of the ISO format: four digits from 0000 to 9999, a sign and
    six digits outside. *)
Definition yearText (y : Z) : string :=
  if (0 <=? y) && (y <=? 9999) then pad4 y
  else String (if y <? 0 then "-"%char else "+"%char) (pad6 (Z.abs y)).

(** [toISOString()] of a valid time value. *)
Definition isoOfTime (t : Z) : string :=
  let '(y, m, d) := civilFromDays (day t) in
  let r := t mod msPerDay in
  yearText y +:+ "-" +:+ pad2 m +:+ "-" +:+ pad2 d +:+ "T"
    +:+ pad2 (r / 3600000) +:+ ":" +:+ pad2 (r / 60000 mod 60) +:+ ":"
    +:+ pad2 (r / 1000 mod 60) +:+ "." +:+ pad3 (r mod 1000) +:+ "Z".

(** [d.toISOString()], which throws a RangeError on an invalid date. *)
Definition toISOString (d : number) : outcome string :=
  match d with
  | Fin t => Done (isoOfTime t)
  | NaN => Threw (RangeError "Invalid time value")
  end.

(** [s.slice(0, n)]. *)
Definition slice0 (n : nat) (s : string) : string := substring 0 n s.

(** [a <= b] and [a - b] on dates compare the time values. *)
Definition dateLe (a b : number) : bool :=
  match a, b with
  | Fin x, Fin y => x <=? y
  | _, _ => false
  end.

(** ** The host time zone

    The fields above are read off a time value in UTC.  The methods
    [getDate] and [setDate] of a [Date] work on local time.  A zone gives
    the offset of local time from UTC, in milliseconds, at a time value
    (LocalTZA(t, true)) and at a local time (LocalTZA(t, false)); a local
    time that a change of the offset skips or repeats is read with the
    offset before the change. *)
Record Zone : Type := {
  offsetAt : Z -> Z;
  offsetOfLocal : Z -> Z;
}.

(** LocalTime(t) and UTC(t). *)
Definition localTime (zone : Zone) (t : Z) : Z := t + offsetAt zone t.
Definition utcTime (zone : Zone) (t : Z) : Z := t - offsetOfLocal zone t.

(** [getDate()] and [setDate(dt)] in a host zone. *)
Definition getDateIn (zone : Zone) (t : Z) : Z := getDate (localTime zone t).

Definition setDateIn (zone : Zone) (t dt : Z) : Z :=
  utcTime zone (setDate (localTime zone t) dt).

Definition utc : Zone :=
  {| offsetAt := fun _ => 0; offsetOfLocal := fun _ => 0 |}.

Definition msPerHour : Z := 3600000.

(** The last Sunday of a month of 31 days, as a day number. *)
Definition lastSunday (y m : Z) : Z :=
  let d := makeDay y m 31 in d - (d + 4) mod 7.

(** Central European Time with the summer time of the European Union (the
    rule of Europe/Berlin since 1996): from 01:00 UTC on the last Sunday
    of March to 01:00 UTC on the last Sunday of October the clocks are two
    hours ahead of UTC, otherwise one hour.  On the clocks the summer time
    runs from 03:00 to 03:00: the hour that is skipped in March is read
    with the offset of the winter, the hour that is repeated in October
    with that of the summer. *)
Definition summerTime (t : Z) : bool :=
  let y := getFullYear t in
  (lastSunday y 3 * msPerDay + msPerHour <=? t)
  && (t <? lastSunday y 10 * msPerDay + msPerHour).

Definition centralEurope : Zone :=
  {| offsetAt := fun t => if summerTime t then 2 * msPerHour else msPerHour;
     offsetOfLocal := fun t =>
       if summerTime (t - 2 * msPerHour) then 2 * msPerHour else msPerHour |}.

End Date.

(* ================================================================== *)
(** * FinancialDashboard.js: the analysis of the parsed rows *)
(* ================================================================== *)

Module Dashboard.
Import JS.

(** A row of the parsed CSV, with the columns the analysis reads.  The
    amount is a number, here a whole number, on which the sums of the
    program are exact; the other cells are whatever the parser made of
    the text (a blank cell is [null]). *)
Record Transaction : Type := {
  bookingDate : value;   (* "Booking Date" *)
  partnerName : value;   (* "Partner Name" *)
  amount : Z;            (* "Amount (EUR)" *)
}.

Record BasicStats : Type := {
  dateRangeStart : string;
  dateRangeEnd : string;
  totalTransactions : nat;
  totalVolume : Z;
  inflows : Z;
  outflows : Z;
  netFlow : Z;
}.

Record MonthlyStat : Type := {
  month : string;
  monthCount : nat;
  monthInflow : Z;
  monthOutflow : Z;
  monthNet : Z;
}.

Record PartnerVolume : Type := {
  name : string;
  count : nat;
  partnerTotalVolume : Z;
  totalIn : Z;
  totalOut : Z;
  net : Z;
}.

Record DailyBalance : Type := {
  date : string;
  balance : Z;
  hasTransaction : bool;
  quarter : number;
}.

Record PeriodBalance : Type := {
  period : string;
  avgBalance : option Q;
  min : option Z;
  max : option Z;
  days : nat;
}.

Record YearlyBalance : Type := {
  totalDays : nat;
  sumOfDailyBalances : Z;
  yearlyAvgBalance : option Q;
}.

(** The object handed to [setData].  The currency and type distributions
    and the lists of largest transactions, which no property below reads
    and whose computation cannot throw, are left out, as are the display
    texts that depend on the locale. *)
Record AnalysisData : Type := {
  basicStats : BasicStats;
  monthlyStats : list MonthlyStat;
  partnerVolumes : list PartnerVolume;
  dailyBalances : list DailyBalance;
  weeklyBalances : list PeriodBalance;
  monthlyBalances : list PeriodBalance;
  yearlyBalance : YearlyBalance;
  allTransactions : list Transaction;
}.

(** [d.toISOString()] where [d] may be [undefined]. *)
Definition toISOStringOf (d : option number) : outcome string :=
  match d with
  | Some t => Date.toISOString t
  | None =>
      Threw (TypeError "Cannot read properties of undefined (reading 'toISOString')")
  end.

Definition time (t : Transaction) : number := Date.create (bookingDate t).

Definition positivePart (t : Transaction) : Z :=
  if 0 <? amount t then amount t else 0.

Definition negativePart (t : Transaction) : Z :=
  if amount t <? 0 then amount t else 0.

(** [_.sortBy(transactions, t => new Date(t["Booking Date"]).getTime())] *)
Definition sortedTransactions (transactions : list Transaction) : list Transaction :=
  sortBy time transactions.

(** [transactions.map(t => new Date(...)).sort((a, b) => a - b)] *)
Definition dates (transactions : list Transaction) : list number :=
  arraySort numSub (map time transactions).

Definition minDate (transactions : list Transaction) : option number :=
  head (dates transactions).

Definition maxDate (transactions : list Transaction) : option number :=
  last (dates transactions).

(** The key of [transactionsByMonth]. *)
Definition monthKey (t : Transaction) : outcome string :=
  let* s := Date.toISOString (time t) in Done (Date.slice0 7 s).

Definition monthlyStatOf (entry : string * list Transaction) : MonthlyStat :=
  let '(month, txs) := entry in
  {| month := month;
     monthCount := length txs;
     monthInflow := sumBy positivePart txs;
     monthOutflow := Z.abs (sumBy negativePart txs);
     monthNet := sumBy amount txs |}.

(** [_.groupBy] with a key that may throw: the keys are computed in the
    order of the array and the first exception ends the grouping. *)
Definition groupByM {A} (key : A -> outcome string) (l : list A)
    : outcome (obj (list A)) :=
  let* keyed := mapM (fun x => let* k := key x in Done (k, x)) l in
  Done (map (fun g => (g.1, map snd g.2)) (groupBy fst keyed)).

Definition computeMonthlyStats (transactions : list Transaction)
    : outcome (list MonthlyStat) :=
  let* transactionsByMonth := groupByM monthKey transactions in
  Done (arraySort (fun a b => localeCompare (month a) (month b))
          (map monthlyStatOf transactionsByMonth)).

(** The spellings of the account holder's name. *)
Definition nameVariations : list string :=
  ["EUGENIO MARIA BATTAGLIA"; "Eugenio Battaglia"; "Eugenio Maria Battaglia"].

Definition isOwnName (partnerName : value) : bool :=
  match partnerName with
  | VStr s =>
      existsb (fun variation =>
                 String.eqb (toUpperCase s) (toUpperCase variation))
              nameVariations
  | _ => false
  end.

Definition consolidate (tx : Transaction) : Transaction :=
  if isOwnName (partnerName tx)
  then {| bookingDate := bookingDate tx;
          partnerName := VStr "My Transfers";
          amount := amount tx |}
  else tx.

Definition consolidatedSortedTransactions (transactions : list Transaction)
    : list Transaction :=
  map consolidate (sortedTransactions transactions).

Definition partnerVolumeOf (entry : string * list Transaction) : PartnerVolume :=
  let '(name, txs) := entry in
  {| name := name;
     count := length txs;
     partnerTotalVolume := sumBy (fun t => Z.abs (amount t)) txs;
     totalIn := sumBy positivePart txs;
     totalOut := sumBy negativePart txs;
     net := sumBy amount txs |}.

(** [_.chain(consolidatedSortedTransactions).groupBy('Partner Name')
      .map(...).orderBy(['totalVolume'], ['desc']).value()] *)
Definition computePartnerVolumes (transactions : list Transaction)
    : list PartnerVolume :=
  orderByDesc partnerTotalVolume
    (map partnerVolumeOf
       (groupBy (fun t => toString (partnerName t))
                (consolidatedSortedTransactions transactions))).

(** The loop over [sortedTransactions]: the running balance, stored under
    the booking date of each transaction. *)
Definition balanceStep (st : Z * gmap string Z) (tx : Transaction)
    : Z * gmap string Z :=
  let runningBalance := st.1 + amount tx in
  (runningBalance, <[toString (bookingDate tx) := runningBalance]> st.2).

Definition dailyBalancesOf (sorted : list Transaction) : gmap string Z :=
  (foldl balanceStep (0, ∅) sorted).2.

(** [Object.keys(dailyBalances).sort()] *)
Definition allDatesOf (dailyBalances : gmap string Z) : list string :=
  sortStrings (map fst (map_to_list dailyBalances)).

(** [new Date(a[i])] for an element that may be missing. *)
Definition newDateAt (x : option string) : number :=
  Date.create (from_option VStr VUndefined x).

(** [currentDate.setDate(currentDate.getDate() + 1)]: the same time of
    day on the next day of the local calendar. *)
Definition nextDay (zone : Date.Zone) (currentDate : number) : number :=
  match currentDate with
  | Fin t =>
      Date.timeClip (Fin (Date.setDateIn zone t (Date.getDateIn zone t + 1)))
  | NaN => NaN
  end.

(** The [while (currentDate <= endDate)] loop.  The day is named by
    [toISOString], that is in UTC, and the date is advanced in local time.
    [fuel] bounds the number of iterations; the loop is given one
    iteration per day from [startDate] to [endDate], which it never
    exceeds in the zone UTC. *)
Fixpoint fillDays (zone : Date.Zone) (fuel : nat) (dailyBalances : gmap string Z)
    (endDate currentDate : number) (lastBalance : Z)
    (allDailyBalances : obj Z) : outcome (obj Z) :=
  if Date.dateLe currentDate endDate then
    match fuel with
    | O => Threw LoopBound
    | S fuel' =>
        let* iso := Date.toISOString currentDate in
        let dateString := Date.slice0 10 iso in
        let lastBalance' :=
          match dailyBalances !! dateString with
          | Some b => b
          | None => lastBalance
          end in
        fillDays zone fuel' dailyBalances endDate (nextDay zone currentDate)
          lastBalance' (objSet dateString lastBalance' allDailyBalances)
    end
  else Done allDailyBalances.

Definition daysBetween (startDate endDate : number) : nat :=
  match startDate, endDate with
  | Fin s, Fin e => Z.to_nat ((e - s) / Date.msPerDay + 1)
  | _, _ => O
  end.

(** [allDailyBalances], the gap-filled daily series, in a host zone. *)
Definition allDailyBalancesOf (zone : Date.Zone) (dailyBalances : gmap string Z)
    : outcome (obj Z) :=
  let allDates := allDatesOf dailyBalances in
  let startDate := newDateAt (head allDates) in
  let endDate := newDateAt (last allDates) in
  fillDays zone (daysBetween startDate endDate) dailyBalances endDate startDate
           0 [].

(** [getWeekNumber(d)]: the ISO week of a date text and the year the week
    belongs to. *)
Definition getWeekNumber (d : string) : number * number :=
  match Date.create (VStr d) with
  | NaN => (NaN, NaN)
  | Fin t0 =>
      let t1 := t0 - t0 mod Date.msPerDay in
      let t2 := Date.setDate t1 (Date.getDate t1 + 3 - (Date.getDay t1 + 6) mod 7) in
      let week1 := Date.ofYMD (Date.getFullYear t2) 1 4 in
      let weekNum :=
        1 + roundDiv7 ((t2 - week1) / Date.msPerDay - 3
                       + (Date.getDay week1 + 6) mod 7) in
      (Fin (Date.getFullYear t2), Fin weekNum)
  end.

Definition formatWeekKey (year week : number) : string :=
  numberToString year +:+ "-W" +:+ padStart2 (numberToString week).

Definition weekKeyOf (date : string) : string :=
  let '(year, week) := getWeekNumber date in formatWeekKey year week.

(** [if (!o[k]) o[k] = []; o[k].push(b)] *)
Definition pushTo (k : string) (b : Z) (o : obj (list Z)) : obj (list Z) :=
  objSet k (default [] (objGet o k) ++ [b]) o.

(** The [forEach] over the entries of [allDailyBalances], which fills
    [weeklyBalances] and [monthlyBalances]. *)
Definition bucketStep (st : obj (list Z) * obj (list Z)) (entry : string * Z)
    : obj (list Z) * obj (list Z) :=
  let '(date, balance) := entry in
  (pushTo (weekKeyOf date) balance st.1,
   pushTo (Date.slice0 7 date) balance st.2).

Definition bucketsOf (allDailyBalances : obj Z) : obj (list Z) * obj (list Z) :=
  foldl bucketStep ([], []) allDailyBalances.

Definition periodBalanceOf (entry : string * list Z) : PeriodBalance :=
  let '(period, balances) := entry in
  {| period := period;
     avgBalance := divide (sumOf balances) (Z.of_nat (length balances));
     min := minOf balances;
     max := maxOf balances;
     days := length balances |}.

(** [weeklyAvgBalances] and [monthlyAvgBalances] *)
Definition avgBalancesOf (buckets : obj (list Z)) : list PeriodBalance :=
  arraySort (fun a b => localeCompare (period a) (period b))
    (map periodBalanceOf buckets).

Definition yearlyBalanceOf (allDailyBalances : obj Z) : YearlyBalance :=
  let totalDays := length (objKeys allDailyBalances) in
  let sumOfDailyBalances := sumOf (objValues allDailyBalances) in
  {| totalDays := totalDays;
     sumOfDailyBalances := sumOfDailyBalances;
     yearlyAvgBalance := divide sumOfDailyBalances (Z.of_nat totalDays) |}.

Definition quarterOf (date : string) : number :=
  match Date.create (VStr date) with
  | Fin t => Fin (Date.getMonth t / 3 + 1)
  | NaN => NaN
  end.

Definition formattedDailyDataOf (dailyBalances : gmap string Z)
    (allDailyBalances : obj Z) : list DailyBalance :=
  arraySort (fun a b => localeCompare (date a) (date b))
    (map (fun entry : string * Z =>
            {| date := entry.1;
               balance := entry.2;
               hasTransaction := bool_decide (is_Some (dailyBalances !! entry.1));
               quarter := quarterOf entry.1 |})
         allDailyBalances).

(** The body of the [try] block, up to the argument of [setData], run in
    the host zone UTC. *)
Definition analyze (transactions : list Transaction) : outcome AnalysisData :=
  let sorted := sortedTransactions transactions in
  let minDate := minDate transactions in
  let maxDate := maxDate transactions in
  let totalVolume := sumBy (fun t => Z.abs (amount t)) transactions in
  let inflows := sumBy positivePart transactions in
  let outflows := sumBy negativePart transactions in
  let netFlow := inflows + outflows in
  let* monthlyStats := computeMonthlyStats transactions in
  let partnerVolumes := computePartnerVolumes transactions in
  let dailyBalances := dailyBalancesOf sorted in
  let* allDailyBalances := allDailyBalancesOf Date.utc dailyBalances in
  let '(weeklyBalances, monthlyBalances) := bucketsOf allDailyBalances in
  let formattedDailyData := formattedDailyDataOf dailyBalances allDailyBalances in
  let* start := toISOStringOf minDate in
  let* end_ := toISOStringOf maxDate in
  Done {|
    basicStats := {|
      dateRangeStart := Date.slice0 10 start;
      dateRangeEnd := Date.slice0 10 end_;
      totalTransactions := length transactions;
      totalVolume := totalVolume;
      inflows := inflows;
      outflows := outflows;
      netFlow := netFlow |};
    monthlyStats := monthlyStats;
    partnerVolumes := take 10 partnerVolumes;
    dailyBalances := formattedDailyData;
    weeklyBalances := avgBalancesOf weeklyBalances;
    monthlyBalances := avgBalancesOf monthlyBalances;
    yearlyBalance := yearlyBalanceOf allDailyBalances;
    allTransactions := consolidatedSortedTransactions transactions |}.

(** The state of the component after the effect has run on the parsed rows:
    [setData] on success, [setError] in the [catch]. *)
Record State : Type := {
  data : option AnalysisData;
  isLoading : bool;
  error : option string;
}.

Definition processTransactions (transactions : list Transaction) : State :=
  match analyze transactions with
  | Done d => {| data := Some d; isLoading := false; error := None |}
  | Threw err =>
      {| data := None; isLoading := false;
         error := Some ("Failed to process financial data: " +:+ message err) |}
  end.

End Dashboard.

(* ================================================================== *)
(** * The sums of FinancialDashboard.js in binary64 *)
(* ================================================================== *)

(** The amounts of the program are binary64 numbers.  These are its sums
    as it computes them: the basic statistics add the inflows and the
    outflows of the rows apart, in the order of the input, and the balance
    is added up row by row in the order of the dates.  The names are the
    ones of the analysis, with the suffix 64. *)
Module Doubles.
Import PrimFloat.
#[local] Open Scope float_scope.

(** [_.sumBy(array, iteratee)]: lodash adds the values from left to right,
    starting with the first; no values add up to [0]. *)
Definition sumBy64 {A} (iteratee : A -> float) (array : list A) : float :=
  match array with
  | [] => 0
  | x :: rest => foldl (fun result y => result + iteratee y) (iteratee x) rest
  end.

Definition positivePart64 (amount : float) : float :=
  if 0 <? amount then amount else 0.

Definition negativePart64 (amount : float) : float :=
  if amount <? 0 then amount else 0.

(** [netFlow = inflows + outflows] *)
Definition netFlow64 (amounts : list float) : float :=
  sumBy64 positivePart64 amounts + sumBy64 negativePart64 amounts.

(** [runningBalance] after the loop over the rows. *)
Definition runningBalance64 (amounts : list float) : float :=
  foldl (fun balance amount => balance + amount) 0 amounts.

(** [inflow], [outflow] and [net] in a row of the monthly statistics. *)
Definition monthInflow64 (amounts : list float) : float :=
  sumBy64 positivePart64 amounts.

Definition monthOutflow64 (amounts : list float) : float :=
  abs (sumBy64 negativePart64 amounts).

Definition monthNet64 (amounts : list float) : float :=
  sumBy64 (fun amount => amount) amounts.

End Doubles.

(* ================================================================== *)
(** * SortableTable.js: sort state, sorted view, exports and rendering *)
(* ================================================================== *)

Module SortableTable.
Import JS.

(** A row object: its cells by property name.  A missing property reads as
    [undefined]. *)
Abbreviation Row := (gmap string value).

Definition get (row : Row) (k : string) : value := default VUndefined (row !! k).

(** What a custom renderer is called with: a row object or a cell value. *)
Inductive renderArg : Type :=
  | ARow (row : Row)
  | ACell (v : value).

Record Column : Type := {
  key : string;
  header : string;
  type : option string;
  render : option (renderArg -> value);
}.

(** The props.  [defaultSortKey] and [defaultSortDirection] are passed by
    FinancialDashboard.js to its table of all transactions; SortableTable
    does not name them among the props it reads. *)
Record Props : Type := {
  data : list Row;
  columns : list Column;
  tableName : string;
  rowClassName : string;
  getRowClassName : Row -> string;
  useVirtualization : bool;
  virtualHeight : Z;
  rowHeight : Z;
  defaultSortKey : option string;
  defaultSortDirection : option string;
}.

Inductive Direction : Type := asc | desc.

Record SortConfig : Type := {
  sortKey : option string;
  direction : Direction;
}.

(** [useState({ key: null, direction: 'asc' })] *)
Definition initialSortConfig (props : Props) : SortConfig :=
  {| sortKey := None; direction := asc |}.

(** [(columns.find(col => col.key === key) || {}).type || 'string'] *)
Definition typeOf (columns : list Column) (k : string) : string :=
  match find (fun col => String.eqb (key col) k) columns with
  | Some col =>
      match type col with
      | Some t => if String.eqb t EmptyString then "string" else t
      | None => "string"
      end
  | None => "string"
  end.

Definition isNumberOrDate (type : string) : bool :=
  String.eqb type "number" || String.eqb type "date".

(** [requestSort(key)]: the update applied to the previous sort state. *)
Definition requestSort (columns : list Column) (k : string)
    (prevConfig : SortConfig) : SortConfig :=
  let type := typeOf columns k in
  if bool_decide (sortKey prevConfig = Some k) then
    let newDirection :=
      if isNumberOrDate type
      then match direction prevConfig with desc => asc | asc => desc end
      else match direction prevConfig with asc => desc | desc => asc end in
    {| sortKey := Some k; direction := newDirection |}
  else if isNumberOrDate type
  then {| sortKey := Some k; direction := desc |}
  else {| sortKey := Some k; direction := asc |}.

(** [Array.prototype.sort] sorts in place.  To follow what the table does
    to the array it is given, arrays live in a store and are named by
    their address. *)
Abbreviation store := (gmap nat (list Row)).

(** What an export does: it alerts the user or saves a file. *)
Inductive exportResult (C : Type) : Type :=
  | Alert (msg : string)
  | SaveAs (fileName : string) (content : C).
Arguments Alert {C} msg.
Arguments SaveAs {C} fileName content.

Section WithCollation.

(** [a.localeCompare(b)] depends on the locale of the host; the table is
    modelled for any such comparison. *)
Variable localeCompare : string -> string -> number.

Definition numberOf (v : value) : number := toNumber (jsOr v (VNum (Fin 0))).

Definition dateOf (v : value) : number :=
  if truthy v then Date.create v else Fin 0.

Definition stringOf (v : value) : string :=
  toLowerCase (toString (jsOr v (VStr EmptyString))).

(** The comparator passed to [sort]. *)
Definition compareRows (type : string) (k : string) (dir : Direction)
    (a b : Row) : number :=
  let aValue := get a k in
  let bValue := get b k in
  if String.eqb type "number" then
    match dir with
    | asc => numSub (numberOf aValue) (numberOf bValue)
    | desc => numSub (numberOf bValue) (numberOf aValue)
    end
  else if String.eqb type "date" then
    let dateA := dateOf aValue in
    let dateB := dateOf bValue in
    match dir with
    | asc => numSub dateA dateB
    | desc => numSub dateB dateA
    end
  else
    let strA := stringOf aValue in
    let strB := stringOf bValue in
    match dir with
    | asc => localeCompare strA strB
    | desc => localeCompare strB strA
    end.

(** [sortedData], as a function of the contents of [data]. *)
Definition sortedData (data : list Row) (columns : list Column)
    (sortConfig : SortConfig) : list Row :=
  match sortKey sortConfig with
  | None => data
  | Some k =>
      if String.eqb k EmptyString then data
      else arraySort (compareRows (typeOf columns k) k (direction sortConfig)) data
  end.

(** ** Exports *)

(** [s.replace(/\s+/g, '_')] *)
Fixpoint replaceSpaces (inRun : bool) (s : string) : string :=
  match s with
  | EmptyString => EmptyString
  | String c s' =>
      if isSpace c
      then (if inRun then replaceSpaces true s' else String "_" (replaceSpaces true s'))
      else String c (replaceSpaces false s')
  end.

(** [s.split('T')[0]] *)
Fixpoint beforeT (s : string) : string :=
  match s with
  | EmptyString => EmptyString
  | String c s' => if Ascii.eqb c "T" then EmptyString else String c (beforeT s')
  end.

Definition fileNameOf (tableName : string) (now : Z) (ext : string) : string :=
  replaceSpaces false tableName +:+ "_"
    +:+ Date.slice0 10 (Date.isoOfTime now) +:+ ext.

Definition isType (col : Column) (t : string) : bool :=
  match type col with
  | Some t' => String.eqb t' t
  | None => false
  end.

(** The value of a cell in the CSV export; the conversion of a date throws
    on an invalid date. *)
Definition csvValue (col : Column) (row : Row) : outcome value :=
  let value := get row (key col) in
  match render col with
  | Some _ =>
      if isType col "number" then Done (VNum (toNumber value))
      else if isType col "date" && truthy value then
        let* iso := Date.toISOString (Date.create value) in
        Done (VStr (beforeT iso))
      else Done value
  | None => Done value
  end.

Definition quote : string := String (ascii_of_N 34) EmptyString.

(** The text of a value in the CSV export. *)
Definition csvField (value : value) : string :=
  match value with
  | VNull | VUndefined => EmptyString
  | VStr s => if includesChar "," s then quote +:+ s +:+ quote else s
  | _ => toString value
  end.

Definition csvRow (columns : list Column) (row : Row) : outcome string :=
  let* values := mapM (fun col => csvValue col row) columns in
  Done (join "," (map csvField values)).

Definition newline : string := String (ascii_of_N 10) EmptyString.

Definition failedToExport : string :=
  "Failed to export data. See console for details.".

(** [exportToCSV], run at time [now] in the sort state [sortConfig]. *)
Definition exportToCSV (props : Props) (sortConfig : SortConfig) (now : Z)
    : exportResult string :=
  if (length (data props) =? 0)%nat then Alert "No data to export"
  else
    let headerRow := join "," (map header (columns props)) in
    match mapM (csvRow (columns props))
               (sortedData (data props) (columns props) sortConfig) with
    | Done dataRows =>
        SaveAs (fileNameOf (tableName props) now ".csv")
               (headerRow +:+ newline +:+ join newline dataRows)
    | Threw _ => Alert failedToExport
    end.

(** The object exported for a row: one property per column header. *)
Definition exportRow (columns : list Column) (row : Row) : obj value :=
  foldl (fun exportRow col => objSet (header col) (get row (key col)) exportRow)
        [] columns.

(** [exportToJSON]; the content is the array handed to [JSON.stringify]. *)
Definition exportToJSON (props : Props) (sortConfig : SortConfig) (now : Z)
    : exportResult (list (obj value)) :=
  if (length (data props) =? 0)%nat then Alert "No data to export"
  else
    SaveAs (fileNameOf (tableName props) now ".json")
           (map (exportRow (columns props))
                (sortedData (data props) (columns props) sortConfig)).

(** ** Rendering of the body *)

(** A rendered row: its class name and the contents of its cells. *)
Record RenderedRow : Type := {
  rowClass : string;
  cells : list value;
}.

Definition rowClassOf (rowClassName : string) (getRowClassName : Row -> string)
    (row : Row) : string :=
  "tr flex border-b border-gray-200 " +:+ rowClassName +:+ " "
    +:+ getRowClassName row.

(** A row of the non-virtualized body. *)
Definition renderRow (props : Props) (row : Row) : RenderedRow :=
  {| rowClass := rowClassOf (rowClassName props) (getRowClassName props) row;
     cells :=
       map (fun column =>
              match render column with
              | Some f => f (ARow row)
              | None => get row (key column)
              end)
           (columns props) |}.

(** [RowRenderer], the row renderer given to react-window.  The code has
    no guard on the index: beyond the rows [rows[index]] is [undefined],
    and the class function of the tables of FinancialDashboard.js, which
    is asked first, or at the latest the read of the first cell throws a
    TypeError. *)
Definition RowRenderer (props : Props) (rows : list Row) (index : nat)
    : outcome RenderedRow :=
  match rows !! index with
  | Some row =>
      Done {| rowClass :=
                rowClassOf (rowClassName props) (getRowClassName props) row;
              cells :=
                map (fun column =>
                       match render column with
                       | Some f => f (ACell (get row (key column)))
                       | None => get row (key column)
                       end)
                    (columns props) |}
  | None => Threw (TypeError "Cannot read properties of undefined")
  end.

(** react-window's [FixedSizeList]: the indices of the items whose box
    meets the viewport of height [height] scrolled by [scrollOffset]. *)
Definition visibleIndices (height itemSize : Z) (itemCount : nat)
    (scrollOffset : Z) : list nat :=
  filter (fun i : nat =>
            Z.of_nat i * itemSize < scrollOffset + height
            ∧ scrollOffset < (Z.of_nat i + 1) * itemSize)
         (seq 0 itemCount).

(** The body of the table: all rows, or the rows that the list asks the
    row renderer for. *)
Definition renderBody (props : Props) (sortConfig : SortConfig)
    (scrollOffset : Z) : outcome (list RenderedRow) :=
  let rows := sortedData (data props) (columns props) sortConfig in
  if negb (useVirtualization props) then Done (map (renderRow props) rows)
  else
    mapM (RowRenderer props rows)
         (visibleIndices (virtualHeight props) (rowHeight props)
                         (length rows) scrollOffset).

(** ** The arrays as mutable objects *)

Definition contents (h : store) (a : nat) : list Row := default [] (h !! a).

(** [[...a]]: a new array with the elements of [a]. *)
Definition spread (h : store) (a : nat) : nat * store :=
  let r := fresh (dom h) in (r, <[r := contents h a]> h).

(** [a.sort(comparefn)]: sorts the array at [a] in place and returns it. *)
Definition sortInPlace (comparefn : Row -> Row -> number) (h : store) (a : nat)
    : nat * store :=
  (a, alter (arraySort comparefn) a h).

(** The body of the [useMemo] that computes [sortedData], on the store. *)
Definition sortedDataRef (h : store) (data : nat) (columns : list Column)
    (sortConfig : SortConfig) : nat * store :=
  match sortKey sortConfig with
  | None => (data, h)
  | Some k =>
      if String.eqb k EmptyString then (data, h)
      else
        let '(copy, h1) := spread h data in
        sortInPlace (compareRows (typeOf columns k) k (direction sortConfig))
                    h1 copy
  end.

(** A mounted table: its sort state, the address of the memoized
    [sortedData] and the store. *)
Record Instance : Type := {
  sortConfig : SortConfig;
  sortedRef : nat;
  heap : store;
}.

(** A render of the component with the array at address [dataRef]. *)
Definition rerender (columns : list Column) (dataRef : nat)
    (cfg : SortConfig) (h : store) : Instance :=
  let '(r, h') := sortedDataRef h dataRef columns cfg in
  {| sortConfig := cfg; sortedRef := r; heap := h' |}.

Inductive event : Type :=
  | HeaderClick (k : string)
  | ExportCSVClick
  | ExportJSONClick.

(** What an event does to the instance.  The exports read [data] and
    [sortedData] and build new strings and objects; they keep no array. *)
Definition handle (columns : list Column) (dataRef : nat)
    (i : Instance) (e : event) : Instance :=
  match e with
  | HeaderClick k =>
      rerender columns dataRef (requestSort columns k (sortConfig i)) (heap i)
  | ExportCSVClick | ExportJSONClick => i
  end.

Definition mount (props : Props) (dataRef : nat) (h : store) : Instance :=
  rerender (columns props) dataRef (initialSortConfig props) h.

Definition run (props : Props) (dataRef : nat) (h : store)
    (events : list event) : Instance :=
  foldl (handle (columns props) dataRef) (mount props dataRef h) events.

End WithCollation.

End SortableTable.

(* ================================================================== *)
(** * FinancialDashboard.js: what is computed for the display *)
(* ================================================================== *)

Module DashboardView.
Import JS Dashboard.

(** [_.orderBy(l, [key], ['asc'])] with an integer key. *)
Definition orderByAsc {A} (key : A -> Z) : list A -> list A :=
  stableSort (fun a b => key b <? key a).

(** An entry of [largestTransactions]: [name], [date], [value], [type]. *)
Record LargeTransaction : Type := {
  txName : value;
  txDate : value;
  txValue : Z;
  txType : string;
}.

(** [_.chain(consolidatedSortedTransactions).filter(t => t.amount > 0)
      .orderBy(["Amount (EUR)"], ["desc"]).take(10).map(...).value()] *)
Definition largestInflowsOf (consolidated : list Transaction)
    : list LargeTransaction :=
  map (fun t => {| txName := partnerName t; txDate := bookingDate t;
                   txValue := amount t; txType := "inflow" |})
      (take 10 (orderByDesc amount
                  (filter (fun t => 0 < amount t) consolidated))).

Definition largestOutflowsOf (consolidated : list Transaction)
    : list LargeTransaction :=
  map (fun t => {| txName := partnerName t; txDate := bookingDate t;
                   txValue := Z.abs (amount t); txType := "outflow" |})
      (take 10 (orderByAsc amount
                  (filter (fun t => amount t < 0) consolidated))).

(** [item.quarter === q] *)
Definition quarterIs (q : Z) (item : DailyBalance) : bool :=
  match quarter item with
  | Fin z => z =? q
  | NaN => false
  end.

(** The test of [filteredDailyData] for the selected time range. *)
Definition inTimeRange (timeRange : string) (item : DailyBalance) : bool :=
  if String.eqb timeRange "all" then true
  else if String.eqb timeRange "q1" then quarterIs 1 item
  else if String.eqb timeRange "q2" then quarterIs 2 item
  else if String.eqb timeRange "q3" then quarterIs 3 item
  else if String.eqb timeRange "q4" then quarterIs 4 item
  else true.

Definition filteredDailyData (timeRange : string)
    (dailyBalances : list DailyBalance) : list DailyBalance :=
  filter (fun item => inTimeRange timeRange item) dailyBalances.



(** The comparators [(a, b) => b.f - a.f] and [(a, b) => a.f - b.f]. *)
Definition descending {A} (f : A -> Z) (a b : A) : number := Fin (f b - f a).
Definition ascending {A} (f : A -> Z) (a b : A) : number := Fin (f a - f b).

(** [x - y > 0] for two quotients, [NaN] being [None]. *)
Definition exceeds (x y : option Q) : bool :=
  match x, y with
  | Some a, Some b => negb (Qle_bool a b)
  | _, _ => false
  end.

(** [l.sort((a, b) => b.avgBalance - a.avgBalance)] and its converse. *)
Definition sortByAvgDesc : list PeriodBalance -> list PeriodBalance :=
  stableSort (fun a b => exceeds (avgBalance b) (avgBalance a)).

Definition sortByAvgAsc : list PeriodBalance -> list PeriodBalance :=
  stableSort (fun a b => exceeds (avgBalance a) (avgBalance b)).

(** The items of "Key Insights" that sort an array of the state or index
    one.  An item is a pair because its two texts come from two calls of
    [sort]; the text of a month is given by the key of the month.  [None]
    stands for an item that is not shown. *)
Record KeyInsights : Type := {
  highestInflows : option string * option Z;
  largestOutflows : option string * option Z;
  mostPositiveMonth : option string * option Z;
  mostNegativeMonth : option string * option Z;
  highestMonthlyAverage : option string * option (option Q);
  lowestMonthlyAverage : option string * option (option Q);
  endingBalance : Z;
  frequencyPeak : option string * option nat;
  topPartnerByVolume : option (string * Z);
  mostFrequentPartner : option string * option nat;
}.

(** [a.sort(cmp)[0].f] and then [a.sort(cmp)[0].g]: the array after the two
    calls and what was read. *)
Definition sortTwice {A B C} (sort : list A -> list A) (f : A -> B) (g : A -> C)
    (a : list A) : list A * (option B * option C) :=
  let a1 := sort a in
  let a2 := sort a1 in
  (a2, (f <$> head a1, g <$> head a2)).

(** The render of the block "Key Insights".  [Array.prototype.sort] sorts
    in place, so the arrays of the state [data] are left in the order of
    the last call; the result is the items and the state after the render.
    The items that only format a number of the state (net flow, yearly
    average, transaction size, share of the top partners, the first type,
    currency and largest transactions) cannot throw and change nothing;
    they are left out. *)
Definition keyInsights (analysis : AnalysisData)
    : outcome (KeyInsights * AnalysisData) :=
  let '(ms1, highestInflows) :=
    sortTwice (arraySort (descending monthInflow)) month monthInflow
              (monthlyStats analysis) in
  let '(ms2, largestOutflows) :=
    sortTwice (arraySort (descending monthOutflow)) month monthOutflow ms1 in
  let '(ms3, mostPositiveMonth) :=
    sortTwice (arraySort (descending monthNet)) month monthNet ms2 in
  let '(ms4, mostNegativeMonth) :=
    sortTwice (arraySort (ascending monthNet)) month monthNet ms3 in
  let '(mb1, highestMonthlyAverage) :=
    sortTwice sortByAvgDesc period avgBalance (monthlyBalances analysis) in
  let '(mb2, lowestMonthlyAverage) :=
    sortTwice sortByAvgAsc period avgBalance mb1 in
  let* endingBalance :=
    match last (dailyBalances analysis) with
    | Some e => Done (balance e)
    | None =>
        Threw (TypeError "Cannot read properties of undefined (reading 'balance')")
    end in
  let '(ms5, frequencyPeak) :=
    sortTwice (arraySort (descending (fun s => Z.of_nat (monthCount s))))
              month monthCount ms4 in
  let topPartnerByVolume :=
    (fun p => (name p, partnerTotalVolume p)) <$> head (partnerVolumes analysis) in
  let '(pv1, mostFrequentPartner) :=
    sortTwice (arraySort (descending (fun p => Z.of_nat (count p))))
              name count (partnerVolumes analysis) in
  Done ({| highestInflows := highestInflows;
           largestOutflows := largestOutflows;
           mostPositiveMonth := mostPositiveMonth;
           mostNegativeMonth := mostNegativeMonth;
           highestMonthlyAverage := highestMonthlyAverage;
           lowestMonthlyAverage := lowestMonthlyAverage;
           endingBalance := endingBalance;
           frequencyPeak := frequencyPeak;
           topPartnerByVolume := topPartnerByVolume;
           mostFrequentPartner := mostFrequentPartner |},
        {| basicStats := basicStats analysis;
           monthlyStats := ms5;
           partnerVolumes := pv1;
           dailyBalances := dailyBalances analysis;
           weeklyBalances := weeklyBalances analysis;
           monthlyBalances := mb2;
           yearlyBalance := yearlyBalance analysis;
           allTransactions := allTransactions analysis |}).

End DashboardView.

(** The header of the table. *)
Module SortableTableHeader.
Import JS SortableTable.

(** The sign beside a column header: the neutral sign or an arrow. *)
Inductive Indicator : Type := Neutral | Up | Down.

(** [getSortIndicator(key)] *)
Definition getSortIndicator (sortConfig : SortConfig) (k : string) : Indicator :=
  if bool_decide (sortKey sortConfig = Some k) then
    match direction sortConfig with
    | asc => Up
    | desc => Down
    end
  else Neutral.

End SortableTableHeader.

(* ================================================================== *)
(** * Vocabulary of the properties *)
(* ================================================================== *)

(** Calendar dates as triples (year, month, day), and the checks that are
    run over a whole 400-year era. *)
Module Calendar.
Import JS Date.

Definition validCivil (y m d : Z) : bool :=
  (1 <=? m) && (m <=? 12) && (1 <=? d) && (d <=? daysInMonth y m).

Definition civilLtb (a b : Z * Z * Z) : bool :=
  let '(y1, m1, d1) := a in
  let '(y2, m2, d2) := b in
  (y1 <? y2) || ((y1 =? y2) && ((m1 <? m2) || ((m1 =? m2) && (d1 <? d2)))).

Definition lexCompare (c1 c2 : comparison) : comparison :=
  match c1 with
  | Eq => c2
  | _ => c1
  end.

Definition civilCompare (a b : Z * Z * Z) : comparison :=
  lexCompare (a.1.1 ?= b.1.1) (lexCompare (a.1.2 ?= b.1.2) (a.2 ?= b.2)).

(** [P] holds of the [fuel] integers from [z] on. *)
Fixpoint checkRange (P : Z -> bool) (fuel : nat) (z : Z) : bool :=
  match fuel with
  | O => true
  | S f => P z && checkRange P f (z + 1)
  end.

(** The year [yoe] of the era, which starts in March, has 365 days, or 366
    when the February that ends it is in a leap year. *)
Definition eraYearOk (yoe : Z) : bool :=
  yearStart (yoe + 1) - yearStart yoe
    =? (if isLeapYear (yoe + 1) then 366 else 365).

(** The day [doy] of a year that starts in March falls in a month [mp], on
    a day [d] that the month has in any year; the day 365 is 29 February. *)
Definition yearDayOk (doy : Z) : bool :=
  let mp := (5 * doy + 2) / 153 in
  let d := doy - monthStart mp + 1 in
  let m := if mp <? 10 then mp + 3 else mp - 9 in
  (0 <=? mp) && (mp <=? 11) && (1 <=? d)
  && (if doy =? 365 then (m =? 2) && (d =? 29) else d <=? daysInMonth 1 m).

(** The month [mp] of a year that starts in March is as long as its month
    of the calendar; February, the last one, starts on day 337. *)
Definition monthOk (mp : Z) : bool :=
  let m := if mp <? 10 then mp + 3 else mp - 9 in
  (0 <=? monthStart mp) && (monthStart (mp + 1) <=? 337 + 31)
  && (if mp =? 11 then monthStart mp =? 337
      else (monthStart (mp + 1) - monthStart mp =? daysInMonth 1 m)
           && (monthStart (mp + 1) <=? 337)).

(** The length of the year [yoe] of the era, counted from March. *)
Definition yearLength (yoe : Z) : Z := if isLeapYear (yoe + 1) then 366 else 365.

(** The day, counted from the start of era 0, on which the year [y'],
    counted from March, starts. *)
Definition yearDay (y' : Z) : Z := (y' / 400) * daysPerEra + yearStart (y' mod 400).

(** The text [YYYY-MM-DD] of a date. *)
Definition dateText (y m d : Z) : string :=
  pad4 y +:+ "-" +:+ pad2 m +:+ "-" +:+ pad2 d.

(** The first and the last day that [parse] can yield. *)
Definition firstDay : Z := makeDay 0 1 1.
Definition lastDay : Z := makeDay 9999 12 31.

(** The date text of a day: the first ten characters of the ISO text of
    its midnight. *)
Definition isoDay (n : Z) : string := slice0 10 (isoOfTime (n * msPerDay)).

End Calendar.

(** What the properties of the analysis are stated with. *)
Module DashboardSpec.
Import JS Date Calendar Dashboard.

(** The cell holds the text of a calendar date, in the form [YYYY-MM-DD]. *)
Definition isDateText (v : value) : bool :=
  match v with
  | VStr s => match Date.parse s with Fin _ => true | NaN => false end
  | _ => false
  end.

(** Every booking date of the rows is the text of a calendar date. *)
Definition validDates (transactions : list Transaction) : bool :=
  forallb (fun t => isDateText (bookingDate t)) transactions.

(** The time of a row whose date is valid, and of a date text. *)
Definition timeZ (t : Transaction) : Z :=
  match time t with Fin z => z | NaN => 0 end.

Definition textTime (s : string) : Z :=
  match Date.parse s with Fin z => z | NaN => 0 end.

Definition keyOf (t : Transaction) : string := toString (bookingDate t).

Definition validKeys (m : gmap string Z) : Prop :=
  forall k, is_Some (m !! k) -> exists z, Date.parse k = Fin z.

(** The days [a], [a + 1], ... ([k] of them). *)
Fixpoint daysFrom (a : Z) (k : nat) : list Z :=
  match k with
  | O => []
  | S k' => a :: daysFrom (a + 1) k'
  end.

(** What the loop is to produce for a run of days: each day gets the
    balance recorded for its date, or else the balance of the day before
    ([lastBalance] for the first day). *)
Fixpoint carryForward (m : gmap string Z) (lastBalance : Z) (days : list Z)
    : list (string * Z) :=
  match days with
  | [] => []
  | n :: rest =>
      let b := default lastBalance (m !! isoDay n) in
      (isoDay n, b) :: carryForward m b rest
  end.

Definition dailyEntry (m : gmap string Z) (entry : string * Z) : DailyBalance :=
  {| date := entry.1;
     balance := entry.2;
     hasTransaction := bool_decide (is_Some (m !! entry.1));
     quarter := quarterOf entry.1 |}.

(** The spec's scenario: 100 on 1 January 2024, -50 two days later. *)
Definition scenario : list Transaction :=
  [ {| bookingDate := VStr "2024-01-01"; partnerName := VStr "Employer";
       amount := 100 |};
    {| bookingDate := VStr "2024-01-03"; partnerName := VStr "Grocer";
       amount := -50 |} ].

(** A row whose booking date cell is blank. *)
Definition blankDateRow : Transaction :=
  {| bookingDate := VNull; partnerName := VStr "Grocer"; amount := 100 |}.

(** The host zone keeps one offset from UTC: it has no summer time. *)
Definition fixedOffset (zone : Zone) : Prop :=
  exists c, forall t, offsetAt zone t = c /\ offsetOfLocal zone t = c.

(** The daily series of a result as the loop leaves it: the dates with
    their balances. *)
Definition seriesOf (r : AnalysisData) : obj Z :=
  map (fun e => (date e, balance e)) (dailyBalances r).

(** Two rows around the last Sunday of March 2024, on which the clocks of
    central Europe go forward. *)
Definition easterRows : list Transaction :=
  [ {| bookingDate := VStr "2024-03-29"; partnerName := VStr "Employer";
       amount := 100 |};
    {| bookingDate := VStr "2024-04-02"; partnerName := VStr "Grocer";
       amount := 50 |} ].

(** A row with a date and a row whose booking date cell is blank;
    [new Date(null)] is the epoch. *)
Definition blankAndDatedRows : list Transaction :=
  [ {| bookingDate := VStr "2024-01-01"; partnerName := VStr "Employer";
       amount := 100 |};
    {| bookingDate := VNull; partnerName := VStr "Grocer"; amount := 5 |} ].

(** The row counts as one of the account holder's transfers: its partner
    name matches a spelling of the name, or is the label already. *)
Definition isMyTransfers (t : Transaction) : bool :=
  isOwnName (partnerName t)
  || match partnerName t with
     | VStr s => String.eqb s "My Transfers"
     | _ => false
     end.

Definition aliasRow : Transaction :=
  {| bookingDate := VStr "2024-01-01"; partnerName := VStr "Eugenio Battaglia";
     amount := -20 |}.

Definition labelRow : Transaction :=
  {| bookingDate := VStr "2024-01-02"; partnerName := VStr "My Transfers";
     amount := -30 |}.

Definition qsum (l : list Q) : Q := foldr Qplus 0%Q l.

(** The mean of a period times its number of days. *)
Definition weighted (p : PeriodBalance) : Q :=
  (default 0 (avgBalance p) * inject_Z (Z.of_nat (days p)))%Q.

(** The mean of the period means, each weighted by its number of days. *)
Definition weightedMean (ps : list PeriodBalance) : Q :=
  (qsum (map weighted ps)
   / inject_Z (Z.of_nat (foldr Nat.add O (map days ps))))%Q.

(** A bucketing of the series: non-empty buckets that share out its
    entries. *)
Definition sharesOut (buckets : list (string * list Z)) (all : list (string * Z))
    : Prop :=
  Forall (fun e : string * list Z => e.2 <> []) buckets /\
  sumBy (fun e => sumOf e.2) buckets = sumOf (map snd all) /\
  sumBy (fun e => Z.of_nat (length e.2)) buckets = Z.of_nat (length all).

End DashboardSpec.

(** What the properties of the table are stated with. *)
Module TableSpec.
Import JS SortableTable.

(** The cell is missing: [undefined] or [null]. *)
Definition missing (v : value) : Prop := v = VUndefined \/ v = VNull.

(** The column exports the raw cell: it has no renderer, or is typed
    neither number nor date. *)
Definition rawColumn (col : Column) : bool :=
  match render col with
  | None => true
  | Some _ => negb (isType col "number") && negb (isType col "date")
  end.

Definition renderedNumber (col : Column) : bool :=
  match render col with
  | None => false
  | Some _ => isType col "number"
  end.

(** The viewport shows the list from its top and is high enough for all
    [n] rows. *)
Definition coversAll (height itemSize : Z) (n : nat) (scrollOffset : Z) : Prop :=
  scrollOffset = 0 /\ 0 < itemSize /\ Z.of_nat n * itemSize <= height.

(** The cell values of a rendered body, row by row. *)
Definition renderedCells (body : outcome (list RenderedRow))
    : outcome (list (list value)) :=
  let* rows := body in Done (map cells rows).

(** A renderer written for a row object, [(row) => row.value]; the
    property of a number is [undefined]. *)
Definition renderValueOfRow (arg : renderArg) : value :=
  match arg with
  | ARow row => get row "value"
  | ACell _ => VUndefined
  end.

Definition amountColumn : Column :=
  {| key := "value"; header := "Amount"; type := Some "number";
     render := Some renderValueOfRow |}.

Definition dateColumn : Column :=
  {| key := "date"; header := "Date"; type := Some "date"; render := None |}.

Definition tableOf (rows : list Row) (cols : list Column) (virtual : bool)
    : Props :=
  {| data := rows; columns := cols; tableName := "Largest Inflows";
     rowClassName := EmptyString; getRowClassName := fun _ => EmptyString;
     useVirtualization := virtual; virtualHeight := 400; rowHeight := 35;
     defaultSortKey := None; defaultSortDirection := None |}.

(** The props FinancialDashboard.js gives to its table of all
    transactions, as far as the sort is concerned. *)
Definition allTransactionsTable (rows : list Row) (cols : list Column) : Props :=
  {| data := rows; columns := cols; tableName := "All_Transactions";
     rowClassName := EmptyString; getRowClassName := fun _ => EmptyString;
     useVirtualization := true; virtualHeight := 600; rowHeight := 40;
     defaultSortKey := Some "Booking Date";
     defaultSortDirection := Some "desc" |}.

Definition unsorted : SortConfig := {| sortKey := None; direction := asc |}.

Definition garbageRow : Row := {[ "date" := VStr "garbage" ]}.
Definition epochRow : Row := {[ "date" := VStr "1970-01-01" ]}.
Definition laterRow : Row := {[ "date" := VStr "2024-01-01" ]}.
Definition byDate : SortConfig := {| sortKey := Some "date"; direction := asc |}.

Definition nullAmountRow : Row := {[ "value" := VNull ]}.

(** The amount column without its renderer, and a date column with a
    renderer on the same cell. *)
Definition plainAmountColumn : Column :=
  {| key := "value"; header := "Amount"; type := Some "number";
     render := None |}.

Definition valueDateColumn : Column :=
  {| key := "value"; header := "Date"; type := Some "date";
     render := Some renderValueOfRow |}.

End TableSpec.

(** What the further properties of the table are stated with. *)
Module TableViewSpec.
Import JS SortableTable.

(** The number a cell counts as in the sort of a number column. *)
Definition cellNumber (k : string) (row : Row) : Z :=
  match numberOf (get row k) with
  | Fin z => z
  | NaN => 0
  end.

(** The text holds no white space. *)
Definition noSpace (s : string) : Prop :=
  forall c, isSpace c = true -> includesChar c s = false.

(** The cell of a date column with a renderer whose conversion throws in
    the CSV export. *)
Definition badDateCell (col : Column) (row : Row) : Prop :=
  is_Some (render col) /\ isType col "date" = true /\
  truthy (get row (key col)) = true /\ Date.create (get row (key col)) = NaN.

(** A column with a renderer, typed date. *)
Definition renderedDateColumn (k : string) : Column :=
  {| key := k; header := "Date"; type := Some "date";
     render := Some (fun _ => VUndefined) |}.

Definition byNumber (k : string) (dir : Direction) : SortConfig :=
  {| sortKey := Some k; direction := dir |}.

End TableViewSpec.

(** What the further properties of the analysis are stated with. *)
Module AnalysisViewSpec.
Import JS Date Calendar Dashboard DashboardSpec.

(** The month of a row that has a time: the text [YYYY-MM]. *)
Definition monthOf (t : Transaction) : string := slice0 7 (isoOfTime (timeZ t)).

End AnalysisViewSpec.

Module RankingSpec.
Import JS Dashboard DashboardView.

(** The entry of [largestTransactions] made of a row. *)
Definition inflowEntry (t : Transaction) : LargeTransaction :=
  {| txName := partnerName t; txDate := bookingDate t;
     txValue := amount t; txType := "inflow" |}.

Definition outflowEntry (t : Transaction) : LargeTransaction :=
  {| txName := partnerName t; txDate := bookingDate t;
     txValue := Z.abs (amount t); txType := "outflow" |}.

(** Rows of four partners, of which "Grocer" has two. *)
Definition fourRows : list Transaction :=
  [ {| bookingDate := VStr "2024-01-01"; partnerName := VStr "Employer";
       amount := 100 |};
    {| bookingDate := VStr "2024-01-03"; partnerName := VStr "Grocer";
       amount := -50 |};
    {| bookingDate := VStr "2024-01-02"; partnerName := VStr "Grocer";
       amount := -20 |};
    {| bookingDate := VStr "2024-02-01"; partnerName := VStr "Landlord";
       amount := -70 |} ].

End RankingSpec.

Module BalanceSpec.
Import JS Dashboard DashboardSpec.

(** The sum of the amounts of the rows booked up to the time [z]. *)
Definition bookedUpTo (txs : list Transaction) (z : Z) : Z :=
  sumBy amount (filter (fun t => timeZ t <= z) txs).

End BalanceSpec.

Module InsightSpec.
Import JS Dashboard DashboardView.

(** The arrays of the state after a render of "Key Insights": the monthly
    statistics after the sorts by inflow, outflow, net flow (twice) and
    count, the partners after the sort by count, the monthly balances
    after the two sorts by mean. *)
Definition monthlyStatsAfter (l : list MonthlyStat) : list MonthlyStat :=
  arraySort (descending (fun s => Z.of_nat (monthCount s)))
    (arraySort (ascending monthNet)
       (arraySort (descending monthNet)
          (arraySort (descending monthOutflow)
             (arraySort (descending monthInflow) l)))).

Definition partnerVolumesAfter (l : list PartnerVolume) : list PartnerVolume :=
  arraySort (descending (fun p => Z.of_nat (count p))) l.

Definition monthlyBalancesAfter (l : list PeriodBalance) : list PeriodBalance :=
  sortByAvgAsc (sortByAvgDesc l).

(** The item names an entry of [l] that is greatest for the measure [f],
    with its measure. *)
Definition namesGreatest {A B} (key : A -> string) (shown : A -> B) (f : A -> Z)
    (l : list A) (item : option string * option B) : Prop :=
  match l with
  | [] => item = (None, None)
  | _ => exists x, x ∈ l /\ item = (Some (key x), Some (shown x))
                   /\ forall y, y ∈ l -> f y <= f x
  end.

End InsightSpec.

Module WeekSpec.
Import JS Date Calendar.

(** The Thursday of the week, from Monday to Sunday, of the day [n]. *)
Definition thursdayOf (n : Z) : Z := n - (n + 3) mod 7 + 3.

Definition yearOfDay (n : Z) : Z := (civilFromDays n).1.1.

(** The ISO 8601 week of a day: the week belongs to the year of its
    Thursday, and is the first week of that year when that Thursday is
    among the first seven days of the year. *)
Definition isoWeekOf (n : Z) : Z :=
  (thursdayOf n - makeDay (yearOfDay (thursdayOf n)) 1 1) / 7 + 1.

End WeekSpec.

Module BucketSpec.
Import JS Dashboard.

(** The least and the greatest balance of a bucket are those of the days
    that make it up: each is the balance of one of the days, and the
    balances of all of them lie between the two. *)
Definition extremesOf (p : PeriodBalance) (days : list DailyBalance) : Prop :=
  exists lo hi e1 e2,
    min p = Some lo /\ max p = Some hi /\
    e1 ∈ days /\ balance e1 = lo /\
    e2 ∈ days /\ balance e2 = hi /\
    forall e, e ∈ days -> lo <= balance e <= hi.

End BucketSpec.

Module SizeSpec.
Import JS Date Calendar.

(** The first day of the month of a day. *)
Definition firstOfMonth (n : Z) : Z :=
  let '(y, m, _) := civilFromDays n in makeDay y m 1.

(** [w.toString().padStart(2, '0')] is the two digits of [w]. *)
Definition twoDigitsOk (w : Z) : bool :=
  String.eqb (padStart2 (numberToString (Fin w))) (pad2 w).

End SizeSpec.

(* ================================================================== *)
(** * Facts about the calendar and the date texts *)
(* ================================================================== *)

Module DateFacts.
Import JS Date Calendar.

Lemma checkRange_spec P fuel z :
  checkRange P fuel z = true ->
  forall k, z <= k < z + Z.of_nat fuel -> P k = true.
Proof.
  revert z. induction fuel as [|f IH]; intros z H k Hk; [lia|].
  simpl in H. apply andb_true_iff in H as [Hz Hrest].
  destruct (Z.eq_dec k z) as [->|Hne]; [done|].
  apply (IH (z + 1)); [done|lia].
Qed.

Lemma eraYear_ok yoe : 0 <= yoe < 399 -> eraYearOk yoe = true.
Proof.
  intros H. apply (checkRange_spec eraYearOk 399 0); [by vm_compute|lia].
Qed.

Lemma yearDay_ok doy : 0 <= doy <= 365 -> yearDayOk doy = true.
Proof.
  intros H. apply (checkRange_spec yearDayOk 366 0); [by vm_compute|lia].
Qed.

Lemma month_ok mp : 0 <= mp <= 11 -> monthOk mp = true.
Proof.
  intros H. apply (checkRange_spec monthOk 12 0); [by vm_compute|lia].
Qed.

Lemma isLeapYear_era y q : isLeapYear (y + 400 * q) = isLeapYear y.
Proof.
  unfold isLeapYear.
  assert ((y + 400 * q) mod 4 = y mod 4) as -> by (Z.div_mod_to_equations; lia).
  assert ((y + 400 * q) mod 100 = y mod 100) as -> by (Z.div_mod_to_equations; lia).
  assert ((y + 400 * q) mod 400 = y mod 400) as -> by (Z.div_mod_to_equations; lia).
  reflexivity.
Qed.

Lemma daysInMonth_era y q m : daysInMonth (y + 400 * q) m = daysInMonth y m.
Proof. unfold daysInMonth. by rewrite isLeapYear_era. Qed.

Lemma validCivil_era y q m d : validCivil (y + 400 * q) m d = validCivil y m d.
Proof. unfold validCivil. by rewrite daysInMonth_era. Qed.

Lemma daysInMonth_le_31 y m : daysInMonth y m <= 31.
Proof. unfold daysInMonth. repeat case_match; lia. Qed.

Lemma daysInMonth_ge y m : daysInMonth 1 m <= daysInMonth y m.
Proof.
  unfold daysInMonth. destruct (m =? 2); [|lia].
  change (isLeapYear 1) with false. destruct (isLeapYear y); lia.
Qed.

Lemma yearStart_succ yoe :
  0 <= yoe < 399 -> yearStart (yoe + 1) = yearStart yoe + yearLength yoe.
Proof.
  intros H. pose proof (eraYear_ok yoe H) as Hok.
  unfold eraYearOk in Hok. apply Z.eqb_eq in Hok. unfold yearLength. lia.
Qed.

Lemma yearStart_last : yearStart 399 + yearLength 399 = daysPerEra.
Proof. reflexivity. Qed.

(** A day of the era is a day of one of its years. *)
Lemma eraDay_year doe :
  0 <= doe < daysPerEra ->
  let c := Z.min (doe / 36524) 3 in
  let r := doe - c * 36524 in
  let q := r / 1461 in
  let r4 := r - q * 1461 in
  let a := Z.min (r4 / 365) 3 in
  let doy := r4 - a * 365 in
  let yoe := 100 * c + 4 * q + a in
  0 <= yoe < 400 /\ 0 <= doy < yearLength yoe /\ doe = yearStart yoe + doy.
Proof.
  intros Hdoe c r q r4 a doy yoe. unfold daysPerEra in Hdoe.
  assert (0 <= c <= 3) as Hc by (subst c; Z.div_mod_to_equations; lia).
  assert (0 <= r <= 36524 /\ (c < 3 -> r < 36524)) as [Hr Hr'].
  { subst r c. Z.div_mod_to_equations. lia. }
  assert (0 <= q <= 24) as Hq by (subst q; Z.div_mod_to_equations; lia).
  assert (0 <= r4 <= 1460 /\ r = 1461 * q + r4) as [Hr4 Er].
  { subst r4 q. Z.div_mod_to_equations. lia. }
  assert (0 <= a <= 3) as Ha by (subst a; Z.div_mod_to_equations; lia).
  assert (0 <= doy <= 365 /\ (a < 3 -> doy < 365) /\ r4 = 365 * a + doy)
    as (Hdoy & Hdoy' & Er4).
  { subst doy a. Z.div_mod_to_equations. lia. }
  assert (yearStart yoe = 36524 * c + 1461 * q + 365 * a) as Eys.
  { unfold yearStart. subst yoe.
    assert ((100 * c + 4 * q + a) / 4 = 25 * c + q) as ->
      by (Z.div_mod_to_equations; lia).
    assert ((100 * c + 4 * q + a) / 100 = c) as ->
      by (Z.div_mod_to_equations; lia).
    lia. }
  split; [subst yoe; lia|]. split; [|lia].
  split; [lia|].
  (* only a year that ends in a leap February has a day 365 *)
  destruct (Z.eq_dec doy 365) as [E365|]; [|unfold yearLength; destruct (isLeapYear _); lia].
  assert (a = 3) as Ea by lia.
  assert (q < 24 \/ c = 3) as Hqc by lia.
  assert (isLeapYear (yoe + 1) = true) as Hleap.
  { unfold isLeapYear. subst yoe. rewrite Ea.
    assert ((100 * c + 4 * q + 3 + 1) mod 4 = 0) as ->
      by (Z.div_mod_to_equations; lia).
    destruct Hqc as [Hq24| ->].
    - assert ((100 * c + 4 * q + 3 + 1) mod 100 <> 0) as Hne
        by (Z.div_mod_to_equations; lia).
      by destruct (Z.eqb_spec ((100 * c + 4 * q + 3 + 1) mod 100) 0).
    - assert (q = 24 \/ q < 24) as [-> | Hq24] by lia; [reflexivity|].
      assert ((100 * 3 + 4 * q + 3 + 1) mod 100 <> 0) as Hne
        by (Z.div_mod_to_equations; lia).
      by destruct (Z.eqb_spec ((100 * 3 + 4 * q + 3 + 1) mod 100) 0). }
  unfold yearLength. rewrite Hleap. lia.
Qed.

(** The month and the day of a day of the year, and back. *)
Lemma yearDay_month doy :
  0 <= doy <= 365 ->
  let mp := (5 * doy + 2) / 153 in
  let d := doy - monthStart mp + 1 in
  let m := if mp <? 10 then mp + 3 else mp - 9 in
  1 <= m <= 12 /\ (if 2 <? m then m - 3 else m + 9) = mp /\ 1 <= d /\
  (doy < 365 -> d <= daysInMonth 1 m) /\ (doy = 365 -> m = 2 /\ d = 29).
Proof.
  intros Hdoy mp d m. pose proof (yearDay_ok doy Hdoy) as Hok.
  unfold yearDayOk in Hok. fold mp d m in Hok.
  repeat (apply andb_true_iff in Hok as [Hok ?]).
  assert (0 <= mp <= 11) as Hmp by lia.
  assert (1 <= m <= 12 /\ (if 2 <? m then m - 3 else m + 9) = mp) as [Hm Emp].
  { subst m. destruct (Z.ltb_spec mp 10).
    - destruct (Z.ltb_spec 2 (mp + 3)); lia.
    - destruct (Z.ltb_spec 2 (mp - 9)); lia. }
  split; [done|]. split; [done|]. split; [lia|].
  destruct (Z.eqb_spec doy 365) as [E|E].
  - apply andb_true_iff in H as [Hm2 Hd29]. split; [lia|]. intros _. lia.
  - split; [intros _; lia|lia].
Qed.

(** The day number of the calendar date of a day is that day. *)
Lemma makeDay_civilFromDays n :
  let '(y, m, d) := civilFromDays n in
  makeDay y m d = n /\ validCivil y m d = true.
Proof.
  unfold civilFromDays.
  set (z := n + 719468).
  assert (0 <= z mod daysPerEra < daysPerEra) as Hr
    by (apply Z.mod_pos_bound; reflexivity).
  pose proof (eraDay_year _ Hr) as Hy. unfold civilOfEraDay.
  cbv zeta in Hy.
  set (c := Z.min (z mod daysPerEra / 36524) 3) in *.
  set (q := (z mod daysPerEra - c * 36524) / 1461) in *.
  set (a := Z.min ((z mod daysPerEra - c * 36524 - q * 1461) / 365) 3) in *.
  set (doy := z mod daysPerEra - c * 36524 - q * 1461 - a * 365) in *.
  set (yoe := 100 * c + 4 * q + a) in *.
  destruct Hy as (Hyoe & Hdoy & Edoe).
  assert (0 <= doy <= 365) as Hdoy'
    by (unfold yearLength in Hdoy; destruct (isLeapYear _); lia).
  pose proof (yearDay_month doy Hdoy') as Hm. cbv zeta in Hm.
  set (mp := (5 * doy + 2) / 153) in *.
  set (d := doy - monthStart mp + 1) in *.
  set (m := if mp <? 10 then mp + 3 else mp - 9) in *.
  destruct Hm as (Hm & Emp & Hd1 & Hd & H365).
  set (y := if m <=? 2 then yoe + 1 else yoe).
  assert ((if m <=? 2 then y + 400 * (z / daysPerEra) - 1
           else y + 400 * (z / daysPerEra))
          = yoe + (z / daysPerEra) * 400) as Ey'
    by (subst y; destruct (m <=? 2); lia).
  split.
  - unfold makeDay. rewrite Ey'.
    rewrite Z.div_add, Z.mod_add by lia.
    rewrite (Z.div_small yoe 400), (Z.mod_small yoe 400) by lia.
    unfold dayOfEra. rewrite Emp.
    pose proof (Z.div_mod z daysPerEra ltac:(unfold daysPerEra; lia)).
    subst d. lia.
  - rewrite validCivil_era. unfold validCivil.
    repeat (apply andb_true_iff; split); try (apply Z.leb_le; lia).
    apply Z.leb_le.
    destruct (Z.eq_dec doy 365) as [E|E].
    + destruct (H365 E) as [Em ->]. unfold yearLength in Hdoy.
      assert (y = yoe + 1) as -> by (subst y; rewrite Em; reflexivity).
      unfold daysInMonth. rewrite Em. simpl.
      destruct (isLeapYear (yoe + 1)); lia.
    + pose proof (daysInMonth_ge y m). lia.
Qed.

Lemma yearDay_succ y' :
  yearDay (y' + 1) = yearDay y' + (if isLeapYear (y' + 1) then 366 else 365).
Proof.
  unfold yearDay.
  pose proof (Z.mod_pos_bound y' 400 ltac:(lia)) as Hm.
  pose proof (Z.div_mod y' 400 ltac:(lia)) as Hd.
  replace (isLeapYear (y' + 1))
    with (isLeapYear (y' mod 400 + 1))
    by (rewrite <- (isLeapYear_era _ (y' / 400)); f_equal; lia).
  destruct (Z.eq_dec (y' mod 400) 399) as [E|E].
  - assert ((y' + 1) / 400 = y' / 400 + 1 /\ (y' + 1) mod 400 = 0) as [-> ->]
      by (Z.div_mod_to_equations; lia).
    rewrite E. change (isLeapYear (399 + 1)) with true.
    change (yearStart 399) with 145731. change (yearStart 0) with 0.
    unfold daysPerEra. lia.
  - assert ((y' + 1) / 400 = y' / 400 /\ (y' + 1) mod 400 = y' mod 400 + 1) as [-> ->]
      by (Z.div_mod_to_equations; lia).
    rewrite yearStart_succ by lia. unfold yearLength. lia.
Qed.

Lemma yearDay_lt a b :
  a < b -> yearDay a + (if isLeapYear (a + 1) then 366 else 365) <= yearDay b.
Proof.
  intros Hab.
  assert (forall k : nat,
    yearDay a + (if isLeapYear (a + 1) then 366 else 365)
    <= yearDay (a + 1 + Z.of_nat k)) as H.
  { induction k as [|k IH].
    - rewrite Z.add_0_r, yearDay_succ. lia.
    - replace (a + 1 + Z.of_nat (S k)) with (a + 1 + Z.of_nat k + 1) by lia.
      rewrite yearDay_succ. destruct (isLeapYear (a + 1 + Z.of_nat k + 1)); lia. }
  specialize (H (Z.to_nat (b - a - 1))).
  by replace (a + 1 + Z.of_nat (Z.to_nat (b - a - 1))) with b in H by lia.
Qed.

(** The day of the year, counted from March, of a valid date. *)
Lemma validCivil_yearDay y m d :
  validCivil y m d = true ->
  let y' := if m <=? 2 then y - 1 else y in
  let mp := if 2 <? m then m - 3 else m + 9 in
  0 <= mp <= 11 /\
  makeDay y m d = yearDay y' + monthStart mp + d - 1 - 719468 /\
  0 <= monthStart mp /\
  monthStart mp + d - 1 < (if isLeapYear (y' + 1) then 366 else 365) /\
  (mp < 11 -> monthStart mp + d <= monthStart (mp + 1)).
Proof.
  intros Hv y' mp. unfold validCivil in Hv.
  repeat (apply andb_true_iff in Hv as [Hv ?]).
  assert (0 <= mp <= 11) as Hmp by (subst mp; destruct (Z.ltb_spec 2 m); lia).
  pose proof (month_ok mp Hmp) as Hok. unfold monthOk in Hok.
  repeat (apply andb_true_iff in Hok as [Hok ?]).
  split; [done|]. split; [unfold makeDay, dayOfEra, yearDay; fold y' mp; lia|].
  split; [lia|].
  destruct (Z.eqb_spec mp 11) as [E11|N11].
  - assert (m = 2) as Em by (subst mp; destruct (Z.ltb_spec 2 m); lia).
    assert (y' + 1 = y) as -> by (subst y'; rewrite Em; simpl; lia).
    split; [|lia]. apply Z.eqb_eq in H2.
    assert (d <= daysInMonth y m) as Hd by lia.
    unfold daysInMonth in Hd. rewrite Em in Hd. simpl in Hd.
    destruct (isLeapYear y); lia.
  - apply andb_true_iff in H2 as [Hlen Hend].
    assert ((if mp <? 10 then mp + 3 else mp - 9) = m) as Em.
    { subst mp. destruct (Z.ltb_spec 2 m).
      - destruct (Z.ltb_spec (m - 3) 10); lia.
      - destruct (Z.ltb_spec (m + 9) 10); lia. }
    rewrite Em in Hlen.
    assert (daysInMonth 1 m = daysInMonth y m) as Edim.
    { unfold daysInMonth. destruct (Z.eqb_spec m 2) as [E2|]; [|done].
      exfalso. subst mp. rewrite E2 in N11. simpl in N11. lia. }
    assert (monthStart mp + d <= monthStart (mp + 1)) by lia.
    split; [|done]. destruct (isLeapYear (y' + 1)); lia.
Qed.

Lemma civilLtb_spec y1 m1 d1 y2 m2 d2 :
  civilLtb (y1, m1, d1) (y2, m2, d2) = true <->
  y1 < y2 \/ (y1 = y2 /\ (m1 < m2 \/ (m1 = m2 /\ d1 < d2))).
Proof.
  unfold civilLtb.
  rewrite !orb_true_iff, !andb_true_iff, !orb_true_iff, !andb_true_iff,
    !Z.ltb_lt, !Z.eqb_eq.
  reflexivity.
Qed.

Lemma civilLtb_trans a b c :
  civilLtb a b = true -> civilLtb b c = true -> civilLtb a c = true.
Proof.
  destruct a as [[y1 m1] d1], b as [[y2 m2] d2], c as [[y3 m3] d3].
  rewrite !civilLtb_spec. lia.
Qed.

Lemma civilLtb_irrefl a : civilLtb a a = false.
Proof.
  destruct a as [[y m] d]. apply not_true_is_false.
  rewrite civilLtb_spec. lia.
Qed.

Lemma monthStart_mono a b : a <= b -> monthStart a <= monthStart b.
Proof. intros H. unfold monthStart. apply Z.div_le_mono; lia. Qed.

(** An earlier valid date has a smaller day number. *)
Lemma makeDay_lt y1 m1 d1 y2 m2 d2 :
  validCivil y1 m1 d1 = true -> validCivil y2 m2 d2 = true ->
  civilLtb (y1, m1, d1) (y2, m2, d2) = true ->
  makeDay y1 m1 d1 < makeDay y2 m2 d2.
Proof.
  intros H1 H2 Hlt. apply civilLtb_spec in Hlt.
  pose proof H1 as V1. pose proof H2 as V2.
  unfold validCivil in V1, V2.
  repeat (apply andb_true_iff in V1 as [V1 ?]).
  repeat (apply andb_true_iff in V2 as [V2 ?]).
  destruct (validCivil_yearDay _ _ _ H1) as (Hmp1 & -> & S1 & L1 & N1).
  destruct (validCivil_yearDay _ _ _ H2) as (Hmp2 & -> & S2 & L2 & N2).
  set (p1 := if m1 <=? 2 then y1 - 1 else y1) in *.
  set (p2 := if m2 <=? 2 then y2 - 1 else y2) in *.
  set (mp1 := if 2 <? m1 then m1 - 3 else m1 + 9) in *.
  set (mp2 := if 2 <? m2 then m2 - 3 else m2 + 9) in *.
  assert (p1 < p2 \/ (p1 = p2 /\ (mp1 < mp2 \/ (mp1 = mp2 /\ d1 < d2)))) as Hp.
  { subst p1 p2 mp1 mp2.
    destruct (Z.leb_spec m1 2), (Z.leb_spec m2 2),
      (Z.ltb_spec 2 m1), (Z.ltb_spec 2 m2); lia. }
  destruct Hp as [Hp|[Ep [Hmp|[Emp Hd]]]].
  - pose proof (yearDay_lt p1 p2 Hp). lia.
  - rewrite Ep in *. pose proof (monthStart_mono (mp1 + 1) mp2 ltac:(lia)).
    assert (monthStart mp1 + d1 <= monthStart (mp1 + 1)) by (apply N1; lia).
    lia.
  - rewrite Ep, Emp in *. lia.
Qed.

Lemma civil_trichotomy (a b : Z * Z * Z) :
  civilLtb a b = true \/ a = b \/ civilLtb b a = true.
Proof.
  destruct a as [[y1 m1] d1], b as [[y2 m2] d2]. rewrite !civilLtb_spec.
  destruct (Z.lt_trichotomy y1 y2) as [?|[->|?]]; [lia| |lia].
  destruct (Z.lt_trichotomy m1 m2) as [?|[->|?]]; [lia| |lia].
  destruct (Z.lt_trichotomy d1 d2) as [?|[->|?]]; [lia| |lia].
  right. by left.
Qed.

(** Day numbers order valid calendar dates as the dates are ordered. *)
Lemma makeDay_lt_iff y1 m1 d1 y2 m2 d2 :
  validCivil y1 m1 d1 = true -> validCivil y2 m2 d2 = true ->
  makeDay y1 m1 d1 < makeDay y2 m2 d2 <-> civilLtb (y1, m1, d1) (y2, m2, d2) = true.
Proof.
  intros H1 H2. split; [|by apply makeDay_lt].
  intros Hlt.
  destruct (civil_trichotomy (y1, m1, d1) (y2, m2, d2)) as [?|[E|Hgt]]; [done|..].
  - injection E as -> -> ->. lia.
  - apply makeDay_lt in Hgt; [lia|done..].
Qed.

(** The calendar date of the day number of a date is that date. *)
Lemma civilFromDays_makeDay y m d :
  validCivil y m d = true -> civilFromDays (makeDay y m d) = (y, m, d).
Proof.
  intros Hv. pose proof (makeDay_civilFromDays (makeDay y m d)) as Hr.
  destruct (civilFromDays (makeDay y m d)) as [[y' m'] d'].
  destruct Hr as [He Hv'].
  destruct (civil_trichotomy (y', m', d') (y, m, d)) as [Hlt|[E|Hgt]]; [|done|].
  - apply makeDay_lt in Hlt; [lia|done..].
  - apply makeDay_lt in Hgt; [lia|done..].
Qed.

(** The calendar date of a later day is later. *)
Lemma civilFromDays_lt n k :
  0 < k -> civilLtb (civilFromDays n) (civilFromDays (n + k)) = true.
Proof.
  intros Hk.
  pose proof (makeDay_civilFromDays n) as H1.
  pose proof (makeDay_civilFromDays (n + k)) as H2.
  destruct (civilFromDays n) as [[y1 m1] d1], (civilFromDays (n + k)) as [[y2 m2] d2].
  destruct H1 as [E1 V1], H2 as [E2 V2].
  apply makeDay_lt_iff; [done..|]. lia.
Qed.

Lemma isDigit_spec c :
  isDigit c = true -> 0 <= digitVal c <= 9 /\ digitChar (digitVal c) = c.
Proof.
  destruct c as [[] [] [] [] [] [] [] []]; vm_compute; intros H;
    try discriminate H; split; (reflexivity || (split; discriminate)).
Qed.

Lemma digitChar_spec k :
  0 <= k <= 9 -> isDigit (digitChar k) = true /\ digitVal (digitChar k) = k.
Proof.
  intros H.
  assert (k = 0 \/ k = 1 \/ k = 2 \/ k = 3 \/ k = 4 \/ k = 5 \/ k = 6 \/ k = 7
          \/ k = 8 \/ k = 9) as Hk by lia.
  repeat (destruct Hk as [->|Hk]; [by vm_compute|]). subst. by vm_compute.
Qed.

Lemma ascii_compare_digitVal c1 c2 :
  Ascii.compare c1 c2 = (digitVal c1 ?= digitVal c2).
Proof.
  unfold Ascii.compare, digitVal.
  rewrite <- N2Z.inj_compare.
  destruct (Z.compare_spec (Z.of_N (N_of_ascii c1)) (Z.of_N (N_of_ascii c2)));
    symmetry; [apply Z.compare_eq_iff|apply Z.compare_lt_iff|apply Z.compare_gt_iff]; lia.
Qed.

Lemma pad2_digits a b :
  0 <= a <= 9 -> 0 <= b <= 9 ->
  pad2 (10 * a + b) = String (digitChar a) (String (digitChar b) EmptyString).
Proof.
  intros Ha Hb. unfold pad2.
  replace ((10 * a + b) / 10 mod 10) with a by (Z.div_mod_to_equations; lia).
  replace ((10 * a + b) mod 10) with b by (Z.div_mod_to_equations; lia).
  reflexivity.
Qed.

Lemma pad4_digits a b c d :
  0 <= a <= 9 -> 0 <= b <= 9 -> 0 <= c <= 9 -> 0 <= d <= 9 ->
  pad4 (1000 * a + 100 * b + 10 * c + d)
  = String (digitChar a) (String (digitChar b)
      (String (digitChar c) (String (digitChar d) EmptyString))).
Proof.
  intros Ha Hb Hc Hd. unfold pad4, pad3, pad2.
  set (n := 1000 * a + 100 * b + 10 * c + d).
  replace (n / 1000 mod 10) with a by (subst n; Z.div_mod_to_equations; lia).
  replace (n / 100 mod 10) with b by (subst n; Z.div_mod_to_equations; lia).
  replace (n / 10 mod 10) with c by (subst n; Z.div_mod_to_equations; lia).
  replace (n mod 10) with d by (subst n; Z.div_mod_to_equations; lia).
  reflexivity.
Qed.

(** The shape of a text that [parse] accepts. *)
Lemma parse_inv s t :
  parse s = Fin t ->
  exists y1 y2 y3 y4 m1 m2 d1 d2,
    let y := 1000 * y1 + 100 * y2 + 10 * y3 + y4 in
    let m := 10 * m1 + m2 in
    let d := 10 * d1 + d2 in
    (0 <= y1 <= 9 /\ 0 <= y2 <= 9 /\ 0 <= y3 <= 9 /\ 0 <= y4 <= 9) /\
    (0 <= m1 <= 9 /\ 0 <= m2 <= 9 /\ 0 <= d1 <= 9 /\ 0 <= d2 <= 9) /\
    validCivil y m d = true /\
    t = makeDay y m d * msPerDay /\
    s = String (digitChar y1) (String (digitChar y2) (String (digitChar y3)
          (String (digitChar y4) (String "-" (String (digitChar m1)
            (String (digitChar m2) (String "-" (String (digitChar d1)
              (String (digitChar d2) EmptyString))))))))).
Proof.
  intros H.
  destruct s as [|c1 [|c2 [|c3 [|c4 [|h1 [|c5 [|c6 [|h2 [|c7 [|c8 [|? ?]]]]]]]]]]];
    try discriminate H.
  cbn [parse] in H.
  match type of H with (if ?c then _ else _) = _ => destruct c eqn:Hc end;
    [|discriminate H].
  do 9 (apply andb_true_iff in Hc as [Hc ?]).
  match type of H with (if ?c then _ else _) = _ => destruct c eqn:Hv end;
    [|discriminate H].
  injection H as <-.
  repeat match goal with
  | H : Ascii.eqb _ _ = true |- _ => apply Ascii.eqb_eq in H; subst
  | H : isDigit ?c = true |- _ =>
      apply isDigit_spec in H as [? ?]
  end.
  exists (digitVal c1), (digitVal c2), (digitVal c3), (digitVal c4),
         (digitVal c5), (digitVal c6), (digitVal c7), (digitVal c8).
  cbv zeta.
  repeat match goal with H : digitChar (digitVal ?c) = ?c |- _ => rewrite H; clear H end.
  split; [repeat split; lia|]. split; [repeat split; lia|].
  split; [exact Hv|]. split; reflexivity.
Qed.

Lemma validCivil_spec y m d :
  validCivil y m d = true <-> 1 <= m <= 12 /\ 1 <= d <= daysInMonth y m.
Proof.
  unfold validCivil. rewrite !andb_true_iff, !Z.leb_le. lia.
Qed.

(** A text that parses is the text of a valid date of the years 0000 to
    9999. *)
Lemma parse_dateText_inv s t :
  parse s = Fin t ->
  exists y m d,
    0 <= y <= 9999 /\ validCivil y m d = true /\
    t = makeDay y m d * msPerDay /\ s = dateText y m d.
Proof.
  intros H. apply parse_inv in H
    as (y1 & y2 & y3 & y4 & m1 & m2 & d1 & d2 & Hy & Hmd & Hv & -> & ->).
  cbv zeta in Hv.
  eexists _, _, _. split; [|split; [exact Hv|split; [reflexivity|]]]; [lia|].
  unfold dateText.
  rewrite pad4_digits, !pad2_digits by lia. reflexivity.
Qed.

Lemma parse_dateText y m d :
  0 <= y <= 9999 -> validCivil y m d = true ->
  parse (dateText y m d) = Fin (makeDay y m d * msPerDay).
Proof.
  intros Hy Hv. pose proof Hv as Hv'. apply validCivil_spec in Hv' as [Hm Hd].
  pose proof (daysInMonth_le_31 y m).
  unfold dateText, pad4, pad3, pad2.
  set (a := y / 1000 mod 10). set (b := y / 100 mod 10).
  set (c := y / 10 mod 10). set (e := y mod 10).
  set (m1 := m / 10 mod 10). set (m2 := m mod 10).
  set (d1 := d / 10 mod 10). set (d2 := d mod 10).
  change (parse (String (digitChar a) (String (digitChar b) (String (digitChar c)
            (String (digitChar e) (String "-" (String (digitChar m1)
              (String (digitChar m2) (String "-" (String (digitChar d1)
                (String (digitChar d2) EmptyString))))))))))
          = Fin (makeDay y m d * msPerDay)).
  unfold parse.
  destruct (digitChar_spec a) as [-> ->]; [subst a; Z.div_mod_to_equations; lia|].
  destruct (digitChar_spec b) as [-> ->]; [subst b; Z.div_mod_to_equations; lia|].
  destruct (digitChar_spec c) as [-> ->]; [subst c; Z.div_mod_to_equations; lia|].
  destruct (digitChar_spec e) as [-> ->]; [subst e; Z.div_mod_to_equations; lia|].
  destruct (digitChar_spec m1) as [-> ->]; [subst m1; Z.div_mod_to_equations; lia|].
  destruct (digitChar_spec m2) as [-> ->]; [subst m2; Z.div_mod_to_equations; lia|].
  destruct (digitChar_spec d1) as [-> ->]; [subst d1; Z.div_mod_to_equations; lia|].
  destruct (digitChar_spec d2) as [-> ->]; [subst d2; Z.div_mod_to_equations; lia|].
  cbn [andb Ascii.eqb Bool.eqb].
  replace (1000 * a + 100 * b + 10 * c + e) with y
    by (subst a b c e; Z.div_mod_to_equations; lia).
  replace (10 * m1 + m2) with m by (subst m1 m2; Z.div_mod_to_equations; lia).
  replace (10 * d1 + d2) with d by (subst d1 d2; Z.div_mod_to_equations; lia).
  fold (validCivil y m d). rewrite Hv. reflexivity.
Qed.


Lemma day_midnight n : day (n * msPerDay) = n.
Proof. unfold day, msPerDay. apply Z.div_mul. lia. Qed.

(** The first ten characters of the ISO text of a time of the years 0000
    to 9999 are the text of its date. *)
Lemma isoOfTime_slice10 t :
  let '(y, m, d) := civilFromDays (day t) in
  0 <= y <= 9999 -> slice0 10 (isoOfTime t) = dateText y m d.
Proof.
  unfold isoOfTime. destruct (civilFromDays (day t)) as [[y m] d].
  intros Hy. unfold yearText.
  assert ((0 <=? y) && (y <=? 9999) = true) as ->
    by (apply andb_true_iff; split; apply Z.leb_le; lia).
  unfold dateText, pad4, pad3, pad2, slice0. reflexivity.
Qed.

Lemma isoOfTime_slice7 t :
  let '(y, m, d) := civilFromDays (day t) in
  0 <= y <= 9999 -> slice0 7 (isoOfTime t) = slice0 7 (dateText y m d).
Proof.
  unfold isoOfTime. destruct (civilFromDays (day t)) as [[y m] d].
  intros Hy. unfold yearText.
  assert ((0 <=? y) && (y <=? 9999) = true) as ->
    by (apply andb_true_iff; split; apply Z.leb_le; lia).
  unfold dateText, pad4, pad3, pad2, slice0. reflexivity.
Qed.

(** Formatting undoes parsing. *)
Lemma parse_isoOfTime s t :
  parse s = Fin t -> slice0 10 (isoOfTime t) = s.
Proof.
  intros H. apply parse_dateText_inv in H as (y & m & d & Hy & Hv & -> & ->).
  pose proof (isoOfTime_slice10 (makeDay y m d * msPerDay)) as Hiso.
  rewrite day_midnight, (civilFromDays_makeDay _ _ _ Hv) in Hiso.
  auto.
Qed.

Lemma compare_scale a b k : 0 < k -> (a * k ?= b * k) = (a ?= b).
Proof.
  intros Hk.
  destruct (Z.compare_spec a b);
    [apply Z.compare_eq_iff|apply Z.compare_lt_iff|apply Z.compare_gt_iff]; nia.
Qed.

Lemma compare_base10 a b a' b' :
  0 <= b <= 9 -> 0 <= b' <= 9 ->
  (10 * a + b ?= 10 * a' + b') = lexCompare (a ?= a') (b ?= b').
Proof.
  intros Hb Hb'.
  destruct (Z.compare_spec a a') as [->|Hlt|Hgt]; simpl.
  - destruct (Z.compare_spec b b'); 
      [apply Z.compare_eq_iff|apply Z.compare_lt_iff|apply Z.compare_gt_iff]; lia.
  - apply Z.compare_lt_iff. lia.
  - apply Z.compare_gt_iff. lia.
Qed.

Lemma ascii_compare_digitChar a b :
  0 <= a <= 9 -> 0 <= b <= 9 ->
  Ascii.compare (digitChar a) (digitChar b) = (a ?= b).
Proof.
  intros Ha Hb. rewrite ascii_compare_digitVal.
  destruct (digitChar_spec a Ha) as [_ ->].
  destruct (digitChar_spec b Hb) as [_ ->]. reflexivity.
Qed.

Lemma makeDay_compare y1 m1 d1 y2 m2 d2 :
  validCivil y1 m1 d1 = true -> validCivil y2 m2 d2 = true ->
  (makeDay y1 m1 d1 ?= makeDay y2 m2 d2) = civilCompare (y1, m1, d1) (y2, m2, d2).
Proof.
  intros H1 H2.
  pose proof (makeDay_lt_iff _ _ _ _ _ _ H1 H2) as H12.
  pose proof (makeDay_lt_iff _ _ _ _ _ _ H2 H1) as H21.
  rewrite civilLtb_spec in H12, H21.
  unfold civilCompare; simpl.
  destruct (Z.compare_spec y1 y2) as [->|?|?]; simpl;
    [destruct (Z.compare_spec m1 m2) as [->|?|?]; simpl;
       [destruct (Z.compare_spec d1 d2) as [->|?|?]|..]|..];
    first [ apply Z.compare_eq_iff; reflexivity
          | apply Z.compare_lt_iff; apply H12; lia
          | apply Z.compare_gt_iff; apply H21; lia ].
Qed.

(** Texts that parse are ordered, as strings, like their times. *)
Lemma parse_compare s1 s2 t1 t2 :
  parse s1 = Fin t1 -> parse s2 = Fin t2 ->
  String.compare s1 s2 = (t1 ?= t2).
Proof.
  intros H1 H2.
  apply parse_inv in H1
    as (a1 & a2 & a3 & a4 & a5 & a6 & a7 & a8 & Hy & Hmd & Hv & -> & ->).
  apply parse_inv in H2
    as (b1 & b2 & b3 & b4 & b5 & b6 & b7 & b8 & Hy' & Hmd' & Hv' & -> & ->).
  cbv zeta in *.
  rewrite compare_scale by (unfold msPerDay; lia).
  rewrite (makeDay_compare _ _ _ _ _ _ Hv Hv').
  unfold civilCompare. cbn [fst snd String.compare].
  rewrite !ascii_compare_digitChar by lia.
  change (Ascii.compare "-" "-") with Eq. cbv iota.
  replace (1000 * a1 + 100 * a2 + 10 * a3 + a4)
    with (10 * (10 * (10 * a1 + a2) + a3) + a4) by lia.
  replace (1000 * b1 + 100 * b2 + 10 * b3 + b4)
    with (10 * (10 * (10 * b1 + b2) + b3) + b4) by lia.
  rewrite !compare_base10 by lia.
  destruct (a1 ?= b1), (a2 ?= b2), (a3 ?= b3), (a4 ?= b4); simpl; try reflexivity;
    destruct (a5 ?= b5), (a6 ?= b6); simpl; try reflexivity;
    destruct (a7 ?= b7), (a8 ?= b8); reflexivity.
Qed.


Lemma makeDay_succ y m d : makeDay y m (d + 1) = makeDay y m d + 1.
Proof. unfold makeDay, dayOfEra. lia. Qed.

Lemma makeDay_shift y m d k : makeDay y m (d + k) = makeDay y m d + k.
Proof. unfold makeDay, dayOfEra. lia. Qed.

(** In UTC, [setDate(getDate() + k)] moves a date by [k] days. *)
Lemma setDate_getDate t k : setDate t (getDate t + k) = t + k * msPerDay.
Proof.
  unfold setDate, getDate, getFullYear, monthFromTime.
  pose proof (makeDay_civilFromDays (day t)) as H.
  destruct (civilFromDays (day t)) as [[y m] d]. destruct H as [H _]. simpl.
  rewrite makeDay_shift, H. unfold day, msPerDay.
  pose proof (Z.div_mod t 86400000 ltac:(lia)). lia.
Qed.

Lemma civilFromDays_range n :
  firstDay <= n <= lastDay -> 0 <= (civilFromDays n).1.1 <= 9999.
Proof.
  intros [Hlo Hhi].
  assert (civilFromDays firstDay = (0, 1, 1)) as Hf by (by vm_compute).
  assert (civilFromDays lastDay = (9999, 12, 31)) as Hl by (by vm_compute).
  split.
  - destruct (Z.eq_dec n firstDay) as [->|Hne]; [by rewrite Hf|].
    pose proof (civilFromDays_lt firstDay (n - firstDay) ltac:(lia)) as Hlt.
    replace (firstDay + (n - firstDay)) with n in Hlt by lia.
    rewrite Hf in Hlt. destruct (civilFromDays n) as [[y m] d].
    apply civilLtb_spec in Hlt. simpl. lia.
  - destruct (Z.eq_dec n lastDay) as [->|Hne]; [by rewrite Hl|].
    pose proof (civilFromDays_lt n (lastDay - n) ltac:(lia)) as Hlt.
    replace (n + (lastDay - n)) with lastDay in Hlt by lia.
    rewrite Hl in Hlt. destruct (civilFromDays n) as [[y m] d].
    apply civilLtb_spec in Hlt. simpl. lia.
Qed.

Lemma parse_range s t :
  parse s = Fin t -> exists n, t = n * msPerDay /\ firstDay <= n <= lastDay.
Proof.
  intros H. apply parse_dateText_inv in H as (y & m & d & Hy & Hv & -> & _).
  eexists; split; [reflexivity|].
  pose proof (validCivil_spec y m d) as [Hv' _]. specialize (Hv' Hv).
  pose proof (daysInMonth_le_31 y m).
  assert (validCivil 0 1 1 = true) as V0 by reflexivity.
  assert (validCivil 9999 12 31 = true) as V9 by reflexivity.
  unfold firstDay, lastDay. split.
  - destruct (Z.le_gt_cases (makeDay 0 1 1) (makeDay y m d)) as [|Hgt]; [done|].
    apply (makeDay_lt_iff _ _ _ _ _ _ Hv V0) in Hgt.
    apply civilLtb_spec in Hgt. lia.
  - destruct (Z.le_gt_cases (makeDay y m d) (makeDay 9999 12 31)) as [|Hgt]; [done|].
    apply (makeDay_lt_iff _ _ _ _ _ _ V9 Hv) in Hgt.
    apply civilLtb_spec in Hgt. lia.
Qed.

(** Parsing undoes formatting, for the days of the years 0000 to 9999. *)
Lemma parse_isoDay n :
  firstDay <= n <= lastDay -> parse (isoDay n) = Fin (n * msPerDay).
Proof.
  intros Hn. unfold isoDay.
  pose proof (isoOfTime_slice10 (n * msPerDay)) as Hiso.
  rewrite day_midnight in Hiso.
  pose proof (civilFromDays_range n Hn) as Hy.
  pose proof (makeDay_civilFromDays n) as Hm.
  destruct (civilFromDays n) as [[y m] d]. simpl in Hy. destruct Hm as [Hm Hv].
  rewrite (Hiso Hy), parse_dateText by done. by rewrite Hm.
Qed.

Lemma isoDay_inj n1 n2 :
  firstDay <= n1 <= lastDay -> firstDay <= n2 <= lastDay ->
  isoDay n1 = isoDay n2 -> n1 = n2.
Proof.
  intros H1 H2 Heq. apply parse_isoDay in H1, H2.
  rewrite Heq, H2 in H1. injection H1 as H1. unfold msPerDay in H1. lia.
Qed.

Lemma parse_inj s1 s2 t : parse s1 = Fin t -> parse s2 = Fin t -> s1 = s2.
Proof.
  intros H1 H2. apply parse_isoOfTime in H1, H2. congruence.
Qed.


End DateFacts.

(* ================================================================== *)
(** * Facts about the stable sort *)
(* ================================================================== *)

Module SortFacts.
Import JS.

Section StableSort.
Context {A : Type} (after : A -> A -> bool).

Lemma insertBy_Permutation x l : insertBy after x l ≡ₚ x :: l.
Proof.
  induction l as [|y l IH]; simpl; [done|].
  destruct (after x y); [|done].
  rewrite IH. apply Permutation_swap.
Qed.

Lemma stableSort_Permutation l : stableSort after l ≡ₚ l.
Proof.
  induction l as [|x l IH]; simpl; [done|].
  unfold stableSort in *. simpl. by rewrite insertBy_Permutation, IH.
Qed.

Lemma stableSort_length l : length (stableSort after l) = length l.
Proof. by rewrite stableSort_Permutation. Qed.

Lemma stableSort_elem_of x l : x ∈ stableSort after l <-> x ∈ l.
Proof. by rewrite stableSort_Permutation. Qed.

(** A sorted array is left as it is. *)
Lemma insertBy_head x l :
  HdRel (fun a b => after a b = false) x l -> insertBy after x l = x :: l.
Proof. destruct 1 as [|y l H]; simpl; [done|]. by rewrite H. Qed.

Lemma stableSort_sorted_id l :
  Sorted (fun a b => after a b = false) l -> stableSort after l = l.
Proof.
  induction 1 as [|x l Hl IH Hx]; [done|].
  unfold stableSort in *. simpl. rewrite IH. by apply insertBy_head.
Qed.

(** Sorting by an integer key puts the keys in ascending order. *)
Section ByKey.
Context (key : A -> Z).

Lemma insertBy_Sorted x l :
  (forall y, y ∈ l -> after x y = (key y <? key x)) ->
  Sorted (fun a b => key a <= key b) l ->
  Sorted (fun a b => key a <= key b) (insertBy after x l).
Proof.
  intros Hafter Hs. induction Hs as [|y l Hl IH Hy]; simpl.
  - repeat constructor.
  - rewrite (Hafter y) by (rewrite elem_of_cons; by left).
    destruct (Z.ltb_spec (key y) (key x)) as [Hlt|Hge].
    + constructor.
      { apply IH. intros z Hz. apply Hafter. rewrite elem_of_cons; by right. }
      destruct Hy as [|z l' Hyz]; simpl.
      * constructor. lia.
      * rewrite (Hafter z) by (rewrite !elem_of_cons; right; by left).
        destruct (Z.ltb_spec (key z) (key x)); constructor; lia.
    + constructor; [by constructor|]. constructor. lia.
Qed.

Lemma stableSort_Sorted l :
  (forall x y, x ∈ l -> y ∈ l -> after x y = (key y <? key x)) ->
  Sorted (fun a b => key a <= key b) (stableSort after l).
Proof.
  induction l as [|x l IH]; intros Hafter; [constructor|].
  change (stableSort after (x :: l)) with (insertBy after x (stableSort after l)).
  apply insertBy_Sorted.
  - intros y Hy. rewrite stableSort_elem_of in Hy.
    apply Hafter; rewrite elem_of_cons; [by left|by right].
  - apply IH. intros; apply Hafter; rewrite elem_of_cons; by right.
Qed.
End ByKey.
End StableSort.

Section SortedByKey.
Context {A : Type} (key : A -> Z).

Local Instance key_le_trans : Transitive (fun a b : A => key a <= key b).
Proof. intros a b c. lia. Qed.

Lemma Sorted_head_min l x :
  Sorted (fun a b => key a <= key b) l -> head l = Some x ->
  forall y, y ∈ l -> key x <= key y.
Proof.
  intros Hs Hh y Hy. apply Sorted_StronglySorted in Hs; [|apply _].
  destruct Hs as [|z l Hs Hall]; [done|]. simplify_eq/=.
  apply elem_of_cons in Hy as [->|Hy]; [lia|].
  rewrite Forall_forall in Hall. by apply Hall.
Qed.

Lemma Sorted_last_max l x :
  Sorted (fun a b => key a <= key b) l -> last l = Some x ->
  forall y, y ∈ l -> key y <= key x.
Proof.
  intros Hs Hl y Hy. apply Sorted_StronglySorted in Hs; [|apply _].
  apply last_Some in Hl as [l' ->].
  apply elem_of_app in Hy as [Hy|Hy].
  - apply (StronglySorted_app_1_elem_of (fun a b : A => key a <= key b) l' [x] y x Hs Hy).
    by apply list_elem_of_singleton.
  - apply list_elem_of_singleton in Hy as ->. lia.
Qed.
End SortedByKey.

End SortFacts.

(* ================================================================== *)
(** * Facts about the analysis *)
(* ================================================================== *)

Module DashboardFacts.
Import JS Date Calendar DateFacts Dashboard DashboardSpec.

(** ** Lists *)

Lemma map_fmap {A B} (f : A -> B) (l : list A) : map f l = f <$> l.
Proof. reflexivity. Qed.

(** ** Sums *)

#[local] Arguments sumBy : simpl never.

Lemma sumBy_foldl {A} (f : A -> Z) l acc :
  foldl (fun acc x => acc + f x) acc l = acc + sumBy f l.
Proof.
  unfold sumBy. revert acc. induction l as [|x l IH]; intros acc; simpl; [lia|].
  rewrite IH, (IH (0 + f x)). lia.
Qed.

Lemma sumBy_nil {A} (f : A -> Z) : sumBy f [] = 0.
Proof. reflexivity. Qed.

Lemma sumBy_cons {A} (f : A -> Z) x l : sumBy f (x :: l) = f x + sumBy f l.
Proof. unfold sumBy at 1. simpl. rewrite sumBy_foldl. lia. Qed.

Lemma sumBy_app {A} (f : A -> Z) l1 l2 :
  sumBy f (l1 ++ l2) = sumBy f l1 + sumBy f l2.
Proof.
  induction l1 as [|x l1 IH]; cbn [app]; rewrite ?sumBy_nil, ?sumBy_cons; lia.
Qed.

Lemma sumBy_Permutation {A} (f : A -> Z) l1 l2 :
  l1 ≡ₚ l2 -> sumBy f l1 = sumBy f l2.
Proof.
  induction 1; rewrite ?sumBy_cons in *; lia.
Qed.

Lemma sumBy_map {A B} (f : B -> Z) (g : A -> B) l :
  sumBy f (map g l) = sumBy (fun x => f (g x)) l.
Proof.
  induction l as [|x l IH]; cbn [map]; rewrite ?sumBy_nil, ?sumBy_cons; lia.
Qed.


(** ** Rows with valid dates *)

Lemma isDateText_inv v :
  isDateText v = true -> exists s z, v = VStr s /\ Date.parse s = Fin z.
Proof.
  destruct v as [| | | |s]; try discriminate. simpl.
  destruct (Date.parse s) as [|z] eqn:E; [discriminate|]. eauto.
Qed.

Lemma validDates_elem txs t :
  validDates txs = true -> t ∈ txs -> isDateText (bookingDate t) = true.
Proof.
  unfold validDates. rewrite forallb_forall. intros H Ht.
  apply H. by apply list_elem_of_In.
Qed.

Lemma valid_time t :
  isDateText (bookingDate t) = true ->
  Date.parse (keyOf t) = Fin (timeZ t) /\ time t = Fin (timeZ t)
  /\ bookingDate t = VStr (keyOf t).
Proof.
  intros H. apply isDateText_inv in H as (s & z & Hs & Hz).
  unfold keyOf, timeZ, time. rewrite Hs. simpl. rewrite Hz. done.
Qed.

Lemma validDates_Permutation l1 l2 :
  l1 ≡ₚ l2 -> validDates l1 = true -> validDates l2 = true.
Proof.
  unfold validDates. rewrite !forallb_forall. intros HP H t Ht.
  apply H. apply list_elem_of_In. rewrite HP. by apply list_elem_of_In.
Qed.

(** ** The rows sorted by date *)

Lemma sortedTransactions_Permutation txs : sortedTransactions txs ≡ₚ txs.
Proof. apply SortFacts.stableSort_Permutation. Qed.

Lemma sortedTransactions_Sorted txs :
  validDates txs = true ->
  Sorted (fun a b => timeZ a <= timeZ b) (sortedTransactions txs).
Proof.
  intros Hv. apply SortFacts.stableSort_Sorted.
  intros x y Hx Hy.
  destruct (valid_time x (validDates_elem _ _ Hv Hx)) as (_ & -> & _).
  destruct (valid_time y (validDates_elem _ _ Hv Hy)) as (_ & -> & _).
  simpl. destruct (Z.ltb_spec (timeZ y) (timeZ x)); [done|].
  destruct (Z.ltb_spec (timeZ x) (timeZ y)); done.
Qed.

(** ** The running balance *)

Lemma balanceStep_fst st l :
  (foldl balanceStep st l).1 = st.1 + sumBy amount l.
Proof.
  revert st. induction l as [|t l IH]; intros st; simpl.
  - rewrite sumBy_nil. lia.
  - rewrite IH, sumBy_cons. simpl. lia.
Qed.


Lemma balanceStep_lookup st l k :
  is_Some ((foldl balanceStep st l).2 !! k) <->
  is_Some (st.2 !! k) \/ exists t, t ∈ l /\ keyOf t = k.
Proof.
  revert st. induction l as [|t l IH]; intros st; simpl.
  - split; [auto|]. intros [?|(t & Ht & _)]; [done|]. by apply elem_of_nil in Ht.
  - rewrite IH. simpl. rewrite lookup_insert_is_Some'. split.
    + intros [[<-|?]|(t' & Ht' & <-)].
      * right. exists t. split; [left|done].
      * by left.
      * right. exists t'. split; [by right|done].
    + intros [?|(t' & Ht' & <-)]; [by left; right|].
      apply elem_of_cons in Ht' as [->|Ht']; [left; by left|].
      right. by exists t'.
Qed.

Lemma dailyBalancesOf_lookup l k :
  is_Some (dailyBalancesOf l !! k) <-> exists t, t ∈ l /\ keyOf t = k.
Proof.
  unfold dailyBalancesOf. rewrite balanceStep_lookup. simpl.
  rewrite lookup_empty. split; [|by right].
  intros [[? ?]|?]; done.
Qed.

(** ** Sorting and mapping *)

Lemma insertBy_map {A B} (f : A -> B) after1 after2 x l :
  (forall y, y ∈ l -> after1 (f x) (f y) = after2 x y) ->
  insertBy after1 (f x) (map f l) = map f (insertBy after2 x l).
Proof.
  induction l as [|y l IH]; intros H; simpl; [done|].
  rewrite H by (rewrite elem_of_cons; by left).
  destruct (after2 x y); simpl; [|done].
  rewrite IH; [done|]. intros z Hz. apply H. rewrite elem_of_cons. by right.
Qed.

Lemma stableSort_map {A B} (f : A -> B) after1 after2 l :
  (forall x y, x ∈ l -> y ∈ l -> after1 (f x) (f y) = after2 x y) ->
  stableSort after1 (map f l) = map f (stableSort after2 l).
Proof.
  induction l as [|x l IH]; intros H; [done|].
  change (stableSort after1 (map f (x :: l)))
    with (insertBy after1 (f x) (stableSort after1 (map f l))).
  change (stableSort after2 (x :: l))
    with (insertBy after2 x (stableSort after2 l)).
  rewrite IH by (intros; apply H; rewrite elem_of_cons; by right).
  apply insertBy_map. intros y Hy.
  rewrite SortFacts.stableSort_elem_of in Hy.
  apply H; rewrite elem_of_cons; [by left|by right].
Qed.

(** The dates sorted as numbers are the dates of the rows sorted by date. *)
Lemma dates_sortedTransactions txs :
  validDates txs = true -> dates txs = map time (sortedTransactions txs).
Proof.
  intros Hv. apply stableSort_map. intros x y Hx Hy.
  destruct (valid_time x (validDates_elem _ _ Hv Hx)) as (_ & -> & _).
  destruct (valid_time y (validDates_elem _ _ Hv Hy)) as (_ & -> & _).
  simpl. destruct (Z.ltb_spec (timeZ y) (timeZ x)) as [Hlt|Hge].
  - apply Z.ltb_lt. lia.
  - destruct (Z.ltb_spec (timeZ x) (timeZ y)); apply Z.ltb_ge; lia.
Qed.

(** ** The sorted keys of [dailyBalances] *)

Lemma allDatesOf_elem (m : gmap string Z) k :
  k ∈ allDatesOf m <-> is_Some (m !! k).
Proof.
  unfold allDatesOf, sortStrings. rewrite SortFacts.stableSort_elem_of.
  rewrite list_elem_of_In, in_map_iff. split.
  - intros ([k' v] & <- & Hin). rewrite <- list_elem_of_In in Hin.
    apply elem_of_map_to_list in Hin. by exists v.
  - intros [v Hv]. exists (k, v). split; [done|].
    rewrite <- list_elem_of_In. by apply elem_of_map_to_list.
Qed.

Lemma textTime_parse k z : Date.parse k = Fin z -> textTime k = z.
Proof. unfold textTime. by intros ->. Qed.

Lemma allDatesOf_Sorted (m : gmap string Z) :
  validKeys m -> Sorted (fun a b => textTime a <= textTime b) (allDatesOf m).
Proof.
  intros Hv. apply SortFacts.stableSort_Sorted. intros x y Hx Hy.
  assert (forall k, k ∈ map fst (map_to_list m) -> exists z, Date.parse k = Fin z) as Hk.
  { intros k Hk. apply Hv, allDatesOf_elem.
    unfold allDatesOf, sortStrings. by rewrite SortFacts.stableSort_elem_of. }
  destruct (Hk x Hx) as [zx Ex], (Hk y Hy) as [zy Ey].
  rewrite (textTime_parse _ _ Ex), (textTime_parse _ _ Ey).
  unfold strLt, String.ltb. rewrite (parse_compare _ _ _ _ Ey Ex).
  unfold Z.ltb. reflexivity.
Qed.

Lemma dailyBalancesOf_validKeys l :
  validDates l = true -> validKeys (dailyBalancesOf l).
Proof.
  intros Hv k Hk. apply dailyBalancesOf_lookup in Hk as (t & Ht & <-).
  exists (timeZ t). by apply valid_time, (validDates_elem l).
Qed.

(** The first and the last key are the dates of the first and of the last
    row in date order. *)
Lemma allDatesOf_head l t0 :
  validDates l = true ->
  Sorted (fun a b => timeZ a <= timeZ b) l -> head l = Some t0 ->
  head (allDatesOf (dailyBalancesOf l)) = Some (keyOf t0).
Proof.
  intros Hv Hs Hh.
  pose proof (dailyBalancesOf_validKeys l Hv) as Hvk.
  pose proof (allDatesOf_Sorted _ Hvk) as Hsk.
  assert (t0 ∈ l) as Ht0 by (destruct l; simplify_eq/=; left).
  assert (keyOf t0 ∈ allDatesOf (dailyBalancesOf l)) as Hk0.
  { apply allDatesOf_elem, dailyBalancesOf_lookup. eauto. }
  destruct (head (allDatesOf (dailyBalancesOf l))) as [k|] eqn:Hk;
    [|apply head_None in Hk; rewrite Hk in Hk0; by apply elem_of_nil in Hk0].
  f_equal.
  assert (k ∈ allDatesOf (dailyBalancesOf l)) as Hkin
    by (destruct (allDatesOf _); simplify_eq/=; left).
  pose proof (SortFacts.Sorted_head_min textTime _ _ Hsk Hk _ Hk0) as Hle.
  apply allDatesOf_elem, dailyBalancesOf_lookup in Hkin as (t & Ht & <-).
  pose proof (SortFacts.Sorted_head_min timeZ _ _ Hs Hh _ Ht) as Hge.
  destruct (valid_time t (validDates_elem _ _ Hv Ht)) as (Pt & _ & _).
  destruct (valid_time t0 (validDates_elem _ _ Hv Ht0)) as (P0 & _ & _).
  rewrite (textTime_parse _ _ Pt), (textTime_parse _ _ P0) in Hle.
  assert (timeZ t = timeZ t0) as E by lia. rewrite E in Pt.
  by apply (parse_inj _ _ _ Pt P0).
Qed.

Lemma allDatesOf_last l t1 :
  validDates l = true ->
  Sorted (fun a b => timeZ a <= timeZ b) l -> last l = Some t1 ->
  last (allDatesOf (dailyBalancesOf l)) = Some (keyOf t1).
Proof.
  intros Hv Hs Hh.
  pose proof (dailyBalancesOf_validKeys l Hv) as Hvk.
  pose proof (allDatesOf_Sorted _ Hvk) as Hsk.
  assert (t1 ∈ l) as Ht1.
  { apply last_Some in Hh as [l' ->]. apply elem_of_app. right. left. }
  assert (keyOf t1 ∈ allDatesOf (dailyBalancesOf l)) as Hk1.
  { apply allDatesOf_elem, dailyBalancesOf_lookup. eauto. }
  destruct (last (allDatesOf (dailyBalancesOf l))) as [k|] eqn:Hk;
    [|apply last_None in Hk; rewrite Hk in Hk1; by apply elem_of_nil in Hk1].
  f_equal.
  assert (k ∈ allDatesOf (dailyBalancesOf l)) as Hkin.
  { apply last_Some in Hk as [l' ->]. apply elem_of_app. right. left. }
  pose proof (SortFacts.Sorted_last_max textTime _ _ Hsk Hk _ Hk1) as Hle.
  apply allDatesOf_elem, dailyBalancesOf_lookup in Hkin as (t & Ht & <-).
  pose proof (SortFacts.Sorted_last_max timeZ _ _ Hs Hh _ Ht) as Hge.
  destruct (valid_time t (validDates_elem _ _ Hv Ht)) as (Pt & _ & _).
  destruct (valid_time t1 (validDates_elem _ _ Hv Ht1)) as (P1 & _ & _).
  rewrite (textTime_parse _ _ Pt), (textTime_parse _ _ P1) in Hle.
  assert (timeZ t = timeZ t1) as E by lia. rewrite E in Pt.
  by apply (parse_inj _ _ _ Pt P1).
Qed.

(** ** The gap-filling loop *)

Lemma firstDay_eq : firstDay = -719528.
Proof. reflexivity. Qed.

Lemma lastDay_eq : lastDay = 2932896.
Proof. reflexivity. Qed.

Lemma nextDay_midnight a :
  firstDay <= a <= lastDay ->
  nextDay utc (Fin (a * msPerDay)) = Fin ((a + 1) * msPerDay).
Proof.
  rewrite firstDay_eq, lastDay_eq. intros Ha.
  unfold nextDay, setDateIn, getDateIn, localTime, utcTime.
  cbn [offsetAt offsetOfLocal utc]. rewrite !Z.add_0_r, Z.sub_0_r.
  rewrite setDate_getDate. unfold timeClip.
  replace (a * msPerDay + 1 * msPerDay) with ((a + 1) * msPerDay) by lia.
  destruct (Z.leb_spec (Z.abs ((a + 1) * msPerDay)) 8640000000000000) as [|Hgt];
    [done|].
  unfold msPerDay in Hgt. lia.
Qed.

Lemma fillDays_run (m : gmap string Z) k :
  forall fuel a lastBalance acc,
    (k <= fuel)%nat -> firstDay <= a -> a + Z.of_nat k - 1 <= lastDay ->
    fillDays utc fuel m (Fin ((a + Z.of_nat k - 1) * msPerDay))
             (Fin (a * msPerDay)) lastBalance acc
    = Done (foldl (fun o e => objSet e.1 e.2 o) acc
                  (carryForward m lastBalance (daysFrom a k))).
Proof.
  induction k as [|k IH]; intros fuel a lastBalance acc Hfuel Ha Hb.
  - assert (dateLe (Fin (a * msPerDay)) (Fin ((a + Z.of_nat 0 - 1) * msPerDay)) = false)
      as Hle by (apply Z.leb_gt; unfold msPerDay; lia).
    destruct fuel; cbn [fillDays]; by rewrite Hle.
  - assert (dateLe (Fin (a * msPerDay)) (Fin ((a + Z.of_nat (S k) - 1) * msPerDay)) = true)
      as Hle by (apply Z.leb_le; unfold msPerDay; lia).
    destruct fuel as [|fuel]; [lia|].
    cbn [fillDays]. rewrite Hle. cbn [Date.toISOString bind].
    rewrite nextDay_midnight by lia.
    replace (a + Z.of_nat (S k) - 1) with (a + 1 + Z.of_nat k - 1) by lia.
    rewrite IH by lia. cbn [daysFrom carryForward foldl fst snd].
    unfold isoDay. reflexivity.
Qed.

Lemma objSet_fresh {V} k (v : V) o :
  k ∉ map fst o -> objSet k v o = o ++ [(k, v)].
Proof.
  induction o as [|[k' v'] o IH]; intros Hk; simpl; [done|].
  simpl in Hk. apply not_elem_of_cons in Hk as [Hne Hk].
  destruct (String.eqb_spec k k'); [done|]. by rewrite IH.
Qed.

Lemma foldl_objSet_NoDup {V} (acc l : obj V) :
  NoDup (map fst (acc ++ l)) ->
  foldl (fun o e => objSet e.1 e.2 o) acc l = acc ++ l.
Proof.
  revert acc. induction l as [|[k v] l IH]; intros acc Hnd; simpl.
  - by rewrite app_nil_r.
  - replace (acc ++ (k, v) :: l) with ((acc ++ [(k, v)]) ++ l) in *
      by (by rewrite <- app_assoc).
    rewrite objSet_fresh, IH; [done..|].
    rewrite !map_app in Hnd. simpl in Hnd.
    apply NoDup_app in Hnd as [Hnd _]. apply NoDup_app in Hnd as (_ & Hnd & _).
    intros Hin. apply (Hnd k Hin). left.
Qed.

Lemma carryForward_keys m lastBalance days :
  map fst (carryForward m lastBalance days) = map isoDay days.
Proof.
  revert lastBalance. induction days as [|n days IH]; intros b; simpl; [done|].
  by rewrite IH.
Qed.

Lemma daysFrom_elem a k n :
  n ∈ daysFrom a k <-> a <= n < a + Z.of_nat k.
Proof.
  revert a. induction k as [|k IH]; intros a; simpl.
  - rewrite elem_of_nil. lia.
  - rewrite elem_of_cons, IH. lia.
Qed.



Lemma isoDay_daysFrom_NoDup a k :
  firstDay <= a -> a + Z.of_nat k - 1 <= lastDay ->
  NoDup (map isoDay (daysFrom a k)).
Proof.
  revert a. induction k as [|k IH]; intros a Ha Hb; simpl; [constructor|].
  constructor; [|apply IH; lia].
  rewrite list_elem_of_In, in_map_iff. intros (n & Heq & Hn).
  rewrite <- list_elem_of_In in Hn. apply daysFrom_elem in Hn.
  apply isoDay_inj in Heq; lia.
Qed.

(** The loop yields one entry for each day, in order. *)
Lemma fillDays_days (m : gmap string Z) a b :
  firstDay <= a -> a <= b -> b <= lastDay ->
  fillDays utc (daysBetween (Fin (a * msPerDay)) (Fin (b * msPerDay))) m
           (Fin (b * msPerDay)) (Fin (a * msPerDay)) 0 []
  = Done (carryForward m 0 (daysFrom a (Z.to_nat (b - a + 1)))).
Proof.
  intros Ha Hab Hb.
  assert (daysBetween (Fin (a * msPerDay)) (Fin (b * msPerDay)) = Z.to_nat (b - a + 1))
    as ->.
  { unfold daysBetween. f_equal.
    replace (b * msPerDay - a * msPerDay) with ((b - a) * msPerDay) by lia.
    unfold msPerDay. rewrite Z.div_mul; lia. }
  set (k := Z.to_nat (b - a + 1)).
  replace b with (a + Z.of_nat k - 1) at 1 by lia.
  rewrite fillDays_run by lia.
  rewrite foldl_objSet_NoDup; [done|].
  simpl. rewrite carryForward_keys. apply isoDay_daysFrom_NoDup; lia.
Qed.

(** ** The analysis of rows with valid dates *)

Lemma mapM_Done {A B} (f : A -> outcome B) (g : A -> B) l :
  (forall x, x ∈ l -> f x = Done (g x)) -> mapM f l = Done (map g l).
Proof.
  induction l as [|x l IH]; intros H; simpl; [done|].
  rewrite H by left. simpl. rewrite IH; [done|].
  intros y Hy. apply H. by right.
Qed.

Lemma computeMonthlyStats_Done txs :
  validDates txs = true -> exists stats, computeMonthlyStats txs = Done stats.
Proof.
  intros Hv. unfold computeMonthlyStats, groupByM.
  rewrite (mapM_Done _ (fun t => (Date.slice0 7 (isoOfTime (timeZ t)), t))).
  - simpl. eauto.
  - intros t Ht. unfold monthKey.
    destruct (valid_time t (validDates_elem _ _ Hv Ht)) as (_ & -> & _).
    reflexivity.
Qed.

(** The record the analysis builds once its three fallible steps are
    through. *)
Lemma analyze_Done txs stats all start end_ :
  computeMonthlyStats txs = Done stats ->
  allDailyBalancesOf utc (dailyBalancesOf (sortedTransactions txs)) = Done all ->
  toISOStringOf (minDate txs) = Done start ->
  toISOStringOf (maxDate txs) = Done end_ ->
  exists r,
    analyze txs = Done r /\
    dailyBalances r
      = formattedDailyDataOf (dailyBalancesOf (sortedTransactions txs)) all /\
    netFlow (basicStats r) = sumBy positivePart txs + sumBy negativePart txs /\
    inflows (basicStats r) = sumBy positivePart txs /\
    outflows (basicStats r) = sumBy negativePart txs /\
    yearlyBalance r = yearlyBalanceOf all /\
    weeklyBalances r = avgBalancesOf (bucketsOf all).1 /\
    monthlyBalances r = avgBalancesOf (bucketsOf all).2.
Proof.
  intros H1 H2 H3 H4. unfold analyze. rewrite H1. cbn [bind].
  rewrite H2. cbn [bind]. destruct (bucketsOf all) as [w mo].
  rewrite H3. cbn [bind]. rewrite H4. cbn [bind].
  eexists. split; [reflexivity|]. repeat split.
Qed.

(** The first and the last date of the rows. *)
Lemma date_range txs :
  txs <> [] -> validDates txs = true ->
  exists t0 t1 a b,
    head (sortedTransactions txs) = Some t0 /\
    last (sortedTransactions txs) = Some t1 /\
    timeZ t0 = a * msPerDay /\ timeZ t1 = b * msPerDay /\
    firstDay <= a /\ a <= b /\ b <= lastDay /\
    minDate txs = Some (Fin (a * msPerDay)) /\
    maxDate txs = Some (Fin (b * msPerDay)).
Proof.
  intros Hne Hv.
  pose proof (sortedTransactions_Permutation txs) as HP.
  pose proof (sortedTransactions_Sorted txs Hv) as HS.
  assert (validDates (sortedTransactions txs) = true) as Hvs
    by (by apply (validDates_Permutation txs)).
  destruct (sortedTransactions txs) as [|t0 l] eqn:El.
  { symmetry in HP. apply Permutation_nil_r in HP. done. }
  destruct (last (t0 :: l)) as [t1|] eqn:Hlast; [|by apply last_None in Hlast].
  assert (t0 ∈ t0 :: l) as Ht0 by left.
  assert (t1 ∈ t0 :: l) as Ht1.
  { apply last_Some in Hlast as [l' ->]. apply elem_of_app. right. left. }
  destruct (valid_time t0 (validDates_elem _ _ Hvs Ht0)) as (P0 & T0 & _).
  destruct (valid_time t1 (validDates_elem _ _ Hvs Ht1)) as (P1 & T1 & _).
  destruct (parse_range _ _ P0) as (a & Ea & Ha).
  destruct (parse_range _ _ P1) as (b & Eb & Hb).
  pose proof (SortFacts.Sorted_head_min timeZ _ t0 HS eq_refl _ Ht1) as Hle.
  exists t0, t1, a, b. repeat split; try done; try lia.
  - unfold msPerDay in *. lia.
  - unfold minDate. rewrite (dates_sortedTransactions _ Hv), El. simpl.
    by rewrite T0, Ea.
  - unfold maxDate. rewrite (dates_sortedTransactions _ Hv), El.
    apply last_Some in Hlast as [l' El']. rewrite El', map_app. simpl.
    rewrite last_snoc. by rewrite T1, Eb.
Qed.

Lemma allDailyBalancesOf_valid txs t0 t1 a b :
  validDates txs = true ->
  head (sortedTransactions txs) = Some t0 ->
  last (sortedTransactions txs) = Some t1 ->
  timeZ t0 = a * msPerDay -> timeZ t1 = b * msPerDay ->
  firstDay <= a -> a <= b -> b <= lastDay ->
  allDailyBalancesOf utc (dailyBalancesOf (sortedTransactions txs))
  = Done (carryForward (dailyBalancesOf (sortedTransactions txs)) 0
            (daysFrom a (Z.to_nat (b - a + 1)))).
Proof.
  intros Hv H0 H1 Ea Eb Ha Hab Hb.
  pose proof (sortedTransactions_Sorted txs Hv) as HS.
  assert (validDates (sortedTransactions txs) = true) as Hvs
    by (apply (validDates_Permutation txs); [symmetry; apply sortedTransactions_Permutation|done]).
  unfold allDailyBalancesOf.
  rewrite (allDatesOf_head _ _ Hvs HS H0), (allDatesOf_last _ _ Hvs HS H1).
  assert (t0 ∈ sortedTransactions txs) as Ht0
    by (destruct (sortedTransactions txs); simplify_eq/=; left).
  assert (t1 ∈ sortedTransactions txs) as Ht1.
  { apply last_Some in H1 as [l' ->]. apply elem_of_app. right. left. }
  destruct (valid_time t0 (validDates_elem _ _ Hvs Ht0)) as (P0 & _ & _).
  destruct (valid_time t1 (validDates_elem _ _ Hvs Ht1)) as (P1 & _ & _).
  unfold newDateAt. simpl. rewrite P0, P1, Ea, Eb.
  by apply fillDays_days.
Qed.

(** ** The daily series *)

Lemma isoDay_compare a b :
  firstDay <= a <= lastDay -> firstDay <= b <= lastDay ->
  String.compare (isoDay a) (isoDay b) = (a ?= b).
Proof.
  intros Ha Hb.
  rewrite (parse_compare _ _ _ _ (parse_isoDay a Ha) (parse_isoDay b Hb)).
  apply compare_scale. unfold msPerDay. lia.
Qed.

Lemma dailyEntries_Sorted m m' b0 a k :
  firstDay <= a -> a + Z.of_nat k - 1 <= lastDay ->
  Sorted (fun x y => isPositive (localeCompare (date x) (date y)) = false)
         (map (dailyEntry m') (carryForward m b0 (daysFrom a k))).
Proof.
  revert a b0. induction k as [|k IH]; intros a b0 Ha Hb; simpl; [constructor|].
  constructor; [apply IH; lia|].
  destruct k as [|k]; simpl; constructor. simpl.
  unfold localeCompare. rewrite isoDay_compare by lia.
  by rewrite (proj2 (Z.compare_lt_iff a (a + 1))) by lia.
Qed.

(** The daily series of the result lists the gap-filled days in order. *)
Lemma formattedDailyDataOf_days m m' b0 a k :
  firstDay <= a -> a + Z.of_nat k - 1 <= lastDay ->
  formattedDailyDataOf m' (carryForward m b0 (daysFrom a k))
  = map (dailyEntry m') (carryForward m b0 (daysFrom a k)).
Proof.
  intros Ha Hb. unfold formattedDailyDataOf, arraySort.
  apply SortFacts.stableSort_sorted_id, dailyEntries_Sorted; done.
Qed.

Lemma daysFrom_snoc a k : daysFrom a (S k) = daysFrom a k ++ [a + Z.of_nat k].
Proof.
  revert a. induction k as [|k IH]; intros a.
  - simpl. f_equal. lia.
  - change (daysFrom a (S (S k))) with (a :: daysFrom (a + 1) (S k)).
    rewrite IH. simpl. do 3 f_equal. lia.
Qed.

Lemma carryForward_app m b0 l1 l2 :
  exists b1, carryForward m b0 (l1 ++ l2)
             = carryForward m b0 l1 ++ carryForward m b1 l2.
Proof.
  revert b0. induction l1 as [|n l1 IH]; intros b0; simpl; [by exists b0|].
  destruct (IH (default b0 (m !! isoDay n))) as [b1 ->]. by exists b1.
Qed.




Lemma last_map {A B} (f : A -> B) l : last (map f l) = f <$> last l.
Proof.
  induction l as [|x [|y l] IH]; done.
Qed.


(** The series of the result is what the loop leaves. *)
Lemma analyze_valid_series txs r :
  txs <> [] -> validDates txs = true -> analyze txs = Done r ->
  allDailyBalancesOf utc (dailyBalancesOf (sortedTransactions txs))
  = Done (seriesOf r).
Proof.
  intros Hne Hv Hr.
  destruct (date_range txs Hne Hv)
    as (t0 & t1 & a & b & H0 & H1 & Ea & Eb & Ha & Hab & Hb & Hmin & Hmax).
  destruct (computeMonthlyStats_Done txs Hv) as [stats Hstats].
  pose proof (allDailyBalancesOf_valid txs t0 t1 a b Hv H0 H1 Ea Eb Ha Hab Hb) as Hall.
  destruct (analyze_Done txs stats _ (isoOfTime (a * msPerDay))
              (isoOfTime (b * msPerDay)) Hstats Hall)
    as (r' & Hr' & Hd & _); [by rewrite Hmin|by rewrite Hmax|].
  rewrite Hr in Hr'. injection Hr' as <-.
  rewrite Hall. f_equal. unfold seriesOf.
  rewrite Hd, formattedDailyDataOf_days by lia.
  rewrite map_map. cbn [dailyEntry date balance].
  assert (forall l : list (string * Z),
            l = map (fun x : string * Z => (x.1, x.2)) l) as Hid.
  { induction l as [|[d v] l IH]; [done|]. cbn [map fst snd]. by f_equal. }
  apply Hid.
Qed.

(** ** The loop in a zone without summer time *)

Lemma nextDay_fixedOffset zone d :
  fixedOffset zone -> nextDay zone d = nextDay utc d.
Proof.
  intros [c Hc]. destruct d as [|t]; [done|].
  unfold nextDay, setDateIn, getDateIn, localTime, utcTime.
  cbn [offsetAt offsetOfLocal utc].
  destruct (Hc t) as [-> _].
  destruct (Hc (setDate (t + c) (getDate (t + c) + 1))) as [_ ->].
  rewrite !Z.add_0_r, Z.sub_0_r, !setDate_getDate.
  do 2 f_equal. lia.
Qed.

Lemma fillDays_fixedOffset zone fuel m endDate currentDate lastBalance acc :
  fixedOffset zone ->
  fillDays zone fuel m endDate currentDate lastBalance acc
  = fillDays utc fuel m endDate currentDate lastBalance acc.
Proof.
  intros Hz. revert currentDate lastBalance acc.
  induction fuel as [|fuel IH]; intros currentDate lastBalance acc; [done|].
  cbn [fillDays]. destruct (dateLe currentDate endDate); [|done].
  destruct (Date.toISOString currentDate) as [iso|e]; [|done].
  cbn [bind]. by rewrite IH, nextDay_fixedOffset.
Qed.

(** In a zone without summer time the daily series is the one of UTC. *)
Lemma allDailyBalancesOf_fixedOffset zone m :
  fixedOffset zone -> allDailyBalancesOf zone m = allDailyBalancesOf utc m.
Proof. intros Hz. unfold allDailyBalancesOf. by apply fillDays_fixedOffset. Qed.

(** ** Objects and [groupBy] *)

Section Objects.
Context {V : Type}.
Implicit Types (o : list (string * V)) (k : string) (v : V).

Lemma objGet_Some o k v : objGet o k = Some v -> (k, v) ∈ o.
Proof.
  induction o as [|[k' v'] o IH]; simpl; [done|].
  destruct (String.eqb_spec k k') as [->|Hne].
  - intros [= ->]. left.
  - intros H. right. by apply IH.
Qed.

Lemma objGet_None o k : objGet o k = None <-> k ∉ map fst o.
Proof.
  induction o as [|[k' v'] o IH]; simpl.
  - split; [intros _; apply not_elem_of_nil|done].
  - rewrite not_elem_of_cons. destruct (String.eqb_spec k k') as [->|Hne].
    + split; [done|]. by intros [? _].
    + rewrite IH. split; [by intros ?|by intros [_ ?]].
Qed.

Lemma objGet_elem o k v :
  NoDup (map fst o) -> (k, v) ∈ o -> objGet o k = Some v.
Proof.
  induction o as [|[k' v'] o IH]; simpl; intros Hnd Hin.
  - by apply elem_of_nil in Hin.
  - apply NoDup_cons in Hnd as [Hk' Hnd].
    apply elem_of_cons in Hin as [[= -> ->]|Hin].
    + by rewrite String.eqb_refl.
    + destruct (String.eqb_spec k k') as [->|Hne]; [|by apply IH].
      exfalso. apply Hk'. rewrite list_elem_of_In, in_map_iff.
      exists (k', v). split; [done|]. by apply list_elem_of_In.
Qed.

Lemma objSet_keys o k v :
  map fst (objSet k v o)
  = match objGet o k with
    | Some _ => map fst o
    | None => map fst o ++ [k]
    end.
Proof.
  induction o as [|[k' v'] o IH]; simpl; [done|].
  destruct (String.eqb_spec k k') as [->|Hne]; simpl; [done|].
  rewrite IH. by destruct (objGet o k).
Qed.

Lemma objSet_NoDup o k v : NoDup (map fst o) -> NoDup (map fst (objSet k v o)).
Proof.
  intros Hnd. rewrite objSet_keys.
  destruct (objGet o k) eqn:E; [done|].
  apply objGet_None in E. apply NoDup_app. split; [done|].
  split; [|apply NoDup_singleton].
  intros x Hx Hx'. apply list_elem_of_singleton in Hx' as ->. done.
Qed.

Lemma objGet_objSet o k k' v :
  objGet (objSet k v o) k' = if String.eqb k' k then Some v else objGet o k'.
Proof.
  induction o as [|[k0 v0] o IH]; simpl.
  - by destruct (String.eqb_spec k' k).
  - destruct (String.eqb_spec k k0) as [->|Hne]; simpl.
    + by destruct (String.eqb_spec k' k0).
    + rewrite IH. destruct (String.eqb_spec k' k0) as [->|?]; [|done].
      by destruct (String.eqb_spec k0 k).
Qed.
End Objects.

Lemma groupBy_snoc {A} (key : A -> string) l x :
  groupBy key (l ++ [x])
  = objSet (key x) (default [] (objGet (groupBy key l) (key x)) ++ [x])
           (groupBy key l).
Proof. unfold groupBy. by rewrite foldl_app. Qed.

Lemma groupBy_NoDup {A} (key : A -> string) l :
  NoDup (map fst (groupBy key l)).
Proof.
  induction l as [|x l IH] using rev_ind; [constructor|].
  rewrite groupBy_snoc. by apply objSet_NoDup.
Qed.

(** The group of a key holds the elements with that key, in order. *)
Lemma groupBy_get {A} (key : A -> string) l k :
  objGet (groupBy key l) k
  = match filter (fun x => key x = k) l with
    | [] => None
    | g => Some g
    end.
Proof.
  induction l as [|x l IH] using rev_ind; [done|].
  rewrite groupBy_snoc, objGet_objSet, filter_app, filter_cons, filter_nil.
  destruct (String.eqb_spec k (key x)) as [->|Hne].
  - rewrite IH. rewrite decide_True by done.
    by destruct (filter (fun x0 => key x0 = key x) l).
  - rewrite decide_False by done. by rewrite app_nil_r.
Qed.

Lemma groupBy_elem {A} (key : A -> string) l k g :
  (k, g) ∈ groupBy key l <-> g = filter (fun x => key x = k) l /\ g <> [].
Proof.
  split.
  - intros Hin. apply (objGet_elem _ _ _ (groupBy_NoDup key l)) in Hin.
    rewrite groupBy_get in Hin.
    destruct (filter (fun x => key x = k) l) eqn:E; [done|].
    by injection Hin as <-.
  - intros [-> Hne]. apply objGet_Some. rewrite groupBy_get.
    by destruct (filter (fun x => key x = k) l).
Qed.

(** ** Consolidation of the account holder's names *)

Lemma numberToString_not_label n : numberToString n <> "My Transfers".
Proof.
  destruct n as [|z]; [discriminate|]. simpl.
  destruct (Z.to_int z) as [d|d]; destruct d; discriminate.
Qed.

Lemma toString_label v : toString v = "My Transfers" -> v = VStr "My Transfers".
Proof.
  destruct v as [| |[]|n|s]; simpl; try discriminate.
  - intros H. by apply numberToString_not_label in H.
  - by intros ->.
Qed.

Lemma consolidate_label t :
  toString (partnerName (consolidate t)) = "My Transfers" <-> isMyTransfers t = true.
Proof.
  unfold consolidate, isMyTransfers.
  destruct (isOwnName (partnerName t)) eqn:E; simpl; [done|].
  split.
  - intros H. apply toString_label in H. rewrite H. reflexivity.
  - destruct (partnerName t) as [| | | |s]; try discriminate.
    intros H. apply String.eqb_eq in H. by subst.
Qed.

Lemma isOwnName_spec v :
  isOwnName v = true <->
  exists s variation,
    v = VStr s /\ variation ∈ nameVariations
    /\ toUpperCase s = toUpperCase variation.
Proof.
  destruct v as [| | | |s]; unfold isOwnName;
    try (split; [discriminate|intros (? & ? & ? & _); discriminate]).
  rewrite existsb_exists. split.
  - intros (x & Hx & Heq). apply String.eqb_eq in Heq.
    exists s, x. split; [done|]. split; [by apply list_elem_of_In|done].
  - intros (s' & x & [= <-] & Hx & Heq). exists x.
    split; [by apply list_elem_of_In|]. by apply String.eqb_eq.
Qed.

(** The entries of the ranking come from the groups of the consolidated
    rows. *)
Lemma computePartnerVolumes_elem txs e :
  e ∈ computePartnerVolumes txs <->
  exists k g,
    e = partnerVolumeOf (k, g) /\ g <> [] /\
    g = filter (fun t => toString (partnerName t) = k)
               (consolidatedSortedTransactions txs).
Proof.
  unfold computePartnerVolumes, orderByDesc.
  rewrite SortFacts.stableSort_elem_of, map_fmap, list_elem_of_fmap.
  split.
  - intros ([k g] & -> & Hin). apply groupBy_elem in Hin as [-> Hne]. eauto.
  - intros (k & g & -> & Hne & Hg). exists (k, g). split; [done|].
    by apply groupBy_elem.
Qed.

Lemma filter_map {A B} (f : A -> B) (P : B -> Prop) `{!forall y, Decision (P y)}
    (l : list A) :
  filter P (map f l) = map f (filter (fun x => P (f x)) l).
Proof.
  induction l as [|x l IH]; [done|].
  cbn [map]. rewrite !filter_cons, IH. by destruct (decide (P (f x))).
Qed.

Lemma consolidated_label_count txs :
  length (filter (fun t => toString (partnerName t) = "My Transfers")
                 (consolidatedSortedTransactions txs))
  = length (filter (fun t => isMyTransfers t) txs).
Proof.
  unfold consolidatedSortedTransactions.
  rewrite filter_map, length_map.
  rewrite (sortedTransactions_Permutation txs).
  f_equal. apply list_filter_iff. intros t. simpl.
  rewrite consolidate_label. by destruct (isMyTransfers t).
Qed.

(** ** Period buckets and averages *)

Lemma qsum_Permutation l1 l2 : l1 ≡ₚ l2 -> (qsum l1 == qsum l2)%Q.
Proof.
  induction 1 as [|x l1 l2 _ IH|x y l|l1 l2 l3 _ IH1 _ IH2]; simpl.
  - reflexivity.
  - by rewrite IH.
  - ring.
  - by rewrite IH1.
Qed.

Lemma objSet_measure (f : list Z -> Z) k v (o : list (string * list Z)) :
  f [] = 0 ->
  sumBy (fun e => f e.2) (objSet k v o)
  = sumBy (fun e => f e.2) o - f (default [] (objGet o k)) + f v.
Proof.
  intros Hf. induction o as [|[k' v'] o IH]; simpl.
  - rewrite sumBy_cons, !sumBy_nil. simpl. lia.
  - destruct (String.eqb_spec k k') as [->|Hne]; rewrite !sumBy_cons; simpl.
    + lia.
    + rewrite IH. lia.
Qed.

Lemma sumOf_app l1 l2 : sumOf (l1 ++ l2) = sumOf l1 + sumOf l2.
Proof. apply sumBy_app. Qed.

Lemma sumOf_singleton b : sumOf [b] = b.
Proof. reflexivity. Qed.

Lemma pushTo_sum k b o :
  sumBy (fun e => sumOf e.2) (pushTo k b o)
  = sumBy (fun e => sumOf e.2) o + b.
Proof.
  unfold pushTo. rewrite (objSet_measure sumOf) by done.
  rewrite sumOf_app, sumOf_singleton. lia.
Qed.

Lemma pushTo_count k b o :
  sumBy (fun e => Z.of_nat (length e.2)) (pushTo k b o)
  = sumBy (fun e => Z.of_nat (length e.2)) o + 1.
Proof.
  unfold pushTo. rewrite (objSet_measure (fun l => Z.of_nat (length l))) by done.
  rewrite length_app. simpl. lia.
Qed.

Lemma objSet_Forall {V} (P : V -> Prop) k v (o : list (string * V)) :
  P v -> Forall (fun e => P e.2) o -> Forall (fun e => P e.2) (objSet k v o).
Proof.
  intros Hv. induction 1 as [|[k' v'] o Hx Ho IH]; simpl.
  - by repeat constructor.
  - destruct (String.eqb k k'); constructor; done.
Qed.

Lemma pushTo_nonempty k b o :
  Forall (fun e : string * list Z => e.2 <> []) o ->
  Forall (fun e : string * list Z => e.2 <> []) (pushTo k b o).
Proof.
  intros H. unfold pushTo.
  apply (objSet_Forall (fun l : list Z => l <> [])); [|done].
  by destruct (default [] (objGet o k)).
Qed.

Lemma bucketsOf_sharesOut all :
  sharesOut (bucketsOf all).1 all /\ sharesOut (bucketsOf all).2 all.
Proof.
  unfold bucketsOf.
  induction all as [|[d b] all IH] using rev_ind.
  - split; (split; [constructor|done]).
  - rewrite foldl_app. simpl.
    destruct IH as [(N1 & S1 & C1) (N2 & S2 & C2)].
    set (st := foldl bucketStep ([], []) all) in *.
    unfold sharesOut. simpl.
    rewrite !pushTo_sum, !pushTo_count, map_app, sumOf_app, length_app, S1, S2, C1, C2.
    cbn [map snd length]. rewrite sumOf_singleton.
    repeat split; try (by apply pushTo_nonempty); lia.
Qed.

Lemma divide_Some a b :
  b <> 0 -> divide a b = Some (inject_Z a / inject_Z b)%Q.
Proof. intros Hb. unfold divide. by destruct (Z.eqb_spec b 0). Qed.

Lemma inject_Z_nonzero b : b <> 0 -> ~ (inject_Z b == 0)%Q.
Proof. intros Hb H. apply Hb. unfold Qeq in H. simpl in H. lia. Qed.

Lemma weighted_periodBalanceOf k bs :
  bs <> [] -> (weighted (periodBalanceOf (k, bs)) == inject_Z (sumOf bs))%Q.
Proof.
  intros Hne. unfold weighted, periodBalanceOf. cbn [avgBalance days].
  assert (Z.of_nat (length bs) <> 0) as Hlen by (destruct bs; simpl; [done|lia]).
  rewrite divide_Some by done. cbn [default from_option id].
  field. by apply inject_Z_nonzero.
Qed.

Lemma weighted_sum buckets :
  Forall (fun e : string * list Z => e.2 <> []) buckets ->
  (qsum (map weighted (map periodBalanceOf buckets))
   == inject_Z (sumBy (fun e => sumOf e.2) buckets))%Q.
Proof.
  induction 1 as [|[k bs] buckets Hx _ IH]; [reflexivity|].
  cbn [map qsum foldr]. fold (qsum (map weighted (map periodBalanceOf buckets))).
  rewrite IH, sumBy_cons, inject_Z_plus, weighted_periodBalanceOf by done.
  reflexivity.
Qed.

Lemma days_sum buckets :
  Z.of_nat (foldr Nat.add O (map days (map periodBalanceOf buckets)))
  = sumBy (fun e => Z.of_nat (length e.2)) buckets.
Proof.
  induction buckets as [|[k bs] buckets IH]; [done|].
  cbn [map foldr]. rewrite sumBy_cons, Nat2Z.inj_add, IH. reflexivity.
Qed.

Lemma natsum_Permutation (l1 l2 : list nat) :
  l1 ≡ₚ l2 -> foldr Nat.add O l1 = foldr Nat.add O l2.
Proof. induction 1; simpl; lia. Qed.

Lemma avgBalancesOf_Permutation buckets :
  avgBalancesOf buckets ≡ₚ map periodBalanceOf buckets.
Proof. apply SortFacts.stableSort_Permutation. Qed.

(** The period means, weighted by the days of each period, give back the
    mean of the whole series. *)
Lemma weightedMean_avgBalancesOf buckets all :
  sharesOut buckets all ->
  (weightedMean (avgBalancesOf buckets)
   == inject_Z (sumOf (map snd all)) / inject_Z (Z.of_nat (length all)))%Q.
Proof.
  intros (Hne & Hsum & Hcount). unfold weightedMean.
  pose proof (avgBalancesOf_Permutation buckets) as HP.
  assert (qsum (map weighted (avgBalancesOf buckets))
          == inject_Z (sumOf (map snd all)))%Q as E1.
  { rewrite <- Hsum, <- weighted_sum by done.
    apply qsum_Permutation. rewrite !map_fmap. by rewrite HP. }
  assert (Z.of_nat (foldr Nat.add O (map days (avgBalancesOf buckets)))
          = Z.of_nat (length all)) as E2.
  { rewrite <- Hcount, <- days_sum. f_equal.
    apply natsum_Permutation. rewrite !map_fmap. by rewrite HP. }
  rewrite E2. apply Qdiv_comp; [exact E1|reflexivity].
Qed.

Lemma avgBalancesOf_defined buckets p :
  Forall (fun e : string * list Z => e.2 <> []) buckets ->
  p ∈ avgBalancesOf buckets -> is_Some (avgBalance p) /\ (0 < days p)%nat.
Proof.
  intros Hne Hp. rewrite avgBalancesOf_Permutation, map_fmap in Hp.
  apply list_elem_of_fmap in Hp as ([k bs] & -> & Hin).
  rewrite Forall_forall in Hne. specialize (Hne _ Hin). simpl in Hne.
  unfold periodBalanceOf. cbn [avgBalance days].
  destruct bs as [|b bs]; [done|]. split; [|simpl; lia].
  rewrite divide_Some by (simpl; lia). eauto.
Qed.

(** What a successful analysis went through. *)
Lemma analyze_inv txs r :
  analyze txs = Done r ->
  exists all,
    allDailyBalancesOf utc (dailyBalancesOf (sortedTransactions txs)) = Done all /\
    dailyBalances r
      = formattedDailyDataOf (dailyBalancesOf (sortedTransactions txs)) all /\
    yearlyBalance r = yearlyBalanceOf all /\
    weeklyBalances r = avgBalancesOf (bucketsOf all).1 /\
    monthlyBalances r = avgBalancesOf (bucketsOf all).2.
Proof.
  intros H.
  destruct (computeMonthlyStats txs) as [stats|e] eqn:E1;
    [|unfold analyze in H; rewrite E1 in H; discriminate H].
  destruct (allDailyBalancesOf utc (dailyBalancesOf (sortedTransactions txs)))
    as [all|e] eqn:E2;
    [|unfold analyze in H; rewrite E1 in H; cbn [bind] in H; rewrite E2 in H;
      discriminate H].
  destruct (toISOStringOf (minDate txs)) as [start|e] eqn:E3.
  2:{ unfold analyze in H. rewrite E1 in H. cbn [bind] in H. rewrite E2 in H.
      cbn [bind] in H. destruct (bucketsOf all). rewrite E3 in H. discriminate H. }
  destruct (toISOStringOf (maxDate txs)) as [end_|e] eqn:E4.
  2:{ unfold analyze in H. rewrite E1 in H. cbn [bind] in H. rewrite E2 in H.
      cbn [bind] in H. destruct (bucketsOf all). rewrite E3 in H. cbn [bind] in H.
      rewrite E4 in H. discriminate H. }
  destruct (analyze_Done txs stats all start end_ E1 E2 E3 E4)
    as (r' & Hr' & Hd & _ & _ & _ & Hy & Hw & Hm).
  rewrite H in Hr'. injection Hr' as <-. eauto 10.
Qed.

Lemma formattedDailyDataOf_Permutation m all :
  formattedDailyDataOf m all ≡ₚ map (dailyEntry m) all.
Proof. apply SortFacts.stableSort_Permutation. Qed.

End DashboardFacts.

(* ================================================================== *)
(** * Facts about the table *)
(* ================================================================== *)

Module TableFacts.
Import JS SortableTable TableSpec.

(** ** Sort state *)

Lemma requestSort_active columns k dir :
  requestSort columns k {| sortKey := Some k; direction := dir |}
  = {| sortKey := Some k;
       direction := match dir with asc => desc | desc => asc end |}.
Proof.
  unfold requestSort. cbn [sortKey direction].
  rewrite bool_decide_eq_true_2 by done.
  by destruct (isNumberOrDate (typeOf columns k)), dir.
Qed.

Lemma requestSort_new columns k cfg :
  sortKey cfg <> Some k ->
  requestSort columns k cfg
  = {| sortKey := Some k;
       direction := if isNumberOrDate (typeOf columns k) then desc else asc |}.
Proof.
  intros Hne. unfold requestSort.
  rewrite bool_decide_eq_false_2 by done.
  by destruct (isNumberOrDate (typeOf columns k)).
Qed.

(** A column found under its key has its own type. *)
Lemma typeOf_column columns col t :
  find (fun c => String.eqb (key c) (key col)) columns = Some col ->
  type col = Some t -> t <> EmptyString -> typeOf columns (key col) = t.
Proof.
  intros Hf Ht Hne. unfold typeOf. rewrite Hf, Ht.
  by destruct (String.eqb_spec t EmptyString).
Qed.

(** ** Rendering *)

Lemma visibleIndices_all height itemSize n :
  coversAll height itemSize n 0 -> visibleIndices height itemSize n 0 = seq 0 n.
Proof.
  intros (_ & Hsize & Hfit). unfold visibleIndices.
  assert (forall k start, (start + k <= n)%nat ->
    filter (fun i : nat => Z.of_nat i * itemSize < 0 + height
                           /\ 0 < (Z.of_nat i + 1) * itemSize) (seq start k)
    = seq start k) as H.
  { induction k as [|k IH]; intros start Hk; [done|].
    cbn [seq]. rewrite filter_cons, decide_True by (split; nia).
    f_equal. apply IH. lia. }
  apply H. lia.
Qed.

Lemma mapM_shift {B} (g : nat -> outcome B) (s : list nat) :
  mapM g (map S s) = mapM (fun i => g (S i)) s.
Proof.
  induction s as [|i s IH]; [done|]. cbn [map mapM]. by rewrite IH.
Qed.

Lemma mapM_lookup_seq {A B} (f : A -> B) (e : exn) (l : list A) :
  mapM (fun i => match l !! i with
                 | Some x => Done (f x)
                 | None => Threw e
                 end) (seq 0 (length l))
  = Done (map f l).
Proof.
  induction l as [|x l IH]; [done|].
  cbn [length seq]. rewrite <- seq_shift.
  change (mapM ?g (0%nat :: ?s)) with (let* y := g 0%nat in
                                       let* ys := mapM g s in Done (y :: ys)).
  rewrite (mapM_shift (fun i => match (x :: l) !! i with
                                | Some y => Done (f y)
                                | None => Threw e
                                end)).
  change (mapM (fun i => match (x :: l) !! S i with
                         | Some y => Done (f y)
                         | None => Threw e
                         end) (seq 0 (length l)))
    with (mapM (fun i => match l !! i with
                         | Some y => Done (f y)
                         | None => Threw e
                         end) (seq 0 (length l))).
  rewrite IH. reflexivity.
Qed.

(** Without custom renderers the two rendering modes agree when the
    viewport covers all rows. *)
Lemma renderBody_modes_agree lc props cfg :
  Forall (fun col => render col = None) (columns props) ->
  coversAll (virtualHeight props) (rowHeight props)
            (length (sortedData lc (data props) (columns props) cfg)) 0 ->
  forall props',
    data props' = data props -> columns props' = columns props ->
    rowClassName props' = rowClassName props ->
    getRowClassName props' = getRowClassName props ->
    useVirtualization props = true -> useVirtualization props' = false ->
    renderBody lc props cfg 0 = renderBody lc props' cfg 0.
Proof.
  intros Hplain Hcov props' Hd Hc Hrc Hg Hv Hv'.
  unfold renderBody. rewrite Hv, Hv', Hd, Hc. cbn [negb].
  rewrite visibleIndices_all by done.
  unfold RowRenderer.
  rewrite (mapM_lookup_seq (fun row =>
    {| rowClass := rowClassOf (rowClassName props) (getRowClassName props) row;
       cells := map (fun column =>
                       match render column with
                       | Some f => f (ACell (get row (key column)))
                       | None => get row (key column)
                       end) (columns props) |})).
  f_equal. apply map_ext. intros row. unfold renderRow. rewrite Hrc, Hg, Hc. f_equal.
  apply map_ext_Forall. eapply Forall_impl; [exact Hplain|].
  intros col Hcol. simpl. by rewrite Hcol.
Qed.

(** ** The comparator *)

Lemma get_insert (row : Row) k v : get (<[k := v]> row) k = v.
Proof. unfold get. by rewrite lookup_insert_eq. Qed.

Lemma numberOf_missing v : missing v -> numberOf v = Fin 0.
Proof. by intros [-> | ->]. Qed.

Lemma dateOf_missing v : missing v -> dateOf v = Fin 0.
Proof. by intros [-> | ->]. Qed.

(** ** Exports *)

Lemma mapM_inv {A B} (f : A -> outcome B) l ys :
  mapM f l = Done ys -> Forall2 (fun x y => f x = Done y) l ys.
Proof.
  revert ys. induction l as [|x l IH]; intros ys; simpl.
  - intros [= <-]. constructor.
  - destruct (f x) as [y|e] eqn:E; [|discriminate]. simpl.
    destruct (mapM f l) as [ys'|e]; [|discriminate]. simpl.
    intros [= <-]. constructor; [done|]. by apply IH.
Qed.

Lemma exportRow_get_acc (columns : list Column) (row : Row) acc h :
  objGet (foldl (fun o col => objSet (header col) (get row (key col)) o)
                acc columns) h
  = match last (filter (fun col => header col = h) columns) with
    | Some col => Some (get row (key col))
    | None => objGet acc h
    end.
Proof.
  revert acc. induction columns as [|col columns IH] using rev_ind; intros acc.
  - done.
  - rewrite foldl_app, filter_app, filter_cons, filter_nil. cbn [foldl].
    rewrite DashboardFacts.objGet_objSet.
    destruct (String.eqb_spec h (header col)) as [->|Hne].
    + rewrite decide_True by done. by rewrite last_snoc.
    + rewrite decide_False by done. rewrite app_nil_r. apply IH.
Qed.

(** The exported object holds, under each header, the raw cell of the last
    column with that header. *)
Lemma exportRow_get columns row h :
  objGet (exportRow columns row) h
  = (fun col => get row (key col))
      <$> last (filter (fun col => header col = h) columns).
Proof.
  unfold exportRow. rewrite exportRow_get_acc.
  by destruct (last (filter (fun col => header col = h) columns)).
Qed.

Lemma csvValue_raw col row :
  rawColumn col = true -> csvValue col row = Done (get row (key col)).
Proof.
  unfold rawColumn, csvValue. destruct (render col); [|done].
  intros H. apply andb_true_iff in H as [Hn Hd].
  apply negb_true_iff in Hn, Hd. by rewrite Hn, Hd.
Qed.

Lemma csvValue_missing col row v :
  missing (get row (key col)) -> renderedNumber col = false ->
  csvValue col row = Done v -> csvField v = EmptyString.
Proof.
  unfold renderedNumber, csvValue. intros Hm Hrn.
  assert (truthy (get row (key col)) = false) as Ht
    by (by destruct Hm as [-> | ->]).
  destruct (render col).
  - rewrite Hrn, Ht, andb_false_r. intros [= <-].
    by destruct Hm as [-> | ->].
  - intros [= <-]. by destruct Hm as [-> | ->].
Qed.

(** ** The array given to the table *)

Lemma sortedDataRef_frame lc h dataRef columns cfg rows :
  h !! dataRef = Some rows ->
  (sortedDataRef lc h dataRef columns cfg).2 !! dataRef = Some rows.
Proof.
  intros Hd. unfold sortedDataRef.
  destruct (sortKey cfg) as [k|]; [|done].
  destruct (String.eqb k EmptyString); [done|].
  unfold spread, sortInPlace. cbv beta iota zeta. cbn [snd].
  assert (fresh (dom h) <> dataRef) as Hne.
  { intros E. apply (is_fresh (dom h)). rewrite E. apply elem_of_dom. eauto. }
  by rewrite lookup_alter_ne, lookup_insert_ne.
Qed.

(** The sorted array in the store holds the sorted view. *)
Lemma sortedDataRef_contents lc h dataRef columns cfg rows :
  h !! dataRef = Some rows ->
  let '(r, h') := sortedDataRef lc h dataRef columns cfg in
  h' !! r = Some (sortedData lc rows columns cfg).
Proof.
  intros Hd. unfold sortedDataRef, sortedData.
  destruct (sortKey cfg) as [k|]; [|done].
  destruct (String.eqb k EmptyString); [done|].
  unfold spread, sortInPlace, contents. rewrite Hd. cbv beta iota zeta.
  cbn [default from_option id].
  by rewrite lookup_alter_eq, lookup_insert_eq.
Qed.

Lemma handle_frame lc columns dataRef i e rows :
  heap i !! dataRef = Some rows ->
  heap (handle lc columns dataRef i e) !! dataRef = Some rows.
Proof.
  intros Hd. destruct e as [k| |]; [|done..].
  unfold handle, rerender.
  pose proof (sortedDataRef_frame lc (heap i) dataRef columns
                (requestSort columns k (sortConfig i)) rows Hd) as H.
  by destruct (sortedDataRef lc (heap i) dataRef columns
                 (requestSort columns k (sortConfig i))).
Qed.

End TableFacts.

(* ================================================================== *)
(** * The properties of the analysis *)
(* ================================================================== *)

Section AnalysisProperties.
Import JS Date Calendar DateFacts Dashboard DashboardSpec DashboardFacts.




(** Where the host zone has summer time the net flow need not be the
    last balance either.  In central Europe the loop starts at 01:00 on
    29 March 2024; from 31 March on, 01:00 on the clocks is 23:00 UTC of
    the day before, so that the loop names 31 March twice, ends with
    1 April and never reaches 2 April, the day of the last row: the net
    flow is 150, the last balance 100. *)
Lemma net_flow_lost_in_summer_time :
  exists r all,
    analyze easterRows = Done r /\
    netFlow (basicStats r) = 150 /\
    allDailyBalancesOf centralEurope
      (dailyBalancesOf (sortedTransactions easterRows)) = Done all /\
    last all = Some ("2024-04-01", 100).
Proof.
  eexists _, _. split; [vm_compute; reflexivity|].
  split; [reflexivity|]. split; [vm_compute; reflexivity|reflexivity].
Qed.

Section Rounding.
Import PrimFloat.
#[local] Open Scope float_scope.
#[local] Set Warnings "-inexact-float".

(** On amounts with decimals the net flow and the last balance differ by
    the rounding of binary64: the program adds the inflows and the
    outflows apart and the balance row by row. *)
Lemma net_flow_rounding :
  Doubles.netFlow64 [1994.78; -759.65; 1091] = 2326.1299999999997 /\
  Doubles.runningBalance64 [1994.78; -759.65; 1091] = 2326.13 /\
  (2326.1299999999997 =? 2326.13) = false.
Proof. repeat split; vm_compute; reflexivity. Qed.

End Rounding.




(** A blank booking date parses too, as the epoch ([new Date(null)]), but
    is stored under the key "null", which is the last of the sorted keys
    and no date: the loop has no end to run to and the series is empty,
    where the earliest and the latest date are 19723 days apart. *)
Lemma blank_date_empties_series :
  exists r,
    analyze blankAndDatedRows = Done r /\
    minDate blankAndDatedRows = Some (Fin 0) /\
    maxDate blankAndDatedRows = Some (Fin (19723 * msPerDay)) /\
    dailyBalances r = [].
Proof.
  eexists. split; [vm_compute; reflexivity|]. repeat split.
Qed.

(** C8 (amended): a row whose partner name is a string that equals one of
    the configured names up to case has the name replaced by "My
    Transfers" and keeps its other fields; a row whose partner name is not
    a string is left as it is; and whenever some row matches a configured
    name or bears the label already, the ranking has exactly one entry named
    "My Transfers", whose count is the number of those rows. *)
Theorem C8_my_transfers txs :
  (forall t s variation,
     partnerName t = VStr s -> variation ∈ nameVariations ->
     toUpperCase s = toUpperCase variation ->
     consolidate t
     = {| bookingDate := bookingDate t; partnerName := VStr "My Transfers";
          amount := amount t |}) /\
  (forall t, (forall s, partnerName t <> VStr s) -> consolidate t = t) /\
  (let n := length (filter (fun t => isMyTransfers t) txs) in
   (0 < n)%nat ->
   exists e,
     e ∈ computePartnerVolumes txs /\ name e = "My Transfers" /\ count e = n /\
     forall e', e' ∈ computePartnerVolumes txs ->
                name e' = "My Transfers" -> e' = e).
Proof.
  split; [|split].
  - intros t s v Hs Hv Heq. unfold consolidate.
    assert (isOwnName (partnerName t) = true) as ->; [|done].
    apply isOwnName_spec. eauto.
  - intros t Hns. unfold consolidate.
    destruct (isOwnName (partnerName t)) eqn:E; [|done].
    apply isOwnName_spec in E as (s & _ & Hs & _). by apply Hns in Hs.
  - intros n Hn. subst n. rewrite <- consolidated_label_count in *.
    set (g := filter _ (consolidatedSortedTransactions txs)) in *.
    assert (g <> []) as Hne by (intros E; rewrite E in Hn; simpl in Hn; lia).
    exists (partnerVolumeOf ("My Transfers", g)).
    split; [apply computePartnerVolumes_elem; eauto|].
    split; [done|]. split; [done|].
    intros e' He' Hname.
    apply computePartnerVolumes_elem in He' as (k & g' & -> & _ & ->).
    simpl in Hname. by subst k.
Qed.

Lemma C8_my_transfers_witness :
  exists e,
    e ∈ computePartnerVolumes [aliasRow; labelRow] /\
    name e = "My Transfers" /\ count e = 2%nat.
Proof.
  destruct (C8_my_transfers [aliasRow; labelRow]) as (_ & _ & H).
  destruct (H ltac:(vm_compute; lia)) as (e & He & Hn & Hc & _).
  exists e. split; [done|]. split; [done|]. rewrite Hc. reflexivity.
Defined.

(** C8, as stated, fails when a row bears the label "My Transfers"
    already: of the two rows, one matches a configured name, yet the
    ranking entry "My Transfers" counts both. *)
Lemma C8_counterexample :
  length (filter (fun t => isOwnName (partnerName t)) [aliasRow; labelRow]) = 1%nat /\
  exists e,
    e ∈ computePartnerVolumes [aliasRow; labelRow] /\
    name e = "My Transfers" /\ count e = 2%nat.
Proof.
  split; [reflexivity|].
  eexists. split; [vm_compute; left|]. split; reflexivity.
Qed.

(** C9: when the analysis yields a non-empty daily series, the yearly
    average balance is the sum of the daily balances divided by their
    number, and both the weekly and the monthly means, which are all
    defined and over at least one day, give back that average when each is
    weighted by the days of its period (in exact arithmetic). *)
Theorem C9_yearly_average txs r :
  analyze txs = Done r -> dailyBalances r <> [] ->
  exists q,
    yearlyAvgBalance (yearlyBalance r) = Some q /\
    (q == inject_Z (sumBy balance (dailyBalances r))
          / inject_Z (Z.of_nat (length (dailyBalances r))))%Q /\
    (forall p, p ∈ weeklyBalances r ++ monthlyBalances r ->
               is_Some (avgBalance p) /\ (0 < days p)%nat) /\
    (weightedMean (weeklyBalances r) == q)%Q /\
    (weightedMean (monthlyBalances r) == q)%Q.
Proof.
  intros Hr Hne.
  destruct (analyze_inv txs r Hr) as (all & _ & Hd & Hy & Hw & Hm).
  pose proof (formattedDailyDataOf_Permutation
                (dailyBalancesOf (sortedTransactions txs)) all) as HP.
  rewrite <- Hd in HP.
  assert (length (dailyBalances r) = length all) as Hlen
    by (by rewrite HP, length_map).
  assert (sumBy balance (dailyBalances r) = sumOf (map snd all)) as Hsum.
  { rewrite (sumBy_Permutation _ _ _ HP), sumBy_map. unfold sumOf. rewrite sumBy_map.
    reflexivity. }
  assert (Z.of_nat (length all) <> 0) as Hnz.
  { destruct all; [|simpl; lia]. destruct (dailyBalances r); [done|discriminate]. }
  destruct (bucketsOf_sharesOut all) as [Sw Sm].
  exists (inject_Z (sumOf (map snd all)) / inject_Z (Z.of_nat (length all)))%Q.
  split; [|split; [|split; [|split]]].
  - rewrite Hy. unfold yearlyBalanceOf. cbn [yearlyAvgBalance].
    unfold objKeys, objValues. rewrite length_map. by apply divide_Some.
  - by rewrite Hsum, Hlen.
  - intros p Hp. apply elem_of_app in Hp as [Hp|Hp].
    + rewrite Hw in Hp. apply (avgBalancesOf_defined _ _ (proj1 Sw) Hp).
    + rewrite Hm in Hp. apply (avgBalancesOf_defined _ _ (proj1 Sm) Hp).
  - rewrite Hw. by apply weightedMean_avgBalancesOf.
  - rewrite Hm. by apply weightedMean_avgBalancesOf.
Qed.

Lemma C9_yearly_average_witness :
  exists r q,
    analyze scenario = Done r /\
    yearlyAvgBalance (yearlyBalance r) = Some q /\
    (weightedMean (weeklyBalances r) == q)%Q /\
    (weightedMean (monthlyBalances r) == q)%Q.
Proof.
  assert (exists r, analyze scenario = Done r /\ dailyBalances r <> [])
    as (r & Hr & Hne).
  { eexists. split; [vm_compute; reflexivity|discriminate]. }
  destruct (C9_yearly_average scenario r Hr Hne) as (q & Hq & _ & _ & Hw & Hm).
  exists r, q. auto.
Defined.

(** C6: on the empty list the analysis throws where it reads the earliest
    date, which is [undefined]; the component is left without data and
    with an error message.  The yearly average, [0 / 0], is computed before
    that and dropped with everything else.  On any list the component
    holds either the whole result or no result and an error. *)
Theorem C6_empty_input_no_result :
  analyze []
    = Threw (TypeError "Cannot read properties of undefined (reading 'toISOString')") /\
  data (processTransactions []) = None /\
  is_Some (error (processTransactions [])) /\
  yearlyAvgBalance (yearlyBalanceOf []) = None /\
  forall txs,
    (exists r, analyze txs = Done r /\ data (processTransactions txs) = Some r
               /\ error (processTransactions txs) = None)
    \/ (exists e, analyze txs = Threw e /\ data (processTransactions txs) = None
                  /\ is_Some (error (processTransactions txs))).
Proof.
  split; [reflexivity|]. split; [reflexivity|]. split; [by eexists|].
  split; [reflexivity|].
  intros txs. unfold processTransactions.
  destruct (analyze txs) as [r|e]; [left|right]; eauto.
Qed.

End AnalysisProperties.

(* ================================================================== *)
(** * The properties of the table *)
(* ================================================================== *)

Section TableProperties.
Import JS SortableTable TableSpec TableFacts.

(** C4: the table starts unsorted whatever the props are; the default sort
    key and direction that FinancialDashboard.js passes are not read. *)
Theorem C4_default_sort_ignored rows cols :
  defaultSortKey (allTransactionsTable rows cols) = Some "Booking Date" /\
  defaultSortDirection (allTransactionsTable rows cols) = Some "desc" /\
  initialSortConfig (allTransactionsTable rows cols) = unsorted /\
  forall lc, sortedData lc rows cols
               (initialSortConfig (allTransactionsTable rows cols)) = rows.
Proof. repeat split. Qed.

(** C3: with a custom renderer the two modes differ, although the
    viewport covers the one row: the non-virtualized body calls the
    renderer with the row, the virtualized one with the cell. *)
Theorem C3_render_modes_differ :
  let rows : list Row := [ {[ "value" := VNum (Fin 5) ]} ] in
  coversAll 400 35 (length rows) 0 /\
  renderedCells
    (renderBody localeCompare (tableOf rows [amountColumn] false) unsorted 0)
    = Done [[VNum (Fin 5)]] /\
  renderedCells
    (renderBody localeCompare (tableOf rows [amountColumn] true) unsorted 0)
    = Done [[VUndefined]].
Proof.
  split; [unfold coversAll; simpl; lia|]. split; reflexivity.
Qed.

(** C5 (amended): in a number column a missing cell compares as the number
    0, in a date column a missing cell compares as the epoch (the date
    1970-01-01), whichever side of the comparison it is on, and in a string
    column the comparison only depends on the lower-cased texts.  In a
    date column a cell that is not missing and does not parse makes the
    comparison [NaN], whichever side it is on and whatever the other cell
    is, and the sort takes that for a tie: it leaves the two rows in the
    order in which it finds them. *)
Theorem C5_sort_coercions (lc : string -> string -> number) (k : string)
    (dir : Direction) (a b : Row) :
  (missing (get a k) ->
     compareRows lc "number" k dir a b
       = compareRows lc "number" k dir (<[k := VNum (Fin 0)]> a) b /\
     compareRows lc "number" k dir b a
       = compareRows lc "number" k dir b (<[k := VNum (Fin 0)]> a)) /\
  (missing (get a k) ->
     compareRows lc "date" k dir a b
       = compareRows lc "date" k dir (<[k := VStr "1970-01-01"]> a) b /\
     compareRows lc "date" k dir b a
       = compareRows lc "date" k dir b (<[k := VStr "1970-01-01"]> a)) /\
  (forall a' b' sa sb sa' sb',
     get a k = VStr sa -> get b k = VStr sb ->
     get a' k = VStr sa' -> get b' k = VStr sb' ->
     toLowerCase sa = toLowerCase sa' -> toLowerCase sb = toLowerCase sb' ->
     compareRows lc "string" k dir a b = compareRows lc "string" k dir a' b') /\
  (truthy (get a k) = true -> Date.create (get a k) = NaN ->
     compareRows lc "date" k dir a b = NaN /\
     compareRows lc "date" k dir b a = NaN /\
     arraySort (compareRows lc "date" k dir) [a; b] = [a; b] /\
     arraySort (compareRows lc "date" k dir) [b; a] = [b; a]).
Proof.
  split; [|split; [|split]].
  - intros Hm. unfold compareRows. cbn [String.eqb Ascii.eqb Bool.eqb].
    rewrite get_insert, (numberOf_missing _ Hm). by destruct dir.
  - intros Hm. unfold compareRows. cbn [String.eqb Ascii.eqb Bool.eqb].
    rewrite get_insert, (dateOf_missing _ Hm). by destruct dir.
  - intros a' b' sa sb sa' sb' Ha Hb Ha' Hb' Ea Eb.
    unfold compareRows. cbn [String.eqb Ascii.eqb Bool.eqb].
    rewrite Ha, Hb, Ha', Hb'. unfold stringOf, jsOr.
    assert (forall s, toLowerCase (toString (if truthy (VStr s) then VStr s else VStr ""))
                      = toLowerCase s) as Hs.
    { intros s. simpl. by destruct s. }
    by rewrite !Hs, Ea, Eb.
  - intros Ht Hn.
    assert (compareRows lc "date" k dir a b = NaN
            /\ compareRows lc "date" k dir b a = NaN) as [Hab Hba].
    { unfold compareRows. cbn [String.eqb Ascii.eqb Bool.eqb].
      assert (dateOf (get a k) = NaN) as -> by (unfold dateOf; by rewrite Ht).
      split; destruct dir; cbn [numSub]; try done;
        by destruct (dateOf (get b k)). }
    split; [done|]. split; [done|].
    unfold arraySort, stableSort. cbn [foldr insertBy].
    by rewrite Hab, Hba.
Qed.

Lemma C5_sort_coercions_witness :
  compareRows localeCompare "number" "value" desc ∅ {[ "value" := VNum (Fin 7) ]}
  = Fin 7.
Proof.
  destruct (C5_sort_coercions localeCompare "value" desc ∅
              {[ "value" := VNum (Fin 7) ]}) as [H _].
  destruct (H ltac:(by left)) as [-> _]. reflexivity.
Defined.

(** C5, as stated, fails on a date that does not parse: it does not
    compare as the epoch but yields [NaN], which the sort takes for a
    tie, so that the row stays behind a later date where the epoch would
    come first. *)
Lemma C5_counterexample :
  compareRows localeCompare "date" "date" asc garbageRow laterRow = NaN /\
  compareRows localeCompare "date" "date" asc epochRow laterRow
    = Fin (-1704067200000) /\
  sortedData localeCompare [laterRow; garbageRow] [dateColumn] byDate
    = [laterRow; garbageRow] /\
  sortedData localeCompare [laterRow; epochRow] [dateColumn] byDate
    = [epochRow; laterRow].
Proof. repeat split. Qed.

(** What the exports do.  With no rows both alert "No data to export" and
    save nothing.  Otherwise the JSON export saves one object per row of
    the sorted view (the array handed to [JSON.stringify]), which holds
    under each column header the raw cell of the (last) column with that
    header, whatever the renderers are; and the CSV export either fails
    with an alert, when the conversion of a cell throws, or saves the
    header line followed by one line per row of the sorted view, the
    fields of a line being the texts of the column values joined by
    commas.  In that text a string with a comma is put in double quotes
    and [null] and [undefined] are empty; a column without renderer, or
    typed neither number nor date, exports the raw cell, and a missing
    cell is an empty field unless the column is a number column with a
    renderer. *)
Lemma exports_of_sorted_view (lc : string -> string -> number) (props : Props)
    (cfg : SortConfig) (now : Z) :
  let sorted := sortedData lc (data props) (columns props) cfg in
  (data props = [] ->
     exportToCSV lc props cfg now = Alert "No data to export" /\
     exportToJSON lc props cfg now = Alert "No data to export") /\
  (data props <> [] ->
     exportToJSON lc props cfg now
       = SaveAs (fileNameOf (tableName props) now ".json")
                (map (exportRow (columns props)) sorted) /\
     ((exists e, mapM (csvRow (columns props)) sorted = Threw e /\
                 exportToCSV lc props cfg now = Alert failedToExport)
      \/ exists lines,
           exportToCSV lc props cfg now
             = SaveAs (fileNameOf (tableName props) now ".csv")
                      (join "," (map header (columns props)) +:+ newline
                       +:+ join newline lines) /\
           Forall2 (fun row line =>
                      exists values,
                        line = join "," (map csvField values) /\
                        Forall2 (fun col v => csvValue col row = Done v)
                                (columns props) values)
                   sorted lines)) /\
  (forall row h,
     objGet (exportRow (columns props) row) h
     = (fun col => get row (key col))
         <$> last (filter (fun col => header col = h) (columns props))) /\
  (forall col row,
     rawColumn col = true -> csvValue col row = Done (get row (key col))) /\
  (forall col row v,
     missing (get row (key col)) -> renderedNumber col = false ->
     csvValue col row = Done v -> csvField v = EmptyString) /\
  (forall s, csvField (VStr s)
             = if includesChar "," s then quote +:+ s +:+ quote else s) /\
  csvField VNull = EmptyString /\ csvField VUndefined = EmptyString.
Proof.
  intros sorted. split; [|split; [|split; [|split; [|split; [|split]]]]].
  - intros Hd. unfold exportToCSV, exportToJSON. by rewrite Hd.
  - intros Hd. unfold exportToCSV, exportToJSON.
    assert ((length (data props) =? 0)%nat = false) as ->
      by (by destruct (data props)).
    split; [done|]. fold sorted.
    destruct (mapM (csvRow (columns props)) sorted) as [lines|e] eqn:Hm.
    + right. exists lines. split; [done|].
      apply mapM_inv in Hm. eapply Forall2_impl; [exact Hm|].
      intros row line Hrow. unfold csvRow in Hrow.
      destruct (mapM (fun col => csvValue col row) (columns props))
        as [values|e] eqn:Hv; [|discriminate].
      simpl in Hrow. injection Hrow as <-.
      exists values. split; [done|]. by apply mapM_inv.
    + left. by exists e.
  - intros row h. apply exportRow_get.
  - apply csvValue_raw.
  - apply csvValue_missing.
  - done.
  - done.
Qed.

(** C7: a number column with a renderer exports a [null] cell as the field
    [0], where the claim expects an empty field: [Number(row[col.key])] is
    taken before the test for [null] and turns [null] into [0].  The same
    cell is an empty field in the column without the renderer and in a
    date column with a renderer, whose branch asks for the cell first. *)
Theorem C7_null_exported_as_zero :
  get nullAmountRow "value" = VNull /\
  exportToCSV localeCompare (tableOf [nullAmountRow] [amountColumn] false)
              unsorted 0
  = SaveAs "Largest_Inflows_1970-01-01.csv" ("Amount" +:+ newline +:+ "0") /\
  exportToCSV localeCompare (tableOf [nullAmountRow] [plainAmountColumn] false)
              unsorted 0
  = SaveAs "Largest_Inflows_1970-01-01.csv" ("Amount" +:+ newline) /\
  exportToCSV localeCompare (tableOf [nullAmountRow] [valueDateColumn] false)
              unsorted 0
  = SaveAs "Largest_Inflows_1970-01-01.csv" ("Date" +:+ newline).
Proof. repeat split. Qed.

(** C10: whatever headers are clicked and exports run, the array the
    caller gave, with the rows in it, is in the store as it was. *)
Theorem C10_data_left_unchanged (lc : string -> string -> number)
    (props : Props) (dataRef : nat) (h : store) (events : list event)
    (rows : list Row) :
  h !! dataRef = Some rows ->
  heap (run lc props dataRef h events) !! dataRef = Some rows.
Proof.
  intros Hd. unfold run.
  assert (heap (mount lc props dataRef h) !! dataRef = Some rows) as Hm.
  { unfold mount, rerender.
    pose proof (sortedDataRef_frame lc h dataRef (columns props)
                  (initialSortConfig props) rows Hd) as H.
    by destruct (sortedDataRef lc h dataRef (columns props) (initialSortConfig props)). }
  revert Hm. generalize (mount lc props dataRef h).
  induction events as [|e events IH]; intros i Hi; [done|].
  cbn [foldl]. apply IH. by apply handle_frame.
Qed.

Lemma C10_data_left_unchanged_witness :
  heap (run localeCompare (tableOf [laterRow; epochRow] [dateColumn] false) 0%nat
            {[ 0%nat := [laterRow; epochRow] ]}
            [HeaderClick "date"; ExportCSVClick; HeaderClick "date"; ExportJSONClick])
    !! 0%nat
  = Some [laterRow; epochRow].
Proof.
  apply C10_data_left_unchanged. reflexivity.
Defined.

End TableProperties.

(* ================================================================== *)
(** * Further facts about sorting *)
(* ================================================================== *)

Module OrderFacts.
Import JS SortFacts.

Section Stable.
Context {A : Type} (after : A -> A -> bool) (key : A -> Z).

Lemma insertBy_filter_key x l v :
  (forall y, y ∈ l -> after x y = true -> key x <> key y) ->
  filter (fun a => key a = v) (insertBy after x l)
  = filter (fun a => key a = v) (x :: l).
Proof.
  induction l as [|y l IH]; intros H; [done|].
  cbn [insertBy]. destruct (after x y) eqn:E; [|done].
  assert (key x <> key y) as Hxy by (apply H; [left|done]).
  rewrite filter_cons, IH by (intros z Hz; apply H; by right).
  rewrite !filter_cons.
  destruct (decide (key y = v)), (decide (key x = v)); congruence.
Qed.

(** A sort that moves an element only behind elements of another key
    keeps the order of the elements of each key. *)
Lemma stableSort_filter_key l v :
  (forall x y, x ∈ l -> y ∈ l -> after x y = true -> key x <> key y) ->
  filter (fun a => key a = v) (stableSort after l)
  = filter (fun a => key a = v) l.
Proof.
  induction l as [|x l IH]; intros H; [done|].
  change (stableSort after (x :: l)) with (insertBy after x (stableSort after l)).
  rewrite insertBy_filter_key.
  - rewrite !filter_cons, IH; [done|].
    intros a b Ha Hb. apply H; by right.
  - intros y Hy. rewrite stableSort_elem_of in Hy. apply H; [left|by right].
Qed.

End Stable.

(** In a sorted list every element of a prefix is below every element of
    the rest. *)
Lemma Sorted_app_le {A} (key : A -> Z) l1 l2 :
  Sorted (fun a b => key a <= key b) (l1 ++ l2) ->
  forall x y, x ∈ l1 -> y ∈ l2 -> key x <= key y.
Proof.
  intros HS. apply Sorted_StronglySorted in HS; [|intros a b c; lia].
  induction l1 as [|z l1 IH]; intros x y Hx Hy; [by apply elem_of_nil in Hx|].
  cbn [app] in HS. apply StronglySorted_inv in HS as [HS Hall].
  apply elem_of_cons in Hx as [->|Hx]; [|by apply IH].
  rewrite Forall_forall in Hall. apply Hall. apply elem_of_app. by right.
Qed.

Lemma Sorted_weaken {A} (R1 R2 : A -> A -> Prop) l :
  (forall a b, R1 a b -> R2 a b) -> Sorted R1 l -> Sorted R2 l.
Proof.
  intros H. induction 1 as [|x l HS IH Hd]; constructor; [done|].
  destruct Hd; constructor. by apply H.
Qed.

Lemma orderByDesc_Sorted {A} (key : A -> Z) l :
  Sorted (fun a b => key b <= key a) (orderByDesc key l).
Proof.
  unfold orderByDesc.
  apply (Sorted_weaken (fun a b => - key a <= - key b)); [intros a b; lia|].
  apply stableSort_Sorted.
  intros x y _ _. apply eq_true_iff_eq. rewrite !Z.ltb_lt. lia.
Qed.

Lemma mapM_Threw {A B} (f : A -> outcome B) l :
  (exists e, mapM f l = Threw e) <-> exists x, x ∈ l /\ exists e, f x = Threw e.
Proof.
  induction l as [|x l IH]; simpl.
  - split; [intros [e He]; discriminate|].
    intros (x & Hx & _). by apply elem_of_nil in Hx.
  - destruct (f x) as [y|e] eqn:E; simpl.
    + destruct (mapM f l) as [ys|e'] eqn:E'; simpl.
      * split; [intros [e He]; discriminate|].
        intros (z & Hz & e & He). apply elem_of_cons in Hz as [->|Hz].
        -- rewrite E in He. discriminate.
        -- destruct IH as [_ IH]. destruct IH as [e0 He0]; [|discriminate].
           exists z. split; [done|]. by exists e.
      * split; [|intros _; by exists e'].
        intros _. destruct IH as [IH _].
        destruct IH as (z & Hz & He); [by exists e'|].
        exists z. split; [by right|done].
    + split; [|intros _; by exists e].
      intros _. exists x. split; [left|]. by exists e.
Qed.

End OrderFacts.

(* ================================================================== *)
(** * Further facts about the analysis *)
(* ================================================================== *)

Module AnalysisFacts.
Import JS Date Calendar DateFacts Dashboard DashboardSpec DashboardFacts
  SortFacts OrderFacts AnalysisViewSpec.

#[local] Arguments sumBy : simpl never.

(** ** The result of a run that succeeds *)

Lemma analyze_Done_inv txs r :
  analyze txs = Done r ->
  exists stats all start end_,
    computeMonthlyStats txs = Done stats /\
    allDailyBalancesOf utc (dailyBalancesOf (sortedTransactions txs)) = Done all /\
    toISOStringOf (minDate txs) = Done start /\
    toISOStringOf (maxDate txs) = Done end_ /\
    r = {| basicStats :=
             {| dateRangeStart := slice0 10 start;
                dateRangeEnd := slice0 10 end_;
                totalTransactions := length txs;
                totalVolume := sumBy (fun t => Z.abs (amount t)) txs;
                inflows := sumBy positivePart txs;
                outflows := sumBy negativePart txs;
                netFlow := sumBy positivePart txs + sumBy negativePart txs |};
           monthlyStats := stats;
           partnerVolumes := take 10 (computePartnerVolumes txs);
           dailyBalances :=
             formattedDailyDataOf (dailyBalancesOf (sortedTransactions txs)) all;
           weeklyBalances := avgBalancesOf (bucketsOf all).1;
           monthlyBalances := avgBalancesOf (bucketsOf all).2;
           yearlyBalance := yearlyBalanceOf all;
           allTransactions := consolidatedSortedTransactions txs |}.
Proof.
  unfold analyze. intros H.
  destruct (computeMonthlyStats txs) as [stats|e]; [|discriminate H].
  cbn [bind] in H.
  destruct (allDailyBalancesOf utc (dailyBalancesOf (sortedTransactions txs)))
    as [all|e]; [|discriminate H].
  cbn [bind] in H. destruct (bucketsOf all) as [w mo] eqn:Eb.
  destruct (toISOStringOf (minDate txs)) as [start|e]; [|discriminate H].
  cbn [bind] in H.
  destruct (toISOStringOf (maxDate txs)) as [end_|e]; [|discriminate H].
  cbn [bind] in H. injection H as <-.
  exists stats, all, start, end_. by rewrite Eb.
Qed.

(** ** The loop that fills the days *)

Lemma fillDays_stop zone fuel m endDate currentDate lastBalance acc :
  dateLe currentDate endDate = false ->
  fillDays zone fuel m endDate currentDate lastBalance acc = Done acc.
Proof. intros H. destruct fuel; simpl; by rewrite H. Qed.

(** Whatever the recorded dates are, the loop ends within the iterations
    it is given; it yields a run of consecutive days, which is empty when
    the first or the last key is no date or when they are in the wrong
    order. *)
Lemma allDailyBalancesOf_shape (m : gmap string Z) :
  exists a k,
    firstDay <= a /\ a + Z.of_nat k - 1 <= lastDay /\
    allDailyBalancesOf utc m = Done (carryForward m 0 (daysFrom a k)).
Proof.
  assert (firstDay <= lastDay) as Hfl by (rewrite firstDay_eq, lastDay_eq; lia).
  unfold allDailyBalancesOf.
  set (startDate := newDateAt (head (allDatesOf m))).
  set (endDate := newDateAt (last (allDatesOf m))).
  assert (forall x, newDateAt x = NaN \/
            exists n, newDateAt x = Fin (n * msPerDay) /\ firstDay <= n <= lastDay)
    as Hnew.
  { intros [s|]; unfold newDateAt; cbn [from_option Date.create]; [|by left].
    destruct (parse s) as [|t] eqn:Hp; [by left|].
    right. destruct (parse_range s t Hp) as (n & -> & Hn). eauto. }
  destruct (Hnew (head (allDatesOf m))) as [Hs|(a & Hs & Ha)]; fold startDate in Hs.
  { exists firstDay, O. split; [lia|]. split; [lia|].
    rewrite Hs. by apply fillDays_stop. }
  destruct (Hnew (last (allDatesOf m))) as [He|(b & He & Hb)]; fold endDate in He.
  { exists firstDay, O. split; [lia|]. split; [lia|].
    rewrite He, Hs. by apply fillDays_stop. }
  rewrite Hs, He.
  destruct (Z.le_gt_cases a b) as [Hab|Hab].
  - exists a, (Z.to_nat (b - a + 1)). split; [lia|]. split; [lia|].
    apply fillDays_days; lia.
  - exists firstDay, O. split; [lia|]. split; [lia|].
    apply fillDays_stop. cbn [dateLe]. apply Z.leb_gt. unfold msPerDay. lia.
Qed.

(** The daily series of any run that succeeds. *)
Lemma analyze_series txs r :
  analyze txs = Done r ->
  exists a k,
    firstDay <= a /\ a + Z.of_nat k - 1 <= lastDay /\
    dailyBalances r
    = map (dailyEntry (dailyBalancesOf (sortedTransactions txs)))
          (carryForward (dailyBalancesOf (sortedTransactions txs)) 0
                        (daysFrom a k)).
Proof.
  intros Hr. destruct (analyze_inv txs r Hr) as (all & Hall & Hd & _).
  destruct (allDailyBalancesOf_shape (dailyBalancesOf (sortedTransactions txs)))
    as (a & k & Ha & Hk & Hshape).
  rewrite Hall in Hshape. injection Hshape as ->.
  exists a, k. split; [done|]. split; [done|].
  rewrite Hd. by apply formattedDailyDataOf_days.
Qed.

(** ** Exceptions *)

Lemma mapM_Threw_inv {A B} (f : A -> outcome B) l e :
  mapM f l = Threw e -> exists x, x ∈ l /\ f x = Threw e.
Proof.
  induction l as [|x l IH]; simpl; [discriminate|].
  destruct (f x) as [y|e'] eqn:E; simpl.
  - destruct (mapM f l) as [ys|e'']; simpl; [discriminate|].
    intros [= <-]. destruct IH as (z & Hz & He); [done|].
    exists z. split; [by right|done].
  - intros [= <-]. exists x. split; [left|done].
Qed.

Lemma monthKey_Done t :
  time t <> NaN -> monthKey t = Done (slice0 7 (isoOfTime (timeZ t))).
Proof.
  unfold monthKey, timeZ. by destruct (time t).
Qed.

Lemma monthKey_Threw t e :
  monthKey t = Threw e -> time t = NaN /\ e = RangeError "Invalid time value".
Proof.
  unfold monthKey. destruct (time t); simpl; [by intros [= <-]|discriminate].
Qed.

Lemma groupBy_map_key {A} (key : A -> string) l :
  map (fun g : string * list (string * A) => (g.1, map snd g.2))
      (groupBy fst (map (fun x => (key x, x)) l))
  = groupBy key l.
Proof.
  induction l as [|x l IH] using rev_ind; [done|].
  rewrite map_app. cbn [map]. rewrite !groupBy_snoc. cbn [fst].
  rewrite <- IH.
  set (g := groupBy fst (map (fun x => (key x, x)) l)).
  assert (forall (o : list (string * list (string * A))) k v,
            map (fun g : string * list (string * A) => (g.1, map snd g.2))
                (objSet k v o)
            = objSet k (map snd v)
                (map (fun g : string * list (string * A) => (g.1, map snd g.2)) o))
    as Hset.
  { induction o as [|[k' v'] o IHo]; intros k v; simpl; [done|].
    destruct (String.eqb k k'); simpl; [done|]. by rewrite IHo. }
  assert (forall (o : list (string * list (string * A))) k,
            objGet (map (fun g : string * list (string * A) => (g.1, map snd g.2)) o) k
            = map snd <$> objGet o k) as Hget.
  { induction o as [|[k' v'] o IHo]; intros k; simpl; [done|].
    destruct (String.eqb k k'); simpl; [done|]. apply IHo. }
  rewrite Hset, Hget, map_app. cbn [map snd].
  by destruct (objGet g (key x)).
Qed.

Lemma computeMonthlyStats_all_times txs :
  (forall t, t ∈ txs -> time t <> NaN) ->
  computeMonthlyStats txs
  = Done (arraySort (fun a b => localeCompare (month a) (month b))
            (map monthlyStatOf (groupBy monthOf txs))).
Proof.
  intros H. unfold computeMonthlyStats, groupByM.
  rewrite (mapM_Done _ (fun t => (monthOf t, t))).
  - cbn [bind]. by rewrite groupBy_map_key.
  - intros t Ht. by rewrite (monthKey_Done t (H t Ht)).
Qed.

Lemma computeMonthlyStats_Threw txs e :
  computeMonthlyStats txs = Threw e ->
  (exists t, t ∈ txs /\ time t = NaN) /\ e = RangeError "Invalid time value".
Proof.
  unfold computeMonthlyStats, groupByM. intros H.
  destruct (mapM _ txs) as [keyed|e'] eqn:E; [discriminate H|].
  cbn [bind] in H. injection H as <-.
  apply mapM_Threw_inv in E as (t & Ht & He).
  destruct (monthKey t) as [k|e''] eqn:Ek; [discriminate He|].
  cbn [bind] in He. injection He as <-.
  apply monthKey_Threw in Ek as [Hn ->]. eauto.
Qed.

Lemma computeMonthlyStats_Done_inv txs stats :
  computeMonthlyStats txs = Done stats -> forall t, t ∈ txs -> time t <> NaN.
Proof.
  unfold computeMonthlyStats, groupByM. intros H t Ht Hn.
  destruct (mapM _ txs) as [keyed|e'] eqn:E; [|discriminate H].
  apply TableFacts.mapM_inv in E.
  apply list_elem_of_lookup in Ht as [i Hi].
  destruct (Forall2_lookup_l _ _ _ _ _ E Hi) as (y & _ & Hy).
  unfold monthKey in Hy. rewrite Hn in Hy. discriminate Hy.
Qed.

Lemma dates_all_times txs :
  (forall t, t ∈ txs -> time t <> NaN) ->
  forall d, d ∈ dates txs -> d <> NaN.
Proof.
  intros H d Hd. unfold dates, arraySort in Hd.
  rewrite stableSort_elem_of in Hd.
  apply list_elem_of_In, in_map_iff in Hd as (t & <- & Ht).
  apply H. by apply list_elem_of_In.
Qed.

Lemma dates_length txs : length (dates txs) = length txs.
Proof.
  unfold dates, arraySort. by rewrite stableSort_length, length_map.
Qed.

Lemma toISOStringOf_dates txs :
  txs <> [] -> (forall t, t ∈ txs -> time t <> NaN) ->
  (exists s, toISOStringOf (minDate txs) = Done s) /\
  (exists s, toISOStringOf (maxDate txs) = Done s).
Proof.
  intros Hne H. pose proof (dates_all_times txs H) as Hd.
  pose proof (dates_length txs) as Hl.
  unfold minDate, maxDate.
  destruct (dates txs) as [|d l] eqn:E.
  { destruct txs; [done|discriminate Hl]. }
  split.
  - cbn [head toISOStringOf]. assert (d <> NaN) by (apply Hd; left).
    destruct d; [done|]. by eexists.
  - destruct (last (d :: l)) as [x|] eqn:El; [|by apply last_None in El].
    assert (x <> NaN).
    { apply Hd. apply last_Some in El as [l' ->]. apply elem_of_app. right. left. }
    cbn [toISOStringOf]. destruct x; [done|]. by eexists.
Qed.

End AnalysisFacts.

Module GroupFacts.
Import JS Date Calendar DateFacts Dashboard DashboardSpec DashboardFacts
  SortFacts OrderFacts AnalysisViewSpec AnalysisFacts.

#[local] Arguments sumBy : simpl never.





Lemma sumBy_positivePart_nonneg l : 0 <= sumBy positivePart l.
Proof.
  induction l as [|x l IH]; [by rewrite sumBy_nil|].
  rewrite sumBy_cons. unfold positivePart at 1.
  destruct (Z.ltb_spec 0 (amount x)); lia.
Qed.


(** ** Groups share out the list *)



Lemma groupBy_keys {A} (key : A -> string) l x :
  x ∈ l -> exists g, (key x, g) ∈ groupBy key l.
Proof.
  intros Hx. exists (filter (fun y => key y = key x) l).
  apply groupBy_elem. split; [done|].
  intros E. assert (x ∈ filter (fun y => key y = key x) l) as H
    by (by apply list_elem_of_filter).
  rewrite E in H. by apply elem_of_nil in H.
Qed.

(** ** Order of the keys *)

Section Asymmetric.
Context {A : Type} (after : A -> A -> bool).
Hypothesis asym : forall x y, after x y = true -> after y x = false.

Lemma insertBy_Sorted_asym x l :
  Sorted (fun a b => after a b = false) l ->
  Sorted (fun a b => after a b = false) (insertBy after x l).
Proof.
  induction 1 as [|y l HS IH Hd]; cbn [insertBy]; [by repeat constructor|].
  destruct (after x y) eqn:E.
  - constructor; [done|].
    destruct l as [|z l]; cbn [insertBy].
    + constructor. by apply asym.
    + destruct (after x z); constructor; [by inversion Hd|by apply asym].
  - constructor; [by constructor|]. by constructor.
Qed.

Lemma stableSort_Sorted_asym l :
  Sorted (fun a b => after a b = false) (stableSort after l).
Proof.
  induction l as [|x l IH]; [constructor|].
  by apply insertBy_Sorted_asym.
Qed.

End Asymmetric.

Lemma Sorted_NoDup_strict {A} (R : A -> A -> Prop) (key : A -> string) l :
  Sorted R l -> NoDup (map key l) ->
  Sorted (fun a b => R a b /\ key a <> key b) l.
Proof.
  induction 1 as [|x l HS IH Hd]; intros Hnd; [constructor|].
  cbn [map] in Hnd. apply NoDup_cons in Hnd as [Hx Hnd].
  constructor; [by apply IH|].
  destruct Hd as [|y l Hxy]; constructor. split; [done|].
  intros E. apply Hx. rewrite E. left.
Qed.

Lemma strLt_of_compare a b :
  isPositive (localeCompare a b) = false -> a <> b -> strLt a b = true.
Proof.
  unfold localeCompare, strLt, String.ltb.
  destruct (String.compare a b) eqn:E; [|done|discriminate].
  intros _ Hne. by apply String.compare_eq_iff in E.
Qed.

Lemma localeCompare_asym a b :
  isPositive (localeCompare a b) = true -> isPositive (localeCompare b a) = false.
Proof.
  unfold localeCompare. rewrite (String.compare_antisym a b).
  by destruct (String.compare b a).
Qed.

(** An array of entries with distinct keys, sorted with [localeCompare] on
    the key, is in strictly ascending order of the keys. *)
Lemma arraySort_keys_strict {A} (key : A -> string) l :
  NoDup (map key l) ->
  Sorted (fun a b => strLt (key a) (key b) = true)
         (arraySort (fun a b => localeCompare (key a) (key b)) l).
Proof.
  intros Hnd. unfold arraySort.
  set (after := fun a b => isPositive (localeCompare (key a) (key b))).
  pose proof (stableSort_Sorted_asym after
                (fun x y => localeCompare_asym (key x) (key y)) l) as HS.
  apply (Sorted_NoDup_strict _ key) in HS.
  - eapply Sorted_weaken; [|exact HS].
    intros a b [H1 H2]. by apply strLt_of_compare.
  - assert (map key (stableSort after l) ≡ₚ map key l) as HP
      by apply Permutation_map, stableSort_Permutation.
    by rewrite HP.
Qed.

(** ** The monthly statistics *)

Lemma monthlyStats_inv txs r :
  analyze txs = Done r ->
  (forall t, t ∈ txs -> time t <> NaN) /\
  monthlyStats r
  = arraySort (fun a b => localeCompare (month a) (month b))
      (map monthlyStatOf (groupBy monthOf txs)) /\
  basicStats r
  = {| dateRangeStart := dateRangeStart (basicStats r);
       dateRangeEnd := dateRangeEnd (basicStats r);
       totalTransactions := length txs;
       totalVolume := sumBy (fun t => Z.abs (amount t)) txs;
       inflows := sumBy positivePart txs;
       outflows := sumBy negativePart txs;
       netFlow := sumBy positivePart txs + sumBy negativePart txs |}.
Proof.
  intros Hr.
  destruct (analyze_Done_inv txs r Hr)
    as (stats & all & start & end_ & Hs & _ & _ & _ & ->).
  pose proof (computeMonthlyStats_Done_inv txs stats Hs) as Hall.
  split; [done|]. cbn [monthlyStats basicStats].
  rewrite (computeMonthlyStats_all_times txs Hall) in Hs.
  injection Hs as <-. done.
Qed.

Lemma monthlyStatOf_month e : month (monthlyStatOf e) = e.1.
Proof. by destruct e. Qed.

End GroupFacts.

Module RankingFacts.
Import JS Date Calendar DateFacts Dashboard DashboardView DashboardSpec
  DashboardFacts SortFacts OrderFacts AnalysisViewSpec AnalysisFacts GroupFacts
  RankingSpec.

#[local] Arguments sumBy : simpl never.

Lemma time_timeZ t : time t <> NaN -> time t = Fin (timeZ t).
Proof. unfold timeZ. by destruct (time t). Qed.

Lemma sortBy_time_after (txs : list Transaction) x y :
  (forall t, t ∈ txs -> time t <> NaN) -> x ∈ txs -> y ∈ txs ->
  (0 <? compareAscending (time x) (time y)) = (timeZ y <? timeZ x).
Proof.
  intros H Hx Hy. rewrite (time_timeZ x), (time_timeZ y) by auto.
  cbn [compareAscending].
  destruct (Z.ltb_spec (timeZ y) (timeZ x)); [done|].
  by destruct (Z.ltb_spec (timeZ x) (timeZ y)).
Qed.

Lemma sortedTransactions_Sorted_times txs :
  (forall t, t ∈ txs -> time t <> NaN) ->
  Sorted (fun a b => timeZ a <= timeZ b) (sortedTransactions txs).
Proof.
  intros H. apply stableSort_Sorted. intros x y Hx Hy.
  by apply (sortBy_time_after txs).
Qed.

Lemma sortedTransactions_stable txs z :
  (forall t, t ∈ txs -> time t <> NaN) ->
  filter (fun t => timeZ t = z) (sortedTransactions txs)
  = filter (fun t => timeZ t = z) txs.
Proof.
  intros H. apply stableSort_filter_key. intros x y Hx Hy.
  rewrite (sortBy_time_after txs) by done. rewrite Z.ltb_lt. lia.
Qed.

Lemma timeZ_consolidate t : timeZ (consolidate t) = timeZ t.
Proof. unfold consolidate, timeZ, time. by destruct (isOwnName _). Qed.


Lemma isOwnName_label : isOwnName (VStr "My Transfers") = false.
Proof. reflexivity. Qed.

Lemma consolidate_idemp t : consolidate (consolidate t) = consolidate t.
Proof.
  destruct (isOwnName (partnerName t)) eqn:E.
  - assert (consolidate t
            = {| bookingDate := bookingDate t; partnerName := VStr "My Transfers";
                 amount := amount t |}) as ->
      by (unfold consolidate; by rewrite E).
    unfold consolidate. cbn [partnerName]. by rewrite isOwnName_label.
  - assert (consolidate t = t) as -> by (unfold consolidate; by rewrite E).
    unfold consolidate. by rewrite E.
Qed.

Lemma Sorted_map {A B} (f : A -> B) (R : B -> B -> Prop) l :
  Sorted (fun a b => R (f a) (f b)) l -> Sorted R (map f l).
Proof.
  induction 1 as [|x l HS IH Hd]; cbn [map]; constructor; [done|].
  destruct Hd; cbn [map]; by constructor.
Qed.



Lemma take_drop_Sorted_ge {A} (key : A -> Z) n l :
  Sorted (fun a b => key b <= key a) l ->
  forall x y, x ∈ take n l -> y ∈ drop n l -> key y <= key x.
Proof.
  intros HS x y Hx Hy.
  pose proof (Sorted_app_le (fun a => - key a) (take n l) (drop n l)) as H.
  rewrite take_drop in H.
  assert (- key x <= - key y); [|lia].
  apply H; [|done|done].
  eapply Sorted_weaken; [|exact HS]. intros a b. cbn beta. lia.
Qed.

Lemma orderByAsc_Sorted {A} (key : A -> Z) l :
  Sorted (fun a b => key a <= key b) (orderByAsc key l).
Proof.
  unfold orderByAsc. by apply stableSort_Sorted.
Qed.

Lemma Sorted_take {A} (R : A -> A -> Prop) n l : Sorted R l -> Sorted R (take n l).
Proof.
  intros HS. revert n. induction HS as [|x l HS IH Hd]; intros [|n];
    cbn [take]; try constructor; [by apply IH|].
  destruct Hd; destruct n; cbn [take]; by constructor.
Qed.

End RankingFacts.

Module BalanceFacts.
Import JS Date Calendar DateFacts Dashboard DashboardView DashboardSpec
  DashboardFacts SortFacts OrderFacts AnalysisViewSpec AnalysisFacts GroupFacts
  RankingFacts BalanceSpec.

#[local] Arguments sumBy : simpl never.

Lemma filter_all {A} (P : A -> Prop) `{!forall x, Decision (P x)} l :
  Forall P l -> filter P l = l.
Proof.
  induction 1 as [|x l Hx Hl IH]; [done|].
  by rewrite filter_cons, decide_True, IH.
Qed.

Lemma filter_none {A} (P : A -> Prop) `{!forall x, Decision (P x)} l :
  Forall (fun x => ~ P x) l -> filter P l = [].
Proof.
  induction 1 as [|x l Hx Hl IH]; [done|].
  by rewrite filter_cons, decide_False, IH.
Qed.

Lemma filter_ext_elem {A} (P Q : A -> Prop) `{!forall x, Decision (P x)}
    `{!forall x, Decision (Q x)} (l : list A) :
  (forall x, x ∈ l -> P x <-> Q x) -> filter P l = filter Q l.
Proof.
  induction l as [|x l IH]; intros Hl; [done|].
  rewrite !filter_cons, IH by (intros y Hy; apply Hl; by right).
  assert (P x <-> Q x) as Hx by (apply Hl; left).
  destruct (decide (P x)) as [HP|HP], (decide (Q x)) as [HQ|HQ]; tauto.
Qed.

Lemma dailyBalancesOf_snoc l t :
  dailyBalancesOf (l ++ [t])
  = <[keyOf t := sumBy amount (l ++ [t])]> (dailyBalancesOf l).
Proof.
  unfold dailyBalancesOf. rewrite foldl_app. cbn [foldl balanceStep snd].
  f_equal. rewrite balanceStep_fst, sumBy_app, sumBy_cons, sumBy_nil.
  cbn [fst]. lia.
Qed.

(** The balance recorded for a date is the running balance after the
    last row of that date. *)
Lemma dailyBalancesOf_Some l k v :
  dailyBalancesOf l !! k = Some v ->
  exists l1 t l2,
    l = l1 ++ t :: l2 /\ keyOf t = k /\
    Forall (fun u => keyOf u <> k) l2 /\ v = sumBy amount (l1 ++ [t]).
Proof.
  induction l as [|t l IH] using rev_ind; [done|].
  rewrite dailyBalancesOf_snoc.
  destruct (decide (keyOf t = k)) as [<-|Hne].
  - rewrite lookup_insert_eq. intros [= <-].
    exists l, t, []. by repeat split.
  - rewrite lookup_insert_ne by done. intros H.
    destruct (IH H) as (l1 & t' & l2 & -> & Hk & Hl2 & ->).
    exists l1, t', (l2 ++ [t]). rewrite <- app_assoc. repeat split; try done.
    apply Forall_app. split; [done|]. by repeat constructor.
Qed.

Lemma keyOf_day t n :
  isDateText (bookingDate t) = true -> firstDay <= n <= lastDay ->
  keyOf t = isoDay n <-> timeZ t = n * msPerDay.
Proof.
  intros Hv Hn. destruct (valid_time t Hv) as (Hp & _ & _). split.
  - intros E. rewrite E, (parse_isoDay n Hn) in Hp. by injection Hp.
  - intros E. rewrite E in Hp. apply parse_isoOfTime in Hp.
    unfold isoDay. symmetry. exact Hp.
Qed.

Lemma timeZ_day t :
  isDateText (bookingDate t) = true ->
  exists n, timeZ t = n * msPerDay /\ firstDay <= n <= lastDay.
Proof.
  intros Hv. destruct (valid_time t Hv) as (Hp & _ & _).
  by apply parse_range in Hp.
Qed.

(** In a list in the order of the dates, the balance recorded for a day is
    the sum of the amounts booked up to that day. *)
Lemma recorded_bookedUpTo l n v :
  validDates l = true -> Sorted (fun a b => timeZ a <= timeZ b) l ->
  firstDay <= n <= lastDay ->
  dailyBalancesOf l !! isoDay n = Some v -> v = bookedUpTo l (n * msPerDay).
Proof.
  intros Hv HS Hn Hm.
  destruct (dailyBalancesOf_Some l _ v Hm) as (l1 & t & l2 & -> & Hk & Hl2 & ->).
  assert (forall u, u ∈ l1 ++ t :: l2 -> isDateText (bookingDate u) = true) as Hval
    by (intros u; by apply validDates_elem).
  assert (timeZ t = n * msPerDay) as Ht.
  { apply keyOf_day; [|done..]. apply Hval, elem_of_app. right. left. }
  unfold bookedUpTo. rewrite filter_app, filter_cons, decide_True by lia.
  rewrite filter_all, filter_none; [done| |].
  - apply Forall_forall. intros u Hu.
    assert (timeZ t <= timeZ u) as Hle.
    { apply (Sorted_app_le timeZ (l1 ++ [t]) l2).
      - by rewrite <- app_assoc.
      - apply elem_of_app. right. left.
      - done. }
    rewrite Forall_forall in Hl2. specialize (Hl2 u Hu).
    assert (timeZ u <> n * msPerDay); [|lia].
    intros E. apply Hl2. apply keyOf_day; [|done..].
    apply Hval, elem_of_app. right. by right.
  - apply Forall_forall. intros u Hu. rewrite <- Ht.
    apply (Sorted_app_le timeZ l1 (t :: l2)); [done|done|left].
Qed.

(** On a day without a row the sum is that of the day before. *)
Lemma unrecorded_bookedUpTo l n :
  validDates l = true -> firstDay <= n <= lastDay ->
  dailyBalancesOf l !! isoDay n = None ->
  bookedUpTo l (n * msPerDay) = bookedUpTo l ((n - 1) * msPerDay).
Proof.
  intros Hv Hn Hm. unfold bookedUpTo. f_equal.
  apply filter_ext_elem. intros t Ht.
  pose proof (validDates_elem _ _ Hv Ht) as Hvt.
  destruct (timeZ_day t Hvt) as (j & Hj & _).
  assert (timeZ t <> n * msPerDay) as Hne.
  { intros E. apply (keyOf_day t n Hvt Hn) in E.
    assert (is_Some (dailyBalancesOf l !! isoDay n)) as [? H]; [|congruence].
    apply dailyBalancesOf_lookup. by exists t. }
  rewrite Hj in *. unfold msPerDay in *. lia.
Qed.

Lemma carryForward_bookedUpTo l k :
  validDates l = true -> Sorted (fun a b => timeZ a <= timeZ b) l ->
  forall a lastBalance,
    firstDay <= a -> a + Z.of_nat k - 1 <= lastDay ->
    lastBalance = bookedUpTo l ((a - 1) * msPerDay) ->
    Forall (fun e : string * Z =>
              exists n, a <= n < a + Z.of_nat k /\ e.1 = isoDay n
                        /\ e.2 = bookedUpTo l (n * msPerDay))
           (carryForward (dailyBalancesOf l) lastBalance (daysFrom a k)).
Proof.
  intros Hv HS. induction k as [|k IH]; intros a lb Ha Hb Hlb; [constructor|].
  cbn [daysFrom carryForward].
  assert (default lb (dailyBalancesOf l !! isoDay a)
          = bookedUpTo l (a * msPerDay)) as Hhere.
  { destruct (dailyBalancesOf l !! isoDay a) as [v|] eqn:E; cbn [default].
    - apply (recorded_bookedUpTo l a v); [done|done|lia|done].
    - rewrite Hlb. symmetry. apply unrecorded_bookedUpTo; [done|lia|done]. }
  constructor.
  - exists a. cbn [fst snd]. split; [lia|]. by split.
  - eapply Forall_impl; [apply IH; [lia|lia|]|].
    + rewrite Hhere. f_equal. lia.
    + intros e (n & Hn & He). exists n. split; [lia|done].
Qed.

(** The whole of a run on rows with valid dates. *)
Lemma analyze_valid_full txs :
  txs <> [] -> validDates txs = true ->
  exists r t0 t1 a b,
    analyze txs = Done r /\
    head (sortedTransactions txs) = Some t0 /\
    last (sortedTransactions txs) = Some t1 /\
    timeZ t0 = a * msPerDay /\ timeZ t1 = b * msPerDay /\
    firstDay <= a /\ a <= b /\ b <= lastDay /\
    dailyBalances r
    = map (dailyEntry (dailyBalancesOf (sortedTransactions txs)))
          (carryForward (dailyBalancesOf (sortedTransactions txs)) 0
                        (daysFrom a (Z.to_nat (b - a + 1)))) /\
    dateRangeStart (basicStats r) = isoDay a /\
    dateRangeEnd (basicStats r) = isoDay b.
Proof.
  intros Hne Hv.
  destruct (date_range txs Hne Hv)
    as (t0 & t1 & a & b & H0 & H1 & E0 & E1 & Ha & Hab & Hb & Hmin & Hmax).
  destruct (computeMonthlyStats_Done txs Hv) as [stats Hstats].
  pose proof (allDailyBalancesOf_valid txs t0 t1 a b Hv H0 H1 E0 E1 Ha Hab Hb)
    as Hall.
  assert (toISOStringOf (minDate txs) = Done (isoOfTime (a * msPerDay))) as Hs
    by (by rewrite Hmin).
  assert (toISOStringOf (maxDate txs) = Done (isoOfTime (b * msPerDay))) as He
    by (by rewrite Hmax).
  destruct (analyze_Done txs stats _ _ _ Hstats Hall Hs He) as (r & Hr & _).
  destruct (analyze_Done_inv txs r Hr)
    as (stats' & all' & start' & end' & _ & Hall' & Hs' & He' & Er).
  rewrite Hall in Hall'. rewrite Hs in Hs'. rewrite He in He'.
  injection Hall' as <-. injection Hs' as <-. injection He' as <-.
  exists r, t0, t1, a, b. repeat (split; [done|]).
  rewrite Er. cbn [dailyBalances basicStats dateRangeStart dateRangeEnd].
  split; [apply formattedDailyDataOf_days; lia|].
  unfold isoDay. split; reflexivity.
Qed.

End BalanceFacts.

Module PeriodFacts.
Import JS Date Calendar DateFacts Dashboard DashboardView DashboardSpec
  DashboardFacts SortFacts OrderFacts AnalysisViewSpec AnalysisFacts GroupFacts
  RankingFacts BalanceSpec BalanceFacts.

#[local] Arguments sumBy : simpl never.

(** ** Quarters *)

Lemma monthFromTime_range n : 1 <= monthFromTime (n * msPerDay) <= 12.
Proof.
  unfold monthFromTime.
  assert (day (n * msPerDay) = n) as ->
    by (unfold day, msPerDay; apply Z.div_mul; lia).
  pose proof (makeDay_civilFromDays n) as H.
  destruct (civilFromDays n) as [[y m] d]. destruct H as [_ H].
  unfold validCivil in H. cbn [fst snd].
  apply andb_true_iff in H as [H _]. apply andb_true_iff in H as [H _].
  apply andb_true_iff in H as [H1 H2]. lia.
Qed.

Lemma quarterOf_isoDay n :
  firstDay <= n <= lastDay ->
  exists q, quarterOf (isoDay n) = Fin q /\ 1 <= q <= 4.
Proof.
  intros Hn. unfold quarterOf. cbn [Date.create].
  rewrite (parse_isoDay n Hn). eexists. split; [reflexivity|].
  unfold getMonth. pose proof (monthFromTime_range n).
  Z.div_mod_to_equations. lia.
Qed.

Lemma filter_bool_cons {A} (f : A -> bool) x l :
  filter (fun y => f y) (x :: l)
  = if f x then x :: filter (fun y => f y) l else filter (fun y => f y) l.
Proof.
  rewrite filter_cons. destruct (f x); by destruct (decide _).
Qed.

Lemma quarters_Permutation (l : list DailyBalance) :
  Forall (fun e => exists q, quarter e = Fin q /\ 1 <= q <= 4) l ->
  filter (fun e => quarterIs 1 e) l ++ filter (fun e => quarterIs 2 e) l
    ++ filter (fun e => quarterIs 3 e) l ++ filter (fun e => quarterIs 4 e) l
  ≡ₚ l.
Proof.
  induction 1 as [|e l (q & Hq & Hr) Hl IH]; [done|].
  rewrite !filter_bool_cons.
  assert (forall i, quarterIs i e = (q =? i)) as Hi
    by (intros i; unfold quarterIs; by rewrite Hq).
  rewrite !Hi.
  assert (q = 1 \/ q = 2 \/ q = 3 \/ q = 4) as Hcases by lia.
  destruct Hcases as [E|[E|[E|E]]]; subst q; cbn [Z.eqb Pos.eqb app].
  - by rewrite IH.
  - rewrite <- Permutation_middle. by rewrite IH.
  - rewrite (app_assoc (filter _ l)), <- Permutation_middle, <- app_assoc.
    by rewrite IH.
  - rewrite !app_assoc, <- Permutation_middle, <- !app_assoc. by rewrite IH.
Qed.

(** ** The extremes and the mean of a bucket *)

Lemma foldl_min_spec x l :
  foldl Z.min x l ∈ x :: l /\ forall y, y ∈ x :: l -> foldl Z.min x l <= y.
Proof.
  revert x. induction l as [|z l IH]; intros x; cbn [foldl].
  - split; [left|]. intros y Hy. apply list_elem_of_singleton in Hy. lia.
  - destruct (IH (Z.min x z)) as [Hin Hle]. split.
    + apply elem_of_cons in Hin as [E|Hin]; [|right; by right].
      rewrite E. destruct (Z.min_spec x z) as [[_ ->]|[_ ->]]; [left|right; left].
    + intros y Hy.
      assert (foldl Z.min (Z.min x z) l <= Z.min x z) by (apply Hle; left).
      apply elem_of_cons in Hy as [->|Hy]; [lia|].
      apply elem_of_cons in Hy as [->|Hy]; [lia|].
      apply Hle. by right.
Qed.

Lemma foldl_max_spec x l :
  foldl Z.max x l ∈ x :: l /\ forall y, y ∈ x :: l -> y <= foldl Z.max x l.
Proof.
  revert x. induction l as [|z l IH]; intros x; cbn [foldl].
  - split; [left|]. intros y Hy. apply list_elem_of_singleton in Hy. lia.
  - destruct (IH (Z.max x z)) as [Hin Hle]. split.
    + apply elem_of_cons in Hin as [E|Hin]; [|right; by right].
      rewrite E. destruct (Z.max_spec x z) as [[_ ->]|[_ ->]]; [right; left|left].
    + intros y Hy.
      assert (Z.max x z <= foldl Z.max (Z.max x z) l) by (apply Hle; left).
      apply elem_of_cons in Hy as [->|Hy]; [lia|].
      apply elem_of_cons in Hy as [->|Hy]; [lia|].
      apply Hle. by right.
Qed.

End PeriodFacts.

Module InsightFacts.
Import JS Date Calendar DateFacts Dashboard DashboardView DashboardSpec
  DashboardFacts SortFacts OrderFacts AnalysisViewSpec AnalysisFacts GroupFacts
  RankingFacts BalanceSpec BalanceFacts PeriodFacts InsightSpec.

#[local] Arguments sumBy : simpl never.

Lemma sortTwice_eq {A B C} (sort : list A -> list A) (f : A -> B) (g : A -> C) a :
  sort (sort a) = sort a ->
  sortTwice sort f g a = (sort a, (f <$> head (sort a), g <$> head (sort a))).
Proof. intros H. unfold sortTwice. by rewrite H. Qed.

Section ByMeasure.
Context {A : Type} (f : A -> Z).

Lemma descending_after a b :
  isPositive (descending f a b) = (- f b <? - f a).
Proof.
  unfold descending. cbn [isPositive]. apply eq_true_iff_eq.
  rewrite !Z.ltb_lt. lia.
Qed.

Lemma arraySort_descending_Sorted l :
  Sorted (fun a b => f b <= f a) (arraySort (descending f) l).
Proof.
  apply (Sorted_weaken (fun a b => - f a <= - f b)); [intros a b; lia|].
  apply (stableSort_Sorted _ (fun a => - f a)).
  intros x y _ _. apply descending_after.
Qed.

Lemma arraySort_descending_idem l :
  arraySort (descending f) (arraySort (descending f) l)
  = arraySort (descending f) l.
Proof.
  apply stableSort_sorted_id.
  eapply Sorted_weaken; [|apply arraySort_descending_Sorted].
  intros a b H. cbn beta in H. rewrite descending_after. apply Z.ltb_ge. lia.
Qed.

Lemma arraySort_ascending_Sorted l :
  Sorted (fun a b => f a <= f b) (arraySort (ascending f) l).
Proof.
  apply stableSort_Sorted. intros x y _ _.
  unfold ascending. cbn [isPositive]. apply eq_true_iff_eq.
  rewrite !Z.ltb_lt. lia.
Qed.

Lemma arraySort_ascending_idem l :
  arraySort (ascending f) (arraySort (ascending f) l) = arraySort (ascending f) l.
Proof.
  apply stableSort_sorted_id.
  eapply Sorted_weaken; [|apply arraySort_ascending_Sorted].
  intros a b H. cbn beta in H. unfold ascending. cbn [isPositive].
  apply Z.ltb_ge. lia.
Qed.

Lemma arraySort_Permutation (cmp : A -> A -> number) l : arraySort cmp l ≡ₚ l.
Proof. apply stableSort_Permutation. Qed.

(** The first entry of an array sorted in descending order is greatest. *)
Lemma head_descending_greatest l x :
  head (arraySort (descending f) l) = Some x ->
  x ∈ l /\ forall y, y ∈ l -> f y <= f x.
Proof.
  intros Hx.
  assert (x ∈ arraySort (descending f) l) as Hin
    by (destruct (arraySort (descending f) l); [done|]; injection Hx as ->; left).
  split; [by rewrite arraySort_Permutation in Hin|].
  intros y Hy. rewrite <- (arraySort_Permutation (descending f)) in Hy.
  pose proof (Sorted_head_min (fun a => - f a) (arraySort (descending f) l) x) as H.
  assert (- f x <= - f y); [|lia]. apply H; [|done|done].
  eapply Sorted_weaken; [|apply arraySort_descending_Sorted].
  intros a b. cbn beta. lia.
Qed.

Lemma head_ascending_least l x :
  head (arraySort (ascending f) l) = Some x ->
  x ∈ l /\ forall y, y ∈ l -> f x <= f y.
Proof.
  intros Hx.
  assert (x ∈ arraySort (ascending f) l) as Hin
    by (destruct (arraySort (ascending f) l); [done|]; injection Hx as ->; left).
  split; [by rewrite arraySort_Permutation in Hin|].
  intros y Hy. rewrite <- (arraySort_Permutation (ascending f)) in Hy.
  apply (Sorted_head_min f (arraySort (ascending f) l) x); [|done|done].
  apply arraySort_ascending_Sorted.
Qed.

End ByMeasure.

Lemma exceeds_asym x y : exceeds x y = true -> exceeds y x = false.
Proof.
  unfold exceeds. destruct x as [a|], y as [b|]; try done.
  intros H. apply negb_true_iff in H. apply negb_false_iff.
  apply Qle_bool_iff. destruct (Qlt_le_dec a b) as [Hlt|Hle].
  - exfalso. apply Qlt_le_weak, Qle_bool_iff in Hlt. congruence.
  - done.
Qed.

Lemma sortByAvgDesc_idem l : sortByAvgDesc (sortByAvgDesc l) = sortByAvgDesc l.
Proof.
  apply stableSort_sorted_id.
  apply (stableSort_Sorted_asym
           (fun a b : PeriodBalance => exceeds (avgBalance b) (avgBalance a))).
  intros a b. apply exceeds_asym.
Qed.

Lemma sortByAvgAsc_Sorted l :
  Sorted (fun a b => exceeds (avgBalance a) (avgBalance b) = false)
         (sortByAvgAsc l).
Proof.
  apply (stableSort_Sorted_asym
           (fun a b : PeriodBalance => exceeds (avgBalance a) (avgBalance b))).
  intros a b. apply exceeds_asym.
Qed.

Lemma sortByAvgAsc_idem l : sortByAvgAsc (sortByAvgAsc l) = sortByAvgAsc l.
Proof. apply stableSort_sorted_id, sortByAvgAsc_Sorted. Qed.

(** The render, with each pair of calls of [sort] taken as one. *)
Lemma keyInsights_eq analysis :
  keyInsights analysis
  = let ms1 := arraySort (descending monthInflow) (monthlyStats analysis) in
    let ms2 := arraySort (descending monthOutflow) ms1 in
    let ms3 := arraySort (descending monthNet) ms2 in
    let ms4 := arraySort (ascending monthNet) ms3 in
    let ms5 := arraySort (descending (fun s => Z.of_nat (monthCount s))) ms4 in
    let mb1 := sortByAvgDesc (monthlyBalances analysis) in
    let mb2 := sortByAvgAsc mb1 in
    let pv1 := partnerVolumesAfter (partnerVolumes analysis) in
    match last (dailyBalances analysis) with
    | None =>
        Threw (TypeError "Cannot read properties of undefined (reading 'balance')")
    | Some e =>
        Done ({| highestInflows := (month <$> head ms1, monthInflow <$> head ms1);
                 largestOutflows := (month <$> head ms2, monthOutflow <$> head ms2);
                 mostPositiveMonth := (month <$> head ms3, monthNet <$> head ms3);
                 mostNegativeMonth := (month <$> head ms4, monthNet <$> head ms4);
                 highestMonthlyAverage :=
                   (period <$> head mb1, avgBalance <$> head mb1);
                 lowestMonthlyAverage :=
                   (period <$> head mb2, avgBalance <$> head mb2);
                 endingBalance := balance e;
                 frequencyPeak := (month <$> head ms5, monthCount <$> head ms5);
                 topPartnerByVolume :=
                   (fun p => (name p, partnerTotalVolume p))
                     <$> head (partnerVolumes analysis);
                 mostFrequentPartner := (name <$> head pv1, count <$> head pv1) |},
              {| basicStats := basicStats analysis;
                 monthlyStats := ms5;
                 partnerVolumes := pv1;
                 dailyBalances := dailyBalances analysis;
                 weeklyBalances := weeklyBalances analysis;
                 monthlyBalances := mb2;
                 yearlyBalance := yearlyBalance analysis;
                 allTransactions := allTransactions analysis |})
    end.
Proof.
  unfold keyInsights, partnerVolumesAfter.
  rewrite !sortTwice_eq
    by first [apply arraySort_descending_idem | apply arraySort_ascending_idem
             | apply sortByAvgDesc_idem | apply sortByAvgAsc_idem].
  cbv zeta. by destruct (last (dailyBalances analysis)).
Qed.

Lemma namesGreatest_descending {A B} (key : A -> string) (shown : A -> B)
    (f : A -> Z) (l l' : list A) :
  l' ≡ₚ l ->
  namesGreatest key shown f l
    (key <$> head (arraySort (descending f) l'),
     shown <$> head (arraySort (descending f) l')).
Proof.
  intros HP. unfold namesGreatest.
  destruct l as [|x0 l0].
  { apply Permutation_nil_r in HP. by rewrite HP. }
  remember (x0 :: l0) as l eqn:El.
  destruct (head (arraySort (descending f) l')) as [x|] eqn:Hx.
  - destruct (head_descending_greatest f l' x Hx) as [Hin Hmax].
    exists x. split; [by rewrite <- HP|]. split; [done|].
    intros y Hy. apply Hmax. by rewrite HP.
  - exfalso. apply head_None in Hx.
    pose proof (arraySort_Permutation (descending f) l') as H.
    rewrite Hx in H. symmetry in H. apply Permutation_nil_r in H.
    rewrite H, El in HP. by apply Permutation_nil_cons in HP.
Qed.

Lemma namesGreatest_ascending {A B} (key : A -> string) (shown : A -> B)
    (f : A -> Z) (l l' : list A) :
  l' ≡ₚ l ->
  namesGreatest key shown (fun x => - f x) l
    (key <$> head (arraySort (ascending f) l'),
     shown <$> head (arraySort (ascending f) l')).
Proof.
  intros HP. unfold namesGreatest.
  destruct l as [|x0 l0].
  { apply Permutation_nil_r in HP. by rewrite HP. }
  remember (x0 :: l0) as l eqn:El.
  destruct (head (arraySort (ascending f) l')) as [x|] eqn:Hx.
  - destruct (head_ascending_least f l' x Hx) as [Hin Hmin].
    exists x. split; [by rewrite <- HP|]. split; [done|].
    intros y Hy. assert (f x <= f y); [|lia]. apply Hmin. by rewrite HP.
  - exfalso. apply head_None in Hx.
    pose proof (arraySort_Permutation (ascending f) l') as H.
    rewrite Hx in H. symmetry in H. apply Permutation_nil_r in H.
    rewrite H, El in HP. by apply Permutation_nil_cons in HP.
Qed.

Lemma keyInsights_partners analysis k after :
  keyInsights analysis = Done (k, after) ->
  partnerVolumes after = partnerVolumesAfter (partnerVolumes analysis) /\
  mostFrequentPartner k
  = (name <$> head (partnerVolumesAfter (partnerVolumes analysis)),
     count <$> head (partnerVolumesAfter (partnerVolumes analysis))) /\
  topPartnerByVolume k
  = (fun p => (name p, partnerTotalVolume p)) <$> head (partnerVolumes analysis).
Proof.
  rewrite keyInsights_eq. cbv zeta.
  destruct (last (dailyBalances analysis)) as [e|]; [|discriminate].
  by intros [= <- <-].
Qed.

Lemma last_is_Some {A} (l : list A) : l <> [] -> is_Some (last l).
Proof.
  intros H. destruct (last l) eqn:E; [by eexists|]. by apply last_None in E.
Qed.

Lemma head_fmap_pair {A B} (key : A -> string) (shown : A -> B) (l : list A) x :
  head l = Some x -> (key <$> head l, shown <$> head l) = (Some (key x), Some (shown x)).
Proof. by intros ->. Qed.

End InsightFacts.

Module WeekFacts.
Import JS Date Calendar DateFacts Dashboard DashboardSpec DashboardFacts WeekSpec.

Lemma mod_midnight n : (n * msPerDay) mod msPerDay = 0.
Proof. unfold msPerDay. apply Z.mod_mul. lia. Qed.

Lemma validCivil_newYear y : validCivil y 1 1 = true.
Proof. reflexivity. Qed.

Lemma newYear_succ y :
  makeDay (y + 1) 1 1 = makeDay y 1 1 + (if isLeapYear y then 366 else 365).
Proof.
  destruct (validCivil_yearDay y 1 1 (validCivil_newYear y)) as (_ & E1 & _).
  destruct (validCivil_yearDay (y + 1) 1 1 (validCivil_newYear (y + 1)))
    as (_ & E2 & _).
  cbn [Z.leb Z.ltb Z.compare Pos.compare Pos.compare_cont] in E1, E2.
  rewrite E1, E2.
  replace (y + 1 - 1) with (y - 1 + 1) by lia.
  rewrite yearDay_succ. replace (y - 1 + 1) with y by lia. lia.
Qed.

(** A day lies in the year it is dated in. *)
Lemma yearOfDay_bounds n :
  makeDay (yearOfDay n) 1 1 <= n < makeDay (yearOfDay n + 1) 1 1.
Proof.
  unfold yearOfDay. pose proof (makeDay_civilFromDays n) as H.
  destruct (civilFromDays n) as [[y m] d]. destruct H as [<- Hv]. cbn [fst].
  assert (1 <= m <= 12 /\ 1 <= d) as Hmd.
  { unfold validCivil in Hv.
    apply andb_true_iff in Hv as [Hv _]. apply andb_true_iff in Hv as [Hv H3].
    apply andb_true_iff in Hv as [H1 H2]. lia. }
  split.
  - destruct (decide (m = 1 /\ d = 1)) as [[-> ->]|Hne]; [lia|].
    apply Z.lt_le_incl, makeDay_lt; [apply validCivil_newYear|done|].
    apply civilLtb_spec. lia.
  - apply makeDay_lt; [done|apply validCivil_newYear|].
    apply civilLtb_spec. lia.
Qed.

Lemma thursdayOf_near n :
  n - 3 <= thursdayOf n <= n + 3 /\ (thursdayOf n + 3) mod 7 = 3.
Proof. unfold thursdayOf. Z.div_mod_to_equations. lia. Qed.

Lemma roundDiv7_week thu newYear :
  (thu + 3) mod 7 = 3 -> 0 <= thu - newYear ->
  1 + roundDiv7 (thu - (newYear + 3) - 3 + ((newYear + 3 + 4) mod 7 + 6) mod 7)
  = (thu - newYear) / 7 + 1.
Proof. intros H1 H2. unfold roundDiv7. Z.div_mod_to_equations. lia. Qed.

(** The week of a day, as [getWeekNumber] computes it. *)
Lemma getWeekNumber_isoDay n :
  firstDay <= n <= lastDay -> 100 <= yearOfDay (thursdayOf n) ->
  getWeekNumber (isoDay n)
  = (Fin (yearOfDay (thursdayOf n)), Fin (isoWeekOf n)) /\
  1 <= isoWeekOf n <= 53 /\
  weekDay (thursdayOf n * msPerDay) = 4 /\
  n - 3 <= thursdayOf n <= n + 3.
Proof.
  intros Hn Hy.
  destruct (thursdayOf_near n) as [Hnear Hthu].
  pose proof (yearOfDay_bounds (thursdayOf n)) as Hin.
  pose proof (newYear_succ (yearOfDay (thursdayOf n))) as Hnext.
  set (thu := thursdayOf n) in *. set (y := yearOfDay thu) in *.
  assert (makeDay (y + 1) 1 1 - makeDay y 1 1 <= 366) as Hlen
    by (destruct (isLeapYear y); lia).
  split; [|split; [|split; [|done]]].
  - unfold getWeekNumber. cbn [Date.create]. rewrite (parse_isoDay n Hn).
    rewrite mod_midnight, Z.sub_0_r.
    replace (getDate (n * msPerDay) + 3 - (getDay (n * msPerDay) + 6) mod 7)
      with (getDate (n * msPerDay) + (3 - (getDay (n * msPerDay) + 6) mod 7))
      by lia.
    rewrite setDate_getDate. unfold getDay, weekDay. rewrite day_midnight.
    assert (n * msPerDay + (3 - ((n + 4) mod 7 + 6) mod 7) * msPerDay
            = thu * msPerDay) as ->.
    { subst thu. unfold thursdayOf.
      assert (((n + 4) mod 7 + 6) mod 7 = (n + 3) mod 7) as ->
        by (Z.div_mod_to_equations; lia).
      lia. }
    unfold getFullYear. rewrite day_midnight. fold (yearOfDay thu). fold y.
    unfold ofYMD.
    assert ((0 <=? y) && (y <=? 99) = false) as ->
      by (apply andb_false_iff; right; apply Z.leb_gt; lia).
    assert (makeDay y 1 4 = makeDay y 1 1 + 3) as ->
      by (replace 4 with (1 + 3) by lia; apply makeDay_shift).
    rewrite day_midnight.
    assert ((thu * msPerDay - (makeDay y 1 1 + 3) * msPerDay) / msPerDay
            = thu - (makeDay y 1 1 + 3)) as ->.
    { rewrite <- Z.mul_sub_distr_r. unfold msPerDay. apply Z.div_mul. lia. }
    f_equal. f_equal. unfold isoWeekOf. fold thu. fold y.
    apply roundDiv7_week; [done|lia].
  - unfold isoWeekOf. fold thu. fold y. Z.div_mod_to_equations. lia.
  - unfold weekDay. rewrite day_midnight. Z.div_mod_to_equations. lia.
Qed.

End WeekFacts.

Module BucketFacts.
Import JS Date Calendar DateFacts Dashboard DashboardView DashboardSpec
  DashboardFacts SortFacts OrderFacts AnalysisViewSpec AnalysisFacts GroupFacts
  RankingFacts BalanceSpec BalanceFacts PeriodFacts BucketSpec.

#[local] Arguments sumBy : simpl never.

(** The buckets are the groups of the entries by week and by month, with
    the balances kept. *)
Lemma bucketsOf_groupBy (all : list (string * Z)) :
  (bucketsOf all).1
  = map (fun g : string * list (string * Z) => (g.1, map snd g.2))
        (groupBy (fun e : string * Z => weekKeyOf e.1) all) /\
  (bucketsOf all).2
  = map (fun g : string * list (string * Z) => (g.1, map snd g.2))
        (groupBy (fun e : string * Z => slice0 7 e.1) all).
Proof.
  assert (forall (o : list (string * list (string * Z))) k v,
            map (fun g : string * list (string * Z) => (g.1, map snd g.2))
                (objSet k v o)
            = objSet k (map snd v)
                (map (fun g : string * list (string * Z) => (g.1, map snd g.2)) o))
    as Hset.
  { induction o as [|[k' v'] o IHo]; intros k v; simpl; [done|].
    destruct (String.eqb k k'); simpl; [done|]. by rewrite IHo. }
  assert (forall (o : list (string * list (string * Z))) k,
            objGet (map (fun g : string * list (string * Z) => (g.1, map snd g.2)) o) k
            = map snd <$> objGet o k) as Hget.
  { induction o as [|[k' v'] o IHo]; intros k; simpl; [done|].
    destruct (String.eqb k k'); simpl; [done|]. apply IHo. }
  unfold bucketsOf.
  induction all as [|[d b] all [IH1 IH2]] using rev_ind; [done|].
  rewrite foldl_app. cbn [foldl bucketStep fst snd].
  rewrite !groupBy_snoc, !Hset. cbn [fst snd].
  unfold pushTo. rewrite IH1, IH2, !Hget, !map_app. cbn [map snd].
  split.
  - by destruct (objGet (groupBy (fun e : string * Z => weekKeyOf e.1) all)
                        (weekKeyOf d)).
  - by destruct (objGet (groupBy (fun e : string * Z => slice0 7 e.1) all)
                        (slice0 7 d)).
Qed.

Lemma periodBalanceOf_period e : period (periodBalanceOf e) = e.1.
Proof. by destruct e. Qed.

(** The period balances made of the groups of a series by a key. *)
Lemma avgBalancesOf_groups (key : string -> string) (all : list (string * Z)) :
  let buckets :=
    map (fun g : string * list (string * Z) => (g.1, map snd g.2))
        (groupBy (fun e : string * Z => key e.1) all) in
  Sorted (fun a b => strLt (period a) (period b) = true) (avgBalancesOf buckets) /\
  (forall p, p ∈ avgBalancesOf buckets ->
     p = periodBalanceOf
           (period p, map snd (filter (fun e : string * Z => key e.1 = period p) all))
     /\ filter (fun e : string * Z => key e.1 = period p) all <> []) /\
  (forall e, e ∈ all -> exists p, p ∈ avgBalancesOf buckets /\ period p = key e.1).
Proof.
  intros buckets.
  assert (map period (map periodBalanceOf buckets)
          = map fst (groupBy (fun e : string * Z => key e.1) all)) as Hkeys.
  { subst buckets. rewrite !map_map. apply map_ext. by intros [??]. }
  split; [|split].
  - apply arraySort_keys_strict. rewrite Hkeys. apply groupBy_NoDup.
  - intros p Hp. unfold avgBalancesOf, arraySort in Hp.
    rewrite stableSort_elem_of in Hp.
    apply list_elem_of_In, in_map_iff in Hp as (bk & <- & Hb).
    subst buckets. apply in_map_iff in Hb as ([k g] & <- & Hg).
    apply list_elem_of_In, groupBy_elem in Hg as [-> Hne].
    cbn [fst snd periodBalanceOf period]. done.
  - intros e He.
    destruct (groupBy_keys (fun e : string * Z => key e.1) all e He) as [g Hg].
    exists (periodBalanceOf (key e.1, map snd g)). split; [|done].
    unfold avgBalancesOf, arraySort. rewrite stableSort_elem_of.
    apply list_elem_of_In, in_map. subst buckets.
    apply in_map_iff. exists (key e.1, g). split; [done|].
    by apply list_elem_of_In.
Qed.

Lemma filter_dailyEntry m (all : list (string * Z)) (key : string -> string) k :
  map balance (filter (fun e => key (date e) = k) (map (dailyEntry m) all))
  = map snd (filter (fun e : string * Z => key e.1 = k) all).
Proof.
  induction all as [|e all IH]; [done|].
  cbn [map]. rewrite !filter_cons. cbn [dailyEntry date].
  destruct (decide (key e.1 = k)); cbn [map balance]; by rewrite IH.
Qed.

(** A bucket of the result is made of the days of the series that have
    its key, and there is such a day. *)
Lemma bucket_of_days (key : string -> string) m (all : list (string * Z)) p :
  p ∈ avgBalancesOf
        (map (fun g : string * list (string * Z) => (g.1, map snd g.2))
             (groupBy (fun e : string * Z => key e.1) all)) ->
  let days := filter (fun e => key (date e) = period p)
                     (map (dailyEntry m) all) in
  p = periodBalanceOf (period p, map balance days) /\ days <> [].
Proof.
  intros Hp days.
  destruct (avgBalancesOf_groups key all) as (_ & Hg & _).
  destruct (Hg p Hp) as [Ep Hne].
  assert (map balance days
          = map snd (filter (fun e : string * Z => key e.1 = period p) all))
    as Hb by apply filter_dailyEntry.
  split; [by rewrite Hb|].
  intros E. rewrite E in Hb. cbn [map] in Hb.
  destruct (filter (fun e : string * Z => key e.1 = period p) all); done.
Qed.

Lemma periodBalanceOf_extremes k (days : list DailyBalance) :
  days <> [] -> extremesOf (periodBalanceOf (k, map balance days)) days.
Proof.
  intros Hne. destruct days as [|d days]; [done|].
  unfold extremesOf. cbn [periodBalanceOf min max map minOf maxOf].
  destruct (foldl_min_spec (balance d) (map balance days)) as [Hmin1 Hmin2].
  destruct (foldl_max_spec (balance d) (map balance days)) as [Hmax1 Hmax2].
  change (balance d :: map balance days) with (map balance (d :: days))
    in Hmin1, Hmin2, Hmax1, Hmax2.
  apply list_elem_of_In, in_map_iff in Hmin1 as (e1 & E1 & H1).
  apply list_elem_of_In, in_map_iff in Hmax1 as (e2 & E2 & H2).
  exists (foldl Z.min (balance d) (map balance days)),
         (foldl Z.max (balance d) (map balance days)), e1, e2.
  split; [done|]. split; [done|].
  split; [by apply list_elem_of_In|]. split; [done|].
  split; [by apply list_elem_of_In|]. split; [done|].
  intros e He.
  assert (balance e ∈ map balance (d :: days)) as Hin
    by (apply list_elem_of_In, in_map, list_elem_of_In, He).
  split; [by apply Hmin2|by apply Hmax2].
Qed.

End BucketFacts.

Module SizeFacts.
Import JS Date Calendar DateFacts Dashboard DashboardView DashboardSpec
  DashboardFacts SortFacts OrderFacts AnalysisViewSpec AnalysisFacts GroupFacts
  RankingFacts BalanceSpec BalanceFacts PeriodFacts WeekSpec WeekFacts
  BucketFacts SizeSpec.

(** ** Counting *)

Lemma length_filter_key {A} (f : A -> string) (key : string -> string) K
    (l : list A) :
  length (filter (fun x => key (f x) = K) l)
  = length (filter (fun s => key s = K) (map f l)).
Proof.
  induction l as [|x l IH]; [done|].
  cbn [map]. rewrite !filter_cons.
  destruct (decide (key (f x) = K)); cbn [length]; by rewrite IH.
Qed.

(** Distinct integers of a window of [w] integers are at most [w]. *)
Lemma NoDup_window (l : list Z) lo w :
  NoDup l -> (forall x, x ∈ l -> lo <= x < lo + w) ->
  (length l <= Z.to_nat w)%nat.
Proof.
  intros Hnd Hin. rewrite <- (length_seqZ lo w).
  apply submseteq_length, NoDup_submseteq; [done|].
  intros x Hx. apply elem_of_seqZ. auto.
Qed.

Lemma daysFrom_NoDup a k : NoDup (daysFrom a k).
Proof.
  revert a. induction k as [|k IH]; intros a; cbn [daysFrom]; constructor.
  - rewrite daysFrom_elem. lia.
  - apply IH.
Qed.

(** The number of days of a bucket is the number of days of the series
    that have the key of the bucket. *)
Lemma bucket_days (key : string -> string) m a k p :
  p ∈ avgBalancesOf
        (map (fun g : string * list (string * Z) => (g.1, map snd g.2))
             (groupBy (fun e : string * Z => key e.1)
                      (carryForward m 0 (daysFrom a k)))) ->
  days p = length (filter (fun n => key (isoDay n) = period p) (daysFrom a k)) /\
  (1 <= days p)%nat.
Proof.
  intros Hp.
  destruct (avgBalancesOf_groups key (carryForward m 0 (daysFrom a k)))
    as (_ & Hg & _).
  destruct (Hg p Hp) as [Ep Hne].
  assert (days p
          = length (filter (fun e : string * Z => key e.1 = period p)
                           (carryForward m 0 (daysFrom a k)))) as Hd.
  { rewrite Ep at 1. cbn [periodBalanceOf days]. apply length_map. }
  split.
  - rewrite Hd, (length_filter_key fst), (length_filter_key isoDay).
    by rewrite carryForward_keys.
  - rewrite Hd.
    destruct (filter (fun e : string * Z => key e.1 = period p)
                     (carryForward m 0 (daysFrom a k))); [done|].
    cbn [length]. lia.
Qed.

(** ** Months *)

Lemma firstOfMonth_near n : firstOfMonth n <= n < firstOfMonth n + 31.
Proof.
  unfold firstOfMonth. pose proof (makeDay_civilFromDays n) as H.
  destruct (civilFromDays n) as [[y m] d]. destruct H as [<- Hv].
  apply validCivil_spec in Hv as [_ Hd].
  pose proof (daysInMonth_le_31 y m).
  assert (makeDay y m d = makeDay y m 1 + (d - 1)) as E
    by (rewrite <- makeDay_shift; f_equal; lia).
  lia.
Qed.

(** The month key of a day, completed to a date, is the first of the
    month. *)
Lemma monthKey_firstOfMonth n :
  firstDay <= n <= lastDay ->
  parse (slice0 7 (isoDay n) +:+ "-01") = Fin (firstOfMonth n * msPerDay).
Proof.
  intros Hn. unfold isoDay, firstOfMonth.
  pose proof (isoOfTime_slice10 (n * msPerDay)) as Hiso.
  rewrite day_midnight in Hiso.
  pose proof (civilFromDays_range n Hn) as Hy.
  pose proof (makeDay_civilFromDays n) as Hm.
  destruct (civilFromDays n) as [[y m] d]. cbn [fst] in Hy.
  destruct Hm as [_ Hv]. rewrite (Hiso Hy).
  assert (slice0 7 (dateText y m d) +:+ "-01" = dateText y m 1) as ->
    by (unfold dateText, pad4, pad3, pad2, slice0; reflexivity).
  apply parse_dateText; [done|].
  apply validCivil_spec. apply validCivil_spec in Hv as [Hm Hd].
  pose proof (daysInMonth_ge y m). split; [done|].
  assert (28 <= daysInMonth 1 m) by (unfold daysInMonth; repeat case_match; lia).
  lia.
Qed.

Lemma monthKey_same_month n1 n2 :
  firstDay <= n1 <= lastDay -> firstDay <= n2 <= lastDay ->
  slice0 7 (isoDay n1) = slice0 7 (isoDay n2) -> firstOfMonth n1 = firstOfMonth n2.
Proof.
  intros H1 H2 E. apply monthKey_firstOfMonth in H1, H2.
  rewrite E, H2 in H1. injection H1 as H1. unfold msPerDay in H1. lia.
Qed.

(** ** Week keys *)

Lemma append_length_inj (a b s t : string) :
  String.length a = String.length b -> a +:+ s = b +:+ t -> a = b /\ s = t.
Proof.
  revert b. induction a as [|c a IH]; intros [|c' b] Hl E; try discriminate Hl.
  - done.
  - change (String c (a +:+ s) = String c' (b +:+ t)) in E.
    injection E as -> E. injection Hl as Hl.
    destruct (IH b Hl E) as [-> ->]. done.
Qed.

Lemma length_append (a s : string) :
  String.length (a +:+ s) = (String.length a + String.length s)%nat.
Proof.
  induction a as [|c a IH]; [done|].
  change (String c a +:+ s) with (String c (a +:+ s)).
  cbn [String.length]. by rewrite IH.
Qed.

Lemma to_int_not_nil z : Z.to_int z <> Decimal.Pos Decimal.Nil /\ Z.to_int z <> Decimal.Neg Decimal.Nil.
Proof.
  split; intros E; pose proof (DecimalZ.of_to z) as H; rewrite E in H;
    cbn in H; subst z; discriminate E.
Qed.

(** The decimal text of an integer determines the integer. *)
Lemma numberToString_inj z1 z2 :
  numberToString (Fin z1) = numberToString (Fin z2) -> z1 = z2.
Proof.
  cbn [numberToString]. intros E.
  destruct (to_int_not_nil z1) as [A1 B1]. destruct (to_int_not_nil z2) as [A2 B2].
  pose proof (NilZero.isi _ A1 B1) as H1. pose proof (NilZero.isi _ A2 B2) as H2.
  rewrite E, H2 in H1. injection H1 as H1. by apply DecimalZ.to_int_inj.
Qed.

Lemma padStart2_pad2 w :
  0 <= w <= 99 -> padStart2 (numberToString (Fin w)) = pad2 w.
Proof.
  intros Hw.
  assert (forallb twoDigitsOk (seqZ 0 100) = true) as H by (vm_compute; reflexivity).
  rewrite forallb_forall in H. apply String.eqb_eq, H.
  apply list_elem_of_In, elem_of_seqZ. lia.
Qed.

Lemma digitChar_inj a b :
  0 <= a <= 9 -> 0 <= b <= 9 -> digitChar a = digitChar b -> a = b.
Proof.
  intros Ha Hb E.
  destruct (digitChar_spec a Ha) as [_ <-]. destruct (digitChar_spec b Hb) as [_ <-].
  by rewrite E.
Qed.

Lemma pad2_inj w1 w2 : 0 <= w1 <= 99 -> 0 <= w2 <= 99 -> pad2 w1 = pad2 w2 -> w1 = w2.
Proof.
  intros H1 H2 E. unfold pad2 in E. injection E as E1 E2.
  apply digitChar_inj in E1; [|Z.div_mod_to_equations; lia..].
  apply digitChar_inj in E2; [|Z.div_mod_to_equations; lia..].
  Z.div_mod_to_equations. lia.
Qed.

(** The key of a week determines the year and the number of the week. *)
Lemma formatWeekKey_inj y1 w1 y2 w2 :
  1 <= w1 <= 53 -> 1 <= w2 <= 53 ->
  formatWeekKey (Fin y1) (Fin w1) = formatWeekKey (Fin y2) (Fin w2) ->
  y1 = y2 /\ w1 = w2.
Proof.
  intros H1 H2. unfold formatWeekKey.
  rewrite !padStart2_pad2 by lia. intros E.
  assert (String.length (numberToString (Fin y1))
          = String.length (numberToString (Fin y2))) as Hl.
  { apply (f_equal String.length) in E. rewrite !length_append in E.
    unfold pad2 in E. cbn [String.length] in E. lia. }
  destruct (append_length_inj _ _ _ _ Hl E) as [Ey Ew].
  split; [by apply numberToString_inj|].
  cbn in Ew. injection Ew as Ew. apply pad2_inj; [lia..|].
  unfold pad2. by rewrite Ew, H.
Qed.

Lemma newYear_mono y1 y2 : y1 <= y2 -> makeDay y1 1 1 <= makeDay y2 1 1.
Proof.
  intros H. destruct (decide (y1 = y2)) as [->|Hne]; [lia|].
  apply Z.lt_le_incl, makeDay_lt; [apply validCivil_newYear..|].
  apply civilLtb_spec. lia.
Qed.

Lemma yearOfDay_from n y : makeDay y 1 1 <= n -> y <= yearOfDay n.
Proof.
  intros H. destruct (Z.le_gt_cases y (yearOfDay n)) as [|Hgt]; [done|].
  pose proof (yearOfDay_bounds n) as [_ Hb].
  pose proof (newYear_mono (yearOfDay n + 1) y ltac:(lia)). lia.
Qed.

(** Two days with the same week key are days of one week. *)
Lemma weekKey_same_week n1 n2 :
  firstDay <= n1 <= lastDay -> firstDay <= n2 <= lastDay ->
  makeDay 100 1 4 <= n1 -> makeDay 100 1 4 <= n2 ->
  weekKeyOf (isoDay n1) = weekKeyOf (isoDay n2) -> thursdayOf n1 = thursdayOf n2.
Proof.
  intros R1 R2 L1 L2.
  assert (makeDay 100 1 4 = makeDay 100 1 1 + 3) as E4
    by (replace 4 with (1 + 3) by lia; apply makeDay_shift).
  destruct (thursdayOf_near n1) as [N1 T1]. destruct (thursdayOf_near n2) as [N2 T2].
  assert (100 <= yearOfDay (thursdayOf n1)) as Y1 by (apply yearOfDay_from; lia).
  assert (100 <= yearOfDay (thursdayOf n2)) as Y2 by (apply yearOfDay_from; lia).
  destruct (getWeekNumber_isoDay n1 R1 Y1) as (G1 & W1 & _).
  destruct (getWeekNumber_isoDay n2 R2 Y2) as (G2 & W2 & _).
  unfold weekKeyOf. rewrite G1, G2. intros E.
  apply formatWeekKey_inj in E as [Ey Ew]; [|done..].
  pose proof (yearOfDay_bounds (thursdayOf n1)) as B1.
  pose proof (yearOfDay_bounds (thursdayOf n2)) as B2.
  unfold isoWeekOf in Ew. rewrite <- Ey in Ew, B2.
  set (t1 := thursdayOf n1) in *. set (t2 := thursdayOf n2) in *.
  set (ny := makeDay (yearOfDay t1) 1 1) in *.
  clearbody t1 t2 ny. Z.div_mod_to_equations. lia.
Qed.

End SizeFacts.

Module TableViewFacts.
Import JS Date Calendar DateFacts SortableTable SortableTableHeader TableSpec
  TableViewSpec SortFacts OrderFacts TableFacts.

Lemma sortedData_elem_of lc data columns cfg row :
  row ∈ sortedData lc data columns cfg <-> row ∈ data.
Proof.
  unfold sortedData. destruct (sortKey cfg) as [k|]; [|done].
  destruct (String.eqb k EmptyString); [done|].
  apply stableSort_elem_of.
Qed.

Lemma numberOf_cellNumber k row :
  numberOf (get row k) <> NaN -> numberOf (get row k) = Fin (cellNumber k row).
Proof. unfold cellNumber. by destruct (numberOf (get row k)). Qed.

Lemma includesChar_replaceSpaces c s b :
  isSpace c = true -> includesChar c (replaceSpaces b s) = false.
Proof.
  intros Hc. revert b. induction s as [|d s IH]; intros b; [done|].
  cbn [replaceSpaces]. destruct (isSpace d) eqn:Hd.
  - destruct b; [apply IH|]. cbn [includesChar]. rewrite IH, orb_false_r.
    destruct (Ascii.eqb_spec c "_"%char) as [->|]; [discriminate Hc|done].
  - cbn [includesChar]. rewrite IH, orb_false_r.
    destruct (Ascii.eqb_spec c d) as [->|]; [congruence|done].
Qed.

Lemma includesChar_self c s : includesChar c (String c s) = true.
Proof. cbn [includesChar]. by rewrite Ascii.eqb_refl. Qed.

Lemma replaceSpaces_noSpace s b : noSpace s -> replaceSpaces b s = s.
Proof.
  revert b. induction s as [|d s IH]; intros b H; [done|].
  cbn [replaceSpaces]. destruct (isSpace d) eqn:Hd.
  - specialize (H d Hd). by rewrite includesChar_self in H.
  - f_equal. apply IH. intros c Hc. specialize (H c Hc).
    cbn [includesChar] in H. by apply orb_false_iff in H as [_ H].
Qed.

Lemma digitChar_not_T k : 0 <= k <= 9 -> Ascii.eqb (digitChar k) "T" = false.
Proof.
  intros H.
  assert (k = 0 \/ k = 1 \/ k = 2 \/ k = 3 \/ k = 4 \/ k = 5 \/ k = 6 \/ k = 7
          \/ k = 8 \/ k = 9) as Hk by lia.
  repeat (destruct Hk as [->|Hk]; [by vm_compute|]). subst. by vm_compute.
Qed.

Lemma digitChar_not_comma k : 0 <= k <= 9 -> Ascii.eqb "," (digitChar k) = false.
Proof.
  intros H.
  assert (k = 0 \/ k = 1 \/ k = 2 \/ k = 3 \/ k = 4 \/ k = 5 \/ k = 6 \/ k = 7
          \/ k = 8 \/ k = 9) as Hk by lia.
  repeat (destruct Hk as [->|Hk]; [by vm_compute|]). subst. by vm_compute.
Qed.

(** The part of the ISO text before its [T] is the date. *)
Lemma beforeT_isoOfTime t :
  let '(y, m, d) := civilFromDays (day t) in
  0 <= y <= 9999 -> beforeT (isoOfTime t) = dateText y m d.
Proof.
  unfold isoOfTime. destruct (civilFromDays (day t)) as [[y m] d].
  intros Hy. unfold yearText.
  assert ((0 <=? y) && (y <=? 9999) = true) as ->
    by (apply andb_true_iff; split; apply Z.leb_le; lia).
  unfold dateText, pad4, pad3, pad2.
  cbv beta iota delta [append beforeT].
  rewrite !digitChar_not_T
    by (match goal with |- 0 <= ?a mod 10 <= 9 =>
          pose proof (Z.mod_pos_bound a 10); lia end).
  reflexivity.
Qed.

Lemma beforeT_parse s t : parse s = Fin t -> beforeT (isoOfTime t) = s.
Proof.
  intros Hp. pose proof (parse_isoOfTime s t Hp) as Hs.
  destruct (parse_range s t Hp) as (n & -> & Hn).
  pose proof (civilFromDays_range n Hn) as Hy.
  pose proof (beforeT_isoOfTime (n * msPerDay)) as Hb.
  pose proof (isoOfTime_slice10 (n * msPerDay)) as Hc.
  assert (day (n * msPerDay) = n) as Hday
    by (unfold day, msPerDay; apply Z.div_mul; lia).
  rewrite Hday in Hb, Hc.
  destruct (civilFromDays n) as [[y m] d]. cbn [fst] in Hy.
  by rewrite Hb, <- Hc.
Qed.

Lemma includesChar_comma_date s t : parse s = Fin t -> includesChar "," s = false.
Proof.
  intros Hp. destruct (parse_inv s t Hp)
    as (y1 & y2 & y3 & y4 & m1 & m2 & d1 & d2 & Hy & Hm & _ & _ & ->).
  cbn [includesChar].
  rewrite !digitChar_not_comma by lia. reflexivity.
Qed.

Lemma csvValue_Threw col row :
  (exists e, csvValue col row = Threw e) <-> badDateCell col row.
Proof.
  unfold csvValue, badDateCell.
  destruct (render col) as [f|].
  - destruct (isType col "number") eqn:Hn.
    + split; [intros [e He]; discriminate|].
      intros (_ & Hd & _). unfold isType in Hn, Hd.
      destruct (type col) as [ty|]; [|discriminate].
      apply String.eqb_eq in Hn, Hd. congruence.
    + destruct (isType col "date"); cbn [andb].
      * destruct (truthy (get row (key col))).
        -- destruct (Date.create (get row (key col))) as [|z]; simpl.
           ++ split; [|by eauto]. intros _. by eauto.
           ++ split; [intros [e He]; discriminate|]. by intros (_ & _ & _ & ?).
        -- split; [intros [e He]; discriminate|]. by intros (_ & _ & ? & _).
      * split; [intros [e He]; discriminate|]. by intros (_ & ? & _).
  - split; [intros [e He]; discriminate|]. intros ([? ?] & _). discriminate.
Qed.

End TableViewFacts.

(* ================================================================== *)
(** * Further properties of the analysis *)
(* ================================================================== *)

Section AnalysisViewProperties.
Import JS Date Calendar DateFacts Dashboard DashboardSpec DashboardFacts
  SortFacts OrderFacts AnalysisViewSpec AnalysisFacts.

(** X1: The analysis fails in two cases only: on no rows, where reading the
    earliest date throws a TypeError, and on rows of which one has a
    booking date that is no date, where the month of the row cannot be
    written and a RangeError is thrown.  On any other rows it yields a
    result; the loop over the days always ends. *)
Theorem analyze_outcome txs :
  match analyze txs with
  | Done r => txs <> [] /\ forall t, t ∈ txs -> time t <> NaN
  | Threw e =>
      (txs = [] /\
       e = TypeError "Cannot read properties of undefined (reading 'toISOString')")
      \/ ((exists t, t ∈ txs /\ time t = NaN) /\
          e = RangeError "Invalid time value")
  end.
Proof.
  destruct txs as [|t0 txs]; [left; done|].
  set (l := t0 :: txs).
  destruct (computeMonthlyStats l) as [stats|e] eqn:E1.
  - pose proof (computeMonthlyStats_Done_inv l stats E1) as Hall.
    destruct (toISOStringOf_dates l ltac:(done) Hall) as [[s Hs] [s' Hs']].
    destruct (allDailyBalancesOf_shape (dailyBalancesOf (sortedTransactions l)))
      as (a & k & _ & _ & Hshape).
    destruct (analyze_Done l stats _ s s' E1 Hshape Hs Hs') as (r & -> & _).
    done.
  - unfold analyze. rewrite E1. cbn [bind]. right.
    by apply computeMonthlyStats_Threw.
Qed.

End AnalysisViewProperties.

Section MonthlyProperties.
Import JS Date Calendar DateFacts Dashboard DashboardView DashboardSpec
  DashboardFacts SortFacts OrderFacts AnalysisViewSpec AnalysisFacts GroupFacts.

#[local] Arguments sumBy : simpl never.

(** X2: The monthly statistics have one entry for each month in which a row
    is booked, in strictly ascending order of the month keys; the entry of
    a month counts and sums the rows of that month and no others. *)
Theorem monthlyStats_by_month txs r :
  analyze txs = Done r ->
  Sorted (fun a b => strLt (month a) (month b) = true) (monthlyStats r) /\
  (forall s, s ∈ monthlyStats r ->
     (0 < monthCount s)%nat /\
     s = monthlyStatOf (month s, filter (fun t => monthOf t = month s) txs)) /\
  (forall t, t ∈ txs -> exists s, s ∈ monthlyStats r /\ month s = monthOf t).
Proof.
  intros Hr. destruct (monthlyStats_inv txs r Hr) as (Hall & -> & _).
  assert (map month (map monthlyStatOf (groupBy monthOf txs))
          = map fst (groupBy monthOf txs)) as Hkeys.
  { rewrite map_map. apply map_ext. intros e. apply monthlyStatOf_month. }
  split; [|split].
  - apply arraySort_keys_strict. rewrite Hkeys. apply groupBy_NoDup.
  - intros s Hs. unfold arraySort in Hs. rewrite stableSort_elem_of in Hs.
    apply list_elem_of_In, in_map_iff in Hs as ([k g] & <- & Hg).
    apply list_elem_of_In, groupBy_elem in Hg as [-> Hne].
    cbn [monthlyStatOf month monthCount]. split; [|done].
    destruct (filter _ txs); [done|]. cbn [length]. lia.
  - intros t Ht. destruct (groupBy_keys monthOf txs t Ht) as [g Hg].
    exists (monthlyStatOf (monthOf t, g)). split; [|done].
    unfold arraySort. rewrite stableSort_elem_of.
    apply list_elem_of_In, in_map_iff. exists (monthOf t, g).
    split; [done|]. by apply list_elem_of_In.
Qed.

Lemma monthlyStats_by_month_witness :
  exists r,
    analyze scenario = Done r /\
    Sorted (fun a b => strLt (month a) (month b) = true) (monthlyStats r) /\
    exists s, s ∈ monthlyStats r /\ month s = "2024-01".
Proof.
  assert (exists r, analyze scenario = Done r) as [r Hr].
  { eexists. vm_compute. reflexivity. }
  destruct (monthlyStats_by_month scenario r Hr) as (HS & _ & Hm).
  exists r. split; [done|]. split; [done|].
  destruct (Hm {| bookingDate := VStr "2024-01-01"; partnerName := VStr "Employer";
                  amount := 100 |}) as (s & Hs & Hmonth); [left|].
  exists s. split; [done|]. rewrite Hmonth. reflexivity.
Defined.



Section CashFlowRounding.
Import PrimFloat.
#[local] Open Scope float_scope.
#[local] Set Warnings "-inexact-float".

(** On amounts with decimals the cells of a row agree up to the rounding
    of binary64 only: for a month with the amounts 0.1, -0.3 and 0.2 the
    inflow less the outflow and the net flow are two different numbers
    close to 0. *)
Lemma cash_flow_rounding :
  Doubles.monthInflow64 [0.1; -0.3; 0.2] - Doubles.monthOutflow64 [0.1; -0.3; 0.2]
  = 5.5511151231257827e-17 /\
  Doubles.monthNet64 [0.1; -0.3; 0.2] = 2.7755575615628914e-17.
Proof. split; vm_compute; reflexivity. Qed.

End CashFlowRounding.

End MonthlyProperties.

Section RankingProperties.
Import JS Date Calendar DateFacts Dashboard DashboardView DashboardSpec
  DashboardFacts SortFacts OrderFacts AnalysisViewSpec AnalysisFacts GroupFacts
  RankingSpec RankingFacts.

#[local] Arguments sumBy : simpl never.

(** X4: The list of all transactions of the result holds every input row
    once, with the account holder's names relabelled, in ascending order
    of the booking date; rows of the same date keep the order of the
    input.  Relabelling a second time changes nothing. *)
Theorem allTransactions_chronological txs r :
  analyze txs = Done r ->
  allTransactions r ≡ₚ map consolidate txs /\
  Sorted (fun a b => timeZ a <= timeZ b) (allTransactions r) /\
  (forall z, filter (fun t => timeZ t = z) (allTransactions r)
             = map consolidate (filter (fun t => timeZ t = z) txs)) /\
  map consolidate (allTransactions r) = allTransactions r.
Proof.
  intros Hr. destruct (monthlyStats_inv txs r Hr) as (Hall & _ & _).
  destruct (analyze_Done_inv txs r Hr) as (? & ? & ? & ? & _ & _ & _ & _ & ->).
  cbn [allTransactions]. unfold consolidatedSortedTransactions.
  split; [|split; [|split]].
  - apply Permutation_map, sortedTransactions_Permutation.
  - apply Sorted_map.
    eapply Sorted_weaken; [|apply (sortedTransactions_Sorted_times txs Hall)].
    intros a b. cbn beta. by rewrite !timeZ_consolidate.
  - intros z. rewrite filter_map.
    rewrite (list_filter_iff _ (fun t => timeZ t = z))
      by (intros t; cbn beta; by rewrite timeZ_consolidate).
    by rewrite sortedTransactions_stable.
  - rewrite map_map. apply map_ext. intros t. apply consolidate_idemp.
Qed.

Lemma allTransactions_chronological_witness :
  exists r,
    analyze fourRows = Done r /\
    allTransactions r ≡ₚ map consolidate fourRows /\
    Sorted (fun a b => timeZ a <= timeZ b) (allTransactions r).
Proof.
  assert (exists r, analyze fourRows = Done r) as [r Hr].
  { eexists. vm_compute. reflexivity. }
  destruct (allTransactions_chronological fourRows r Hr) as (H1 & H2 & _).
  exists r. split; [exact Hr|]. split; [exact H1|exact H2].
Defined.


(** X6: The partners of the result are the first ten of the full ranking,
    which is in descending order of volume: they are in that order, and
    no partner left out has a larger volume than one that is listed. *)
Theorem partnerVolumes_top_ten txs r :
  analyze txs = Done r ->
  partnerVolumes r = take 10 (computePartnerVolumes txs) /\
  (length (partnerVolumes r) <= 10)%nat /\
  Sorted (fun a b => partnerTotalVolume b <= partnerTotalVolume a)
         (partnerVolumes r) /\
  forall p q, p ∈ partnerVolumes r -> q ∈ drop 10 (computePartnerVolumes txs) ->
              partnerTotalVolume q <= partnerTotalVolume p.
Proof.
  intros Hr.
  destruct (analyze_Done_inv txs r Hr) as (? & ? & ? & ? & _ & _ & _ & _ & ->).
  cbn [partnerVolumes].
  pose proof (orderByDesc_Sorted partnerTotalVolume
    (map partnerVolumeOf
       (groupBy (fun t => toString (partnerName t))
                (consolidatedSortedTransactions txs)))) as HS.
  fold (computePartnerVolumes txs) in HS.
  split; [done|]. split; [rewrite length_take; lia|].
  split; [by apply Sorted_take|].
  intros p q. by apply take_drop_Sorted_ge.
Qed.

Lemma partnerVolumes_top_ten_witness :
  exists r,
    analyze fourRows = Done r /\
    partnerVolumes r = take 10 (computePartnerVolumes fourRows) /\
    Sorted (fun a b => partnerTotalVolume b <= partnerTotalVolume a)
           (partnerVolumes r).
Proof.
  assert (exists r, analyze fourRows = Done r) as [r Hr].
  { eexists. vm_compute. reflexivity. }
  destruct (partnerVolumes_top_ten fourRows r Hr) as (H1 & _ & H2 & _).
  exists r. split; [exact Hr|]. split; [exact H1|exact H2].
Defined.

(** X7: The largest inflows are at most ten rows with a positive amount, in
    descending order of the amount; together with the positive rows that
    are left out they are all the positive rows, and no row left out has
    a larger amount than a row that is listed. *)
Theorem largestInflows_top_ten consolidated :
  exists shown rest,
    largestInflowsOf consolidated = map inflowEntry shown /\
    shown ++ rest ≡ₚ filter (fun t => 0 < amount t) consolidated /\
    length shown
    = Nat.min 10 (length (filter (fun t => 0 < amount t) consolidated)) /\
    Sorted (fun a b => amount b <= amount a) shown /\
    forall s x, s ∈ shown -> x ∈ rest -> amount x <= amount s.
Proof.
  set (positive := filter (fun t => 0 < amount t) consolidated).
  exists (take 10 (orderByDesc amount positive)),
         (drop 10 (orderByDesc amount positive)).
  pose proof (orderByDesc_Sorted amount positive) as HS.
  split; [done|]. split; [|split; [|split]].
  - rewrite take_drop. apply stableSort_Permutation.
  - rewrite length_take. unfold orderByDesc. by rewrite stableSort_length.
  - by apply Sorted_take.
  - intros s x. by apply take_drop_Sorted_ge.
Qed.

(** X8: The largest outflows are at most ten rows with a negative amount, from
    the most negative one upwards, each listed with the absolute value
    of its amount; together with the negative rows that are left out they
    are all the negative rows, and no row left out has a lower amount
    than a row that is listed. *)
Theorem largestOutflows_top_ten consolidated :
  exists shown rest,
    largestOutflowsOf consolidated = map outflowEntry shown /\
    shown ++ rest ≡ₚ filter (fun t => amount t < 0) consolidated /\
    length shown
    = Nat.min 10 (length (filter (fun t => amount t < 0) consolidated)) /\
    Sorted (fun a b => amount a <= amount b) shown /\
    Forall (fun e => 0 < txValue e) (largestOutflowsOf consolidated) /\
    forall s x, s ∈ shown -> x ∈ rest -> amount s <= amount x.
Proof.
  set (negative := filter (fun t => amount t < 0) consolidated).
  exists (take 10 (orderByAsc amount negative)),
         (drop 10 (orderByAsc amount negative)).
  pose proof (orderByAsc_Sorted amount negative) as HS.
  split; [done|]. split; [|split; [|split; [|split]]].
  - rewrite take_drop. apply stableSort_Permutation.
  - rewrite length_take. unfold orderByAsc. by rewrite stableSort_length.
  - by apply Sorted_take.
  - apply Forall_forall. intros e He. unfold largestOutflowsOf in He.
    apply list_elem_of_In, in_map_iff in He as (t & <- & Ht).
    apply list_elem_of_In, elem_of_take in Ht as (i & Ht & _).
    apply list_elem_of_lookup_2 in Ht. unfold orderByAsc in Ht.
    rewrite stableSort_elem_of in Ht. fold negative in Ht. subst negative.
    apply list_elem_of_filter in Ht as [Ht _]. cbn [txValue]. lia.
  - intros s x Hs Hx.
    pose proof (Sorted_app_le amount (take 10 (orderByAsc amount negative))
                  (drop 10 (orderByAsc amount negative))) as H.
    rewrite take_drop in H. by apply H.
Qed.

End RankingProperties.

Section BalanceProperties.
Import JS Date Calendar DateFacts Dashboard DashboardView DashboardSpec
  DashboardFacts SortFacts OrderFacts AnalysisViewSpec AnalysisFacts GroupFacts
  RankingSpec RankingFacts BalanceSpec BalanceFacts.

#[local] Arguments sumBy : simpl never.

(** X9: On rows with valid booking dates, in a host zone without summer time
    (where the daily series is the one of the zone UTC), the balance of
    every day of the daily series is the sum of the amounts of all rows
    booked on that day or before it, added in the order of their dates as
    the program adds them, and the day is flagged as having a transaction
    exactly when a row is booked on it. *)
Theorem dailyBalances_booked txs :
  txs <> [] -> validDates txs = true ->
  exists r,
    analyze txs = Done r /\
    (forall zone, fixedOffset zone ->
       allDailyBalancesOf zone (dailyBalancesOf (sortedTransactions txs))
       = Done (seriesOf r)) /\
    forall e, e ∈ dailyBalances r ->
      balance e = bookedUpTo (sortedTransactions txs) (textTime (date e)) /\
      (hasTransaction e = true <->
       exists t, t ∈ txs /\ bookingDate t = VStr (date e)).
Proof.
  intros Hne Hv.
  destruct (analyze_valid_full txs Hne Hv)
    as (r & t0 & t1 & a & b & Hr & H0 & H1 & E0 & E1 & Ha & Hab & Hb & Hd & _).
  exists r. split; [done|]. split.
  { intros zone Hz. rewrite (allDailyBalancesOf_fixedOffset zone _ Hz).
    by apply analyze_valid_series. }
  intros e He.
  pose proof (sortedTransactions_Permutation txs) as HP.
  assert (validDates (sortedTransactions txs) = true) as Hvs
    by (by apply (validDates_Permutation txs)).
  pose proof (sortedTransactions_Sorted txs Hv) as HS.
  set (l := sortedTransactions txs) in *.
  assert (0 = bookedUpTo l ((a - 1) * msPerDay)) as Hbase.
  { unfold bookedUpTo. rewrite filter_none; [done|].
    apply Forall_forall. intros t Ht.
    pose proof (Sorted_head_min timeZ l t0 HS H0 t Ht).
    unfold msPerDay in *. lia. }
  pose proof (carryForward_bookedUpTo l (Z.to_nat (b - a + 1)) Hvs HS a 0
                Ha ltac:(lia) Hbase) as Hall.
  rewrite Hd in He. apply list_elem_of_In, in_map_iff in He as (p & <- & Hp).
  rewrite Forall_forall in Hall.
  destruct (Hall p (proj2 (list_elem_of_In _ _) Hp)) as (n & Hn & Hp1 & Hp2).
  cbn [dailyEntry date balance hasTransaction]. rewrite Hp1, Hp2.
  assert (firstDay <= n <= lastDay) as Hrange by lia.
  rewrite (textTime_parse _ _ (parse_isoDay n Hrange)).
  split; [done|].
  rewrite bool_decide_eq_true, dailyBalancesOf_lookup. split.
  - intros (t & Ht & Hk). exists t. split; [by rewrite <- HP|].
    rewrite HP in Ht.
    destruct (valid_time t (validDates_elem _ _ Hv Ht)) as (_ & _ & ->).
    by rewrite Hk.
  - intros (t & Ht & Hk). exists t. split; [by rewrite HP|].
    unfold keyOf. by rewrite Hk.
Qed.

Lemma dailyBalances_booked_witness :
  exists r,
    analyze fourRows = Done r /\
    (forall zone, fixedOffset zone ->
       allDailyBalancesOf zone (dailyBalancesOf (sortedTransactions fourRows))
       = Done (seriesOf r)) /\
    forall e, e ∈ dailyBalances r ->
      balance e = bookedUpTo (sortedTransactions fourRows) (textTime (date e)) /\
      (hasTransaction e = true <->
       exists t, t ∈ fourRows /\ bookingDate t = VStr (date e)).
Proof.
  apply dailyBalances_booked; [discriminate|reflexivity].
Defined.

(** X10: On rows with valid booking dates, in a host zone without summer time
    (where the daily series is the one of the zone UTC), the date range of
    the basic statistics runs from the date of the first entry of the
    daily series to the date of its last entry; a row is booked on both
    days, and every row is booked between them. *)
Theorem dateRange_series txs :
  txs <> [] -> validDates txs = true ->
  exists r first final,
    analyze txs = Done r /\
    (forall zone, fixedOffset zone ->
       allDailyBalancesOf zone (dailyBalancesOf (sortedTransactions txs))
       = Done (seriesOf r)) /\
    head (dailyBalances r) = Some first /\
    last (dailyBalances r) = Some final /\
    dateRangeStart (basicStats r) = date first /\
    dateRangeEnd (basicStats r) = date final /\
    hasTransaction first = true /\ hasTransaction final = true /\
    forall t, t ∈ txs ->
      textTime (date first) <= timeZ t <= textTime (date final).
Proof.
  intros Hne Hv.
  destruct (analyze_valid_full txs Hne Hv)
    as (r & t0 & t1 & a & b & Hr & H0 & H1 & E0 & E1 & Ha & Hab & Hb & Hd & Hs & He).
  pose proof (sortedTransactions_Permutation txs) as HP.
  assert (validDates (sortedTransactions txs) = true) as Hvs
    by (by apply (validDates_Permutation txs)).
  pose proof (sortedTransactions_Sorted txs Hv) as HS.
  pose proof (analyze_valid_series txs r Hne Hv Hr) as Hloop.
  set (l := sortedTransactions txs) in *.
  set (m := dailyBalancesOf l) in *.
  assert (t0 ∈ l) as Ht0 by (destruct l; [done|]; injection H0 as ->; left).
  assert (t1 ∈ l) as Ht1.
  { apply last_Some in H1 as [l' ->]. apply elem_of_app. right. left. }
  assert (forall t n, t ∈ l -> timeZ t = n * msPerDay -> firstDay <= n <= lastDay ->
            is_Some (m !! isoDay n)) as Hrec.
  { intros t n Ht Et Hn. apply dailyBalancesOf_lookup. exists t. split; [done|].
    apply keyOf_day; [by apply (validDates_elem l)|done..]. }
  destruct (Z.to_nat (b - a + 1)) as [|k] eqn:Ek; [lia|].
  destruct (carryForward_app m 0 (daysFrom a k) [a + Z.of_nat k]) as [b1 Happ].
  exists r, (dailyEntry m (isoDay a, default 0 (m !! isoDay a))),
         (dailyEntry m (isoDay b, default b1 (m !! isoDay b))).
  split; [done|]. split.
  { intros zone Hz. by rewrite (allDailyBalancesOf_fixedOffset zone m Hz). }
  rewrite Hd.
  split; [reflexivity|]. split.
  { rewrite last_map, daysFrom_snoc, Happ. cbn [carryForward].
    rewrite last_snoc. replace (a + Z.of_nat k) with b by lia. reflexivity. }
  cbn [dailyEntry date hasTransaction fst snd].
  split; [done|]. split; [done|].
  split; [apply bool_decide_eq_true; by apply (Hrec t0); [| |lia]|].
  split; [apply bool_decide_eq_true; by apply (Hrec t1); [| |lia]|].
  intros t Ht. rewrite <- HP in Ht.
  rewrite (textTime_parse _ _ (parse_isoDay a ltac:(lia))).
  rewrite (textTime_parse _ _ (parse_isoDay b ltac:(lia))).
  rewrite <- E0, <- E1. split.
  - by apply (Sorted_head_min timeZ l t0).
  - by apply (Sorted_last_max timeZ l t1).
Qed.

Lemma dateRange_series_witness :
  exists r first final,
    analyze fourRows = Done r /\
    (forall zone, fixedOffset zone ->
       allDailyBalancesOf zone (dailyBalancesOf (sortedTransactions fourRows))
       = Done (seriesOf r)) /\
    head (dailyBalances r) = Some first /\
    last (dailyBalances r) = Some final /\
    dateRangeStart (basicStats r) = date first /\
    dateRangeEnd (basicStats r) = date final /\
    hasTransaction first = true /\ hasTransaction final = true /\
    forall t, t ∈ fourRows ->
      textTime (date first) <= timeZ t <= textTime (date final).
Proof.
  apply dateRange_series; [discriminate|reflexivity].
Defined.

End BalanceProperties.

Section PeriodProperties.
Import JS Date Calendar DateFacts Dashboard DashboardView DashboardSpec
  DashboardFacts SortFacts OrderFacts AnalysisViewSpec AnalysisFacts GroupFacts
  RankingSpec RankingFacts BalanceSpec BalanceFacts PeriodFacts.

#[local] Arguments sumBy : simpl never.

(** X11: Every entry of the daily series of a result has a quarter from 1 to 4,
    so that the views of the four quarters share out the series: each
    entry is in exactly one of them.  The range "all", and any range that
    is none of the four quarters, shows the whole series. *)
Theorem filteredDailyData_quarters txs r :
  analyze txs = Done r ->
  (forall e, e ∈ dailyBalances r -> exists q, quarter e = Fin q /\ 1 <= q <= 4) /\
  filteredDailyData "q1" (dailyBalances r) ++ filteredDailyData "q2" (dailyBalances r)
    ++ filteredDailyData "q3" (dailyBalances r)
    ++ filteredDailyData "q4" (dailyBalances r)
  ≡ₚ dailyBalances r /\
  (forall timeRange, timeRange ∉ ["q1"; "q2"; "q3"; "q4"] ->
     filteredDailyData timeRange (dailyBalances r) = dailyBalances r).
Proof.
  intros Hr. destruct (analyze_series txs r Hr) as (a & k & Ha & Hk & Hd).
  assert (forall e, e ∈ dailyBalances r ->
            exists q, quarter e = Fin q /\ 1 <= q <= 4) as Hq.
  { intros e He. rewrite Hd in He.
    apply list_elem_of_In, in_map_iff in He as (p & <- & Hp).
    assert (p.1 ∈ map isoDay (daysFrom a k)) as Hkey.
    { rewrite <- (carryForward_keys (dailyBalancesOf (sortedTransactions txs)) 0).
      apply list_elem_of_In, in_map. exact Hp. }
    apply list_elem_of_In, in_map_iff in Hkey as (n & Hn & Hin).
    apply list_elem_of_In, daysFrom_elem in Hin.
    cbn [dailyEntry quarter]. rewrite <- Hn. apply quarterOf_isoDay. lia. }
  split; [done|]. split.
  - apply quarters_Permutation. by apply Forall_forall.
  - intros timeRange Hnot. unfold filteredDailyData. apply filter_all.
    apply Forall_forall. intros e _. unfold inTimeRange.
    destruct (String.eqb timeRange "all"); [done|].
    repeat match goal with
    | |- context [String.eqb timeRange ?s] =>
        destruct (String.eqb_spec timeRange s) as [->|_];
        [exfalso; apply Hnot; set_solver|]
    end. done.
Qed.

Lemma filteredDailyData_quarters_witness :
  exists r,
    analyze fourRows = Done r /\
    filteredDailyData "q1" (dailyBalances r) ++ filteredDailyData "q2" (dailyBalances r)
      ++ filteredDailyData "q3" (dailyBalances r)
      ++ filteredDailyData "q4" (dailyBalances r)
    ≡ₚ dailyBalances r.
Proof.
  assert (exists r, analyze fourRows = Done r) as [r Hr].
  { eexists. vm_compute. reflexivity. }
  destruct (filteredDailyData_quarters fourRows r Hr) as (_ & H & _).
  exists r. split; [exact Hr|exact H].
Defined.

End PeriodProperties.

Section BucketProperties.
Import JS Date Calendar DateFacts Dashboard DashboardView DashboardSpec
  DashboardFacts SortFacts OrderFacts AnalysisViewSpec AnalysisFacts GroupFacts
  RankingSpec RankingFacts BalanceSpec BalanceFacts PeriodFacts BucketSpec
  BucketFacts.

#[local] Arguments sumBy : simpl never.

(** X13: The monthly balances of a result have one entry for each month of
    the daily series, in strictly ascending order of the month keys; the
    entry of a month is computed from the balances of exactly the days
    whose date begins with the key of the month, in the order of the
    series. *)
Theorem monthlyBalances_by_month txs r :
  analyze txs = Done r ->
  Sorted (fun a b => strLt (period a) (period b) = true) (monthlyBalances r) /\
  (forall p, p ∈ monthlyBalances r ->
     p = periodBalanceOf
           (period p,
            map balance (filter (fun e => slice0 7 (date e) = period p)
                                (dailyBalances r)))) /\
  (forall e, e ∈ dailyBalances r ->
     exists p, p ∈ monthlyBalances r /\ period p = slice0 7 (date e)).
Proof.
  intros Hr. destruct (analyze_inv txs r Hr) as (all & Hall & _ & _ & _ & Hm).
  destruct (analyze_series txs r Hr) as (a & k & Ha & Hk & Hd).
  destruct (allDailyBalancesOf_shape (dailyBalancesOf (sortedTransactions txs)))
    as (a' & k' & Ha' & Hk' & Hshape).
  rewrite Hall in Hshape. injection Hshape as Eall.
  assert (dailyBalances r
          = map (dailyEntry (dailyBalancesOf (sortedTransactions txs))) all) as Hd'.
  { destruct (analyze_inv txs r Hr) as (all2 & Hall2 & Hd2 & _).
    rewrite Hall in Hall2. injection Hall2 as <-.
    rewrite Hd2, Eall. by apply formattedDailyDataOf_days. }
  destruct (bucketsOf_groupBy all) as [_ Hb].
  destruct (avgBalancesOf_groups (slice0 7) all) as (HS & Hp & He).
  rewrite <- Hb, <- Hm in HS, Hp, He.
  split; [done|]. split.
  - intros p Hin. destruct (Hp p Hin) as [Ep _].
    rewrite Hd', (filter_dailyEntry _ all (slice0 7)).
    exact Ep.
  - intros e Hin. rewrite Hd' in Hin.
    apply list_elem_of_In, in_map_iff in Hin as (x & <- & Hx).
    apply list_elem_of_In in Hx. apply (He x Hx).
Qed.

Lemma monthlyBalances_by_month_witness :
  exists r,
    analyze fourRows = Done r /\
    Sorted (fun a b => strLt (period a) (period b) = true) (monthlyBalances r) /\
    map period (monthlyBalances r) = ["2024-01"; "2024-02"].
Proof.
  assert (exists r, analyze fourRows = Done r
                    /\ map period (monthlyBalances r) = ["2024-01"; "2024-02"])
    as (r & Hr & Hp).
  { eexists. split; [vm_compute; reflexivity|reflexivity]. }
  destruct (monthlyBalances_by_month fourRows r Hr) as (H & _).
  exists r. split; [exact Hr|]. split; [exact H|exact Hp].
Defined.

(** X14: The weekly balances of a result have one entry for each week key of
    the daily series, in strictly ascending order of the keys; the entry
    of a week is computed from the balances of exactly the days whose
    week key, as [getWeekNumber] and [formatWeekKey] give it, is the key
    of the week. *)
Theorem weeklyBalances_by_week txs r :
  analyze txs = Done r ->
  Sorted (fun a b => strLt (period a) (period b) = true) (weeklyBalances r) /\
  (forall p, p ∈ weeklyBalances r ->
     p = periodBalanceOf
           (period p,
            map balance (filter (fun e => weekKeyOf (date e) = period p)
                                (dailyBalances r)))) /\
  (forall e, e ∈ dailyBalances r ->
     exists p, p ∈ weeklyBalances r /\ period p = weekKeyOf (date e)).
Proof.
  intros Hr. destruct (analyze_inv txs r Hr) as (all & Hall & Hd2 & _ & Hw & _).
  destruct (allDailyBalancesOf_shape (dailyBalancesOf (sortedTransactions txs)))
    as (a' & k' & Ha' & Hk' & Hshape).
  rewrite Hall in Hshape. injection Hshape as Eall.
  assert (dailyBalances r
          = map (dailyEntry (dailyBalancesOf (sortedTransactions txs))) all) as Hd'.
  { rewrite Hd2, Eall. by apply formattedDailyDataOf_days. }
  destruct (bucketsOf_groupBy all) as [Hb _].
  destruct (avgBalancesOf_groups weekKeyOf all) as (HS & Hp & He).
  rewrite <- Hb, <- Hw in HS, Hp, He.
  split; [done|]. split.
  - intros p Hin. destruct (Hp p Hin) as [Ep _].
    rewrite Hd', (filter_dailyEntry _ all weekKeyOf).
    exact Ep.
  - intros e Hin. rewrite Hd' in Hin.
    apply list_elem_of_In, in_map_iff in Hin as (x & <- & Hx).
    apply list_elem_of_In in Hx. apply (He x Hx).
Qed.

Lemma weeklyBalances_by_week_witness :
  exists r,
    analyze scenario = Done r /\
    Sorted (fun a b => strLt (period a) (period b) = true) (weeklyBalances r) /\
    map period (weeklyBalances r) = ["2024-W01"].
Proof.
  assert (exists r, analyze scenario = Done r
                    /\ map period (weeklyBalances r) = ["2024-W01"])
    as (r & Hr & Hp).
  { eexists. split; [vm_compute; reflexivity|reflexivity]. }
  destruct (weeklyBalances_by_week scenario r Hr) as (H & _).
  exists r. split; [exact Hr|]. split; [exact H|exact Hp].
Defined.

(** X12: In every weekly and every monthly bucket of a result, the least and
    the greatest balance are balances of days of the bucket (the days of
    the daily series that have the key of the bucket), and the balance of
    every day of the bucket lies between the two. *)
Theorem periodBalances_bounds txs r :
  analyze txs = Done r ->
  (forall p, p ∈ weeklyBalances r ->
     extremesOf p (filter (fun e => weekKeyOf (date e) = period p)
                          (dailyBalances r))) /\
  (forall p, p ∈ monthlyBalances r ->
     extremesOf p (filter (fun e => slice0 7 (date e) = period p)
                          (dailyBalances r))).
Proof.
  intros Hr. destruct (analyze_inv txs r Hr) as (all & Hall & Hd2 & _ & Hw & Hm).
  destruct (allDailyBalancesOf_shape (dailyBalancesOf (sortedTransactions txs)))
    as (a' & k' & Ha' & Hk' & Hshape).
  rewrite Hall in Hshape. injection Hshape as Eall.
  assert (dailyBalances r
          = map (dailyEntry (dailyBalancesOf (sortedTransactions txs))) all) as Hd'.
  { rewrite Hd2, Eall. by apply formattedDailyDataOf_days. }
  destruct (bucketsOf_groupBy all) as [Hbw Hbm].
  rewrite Hw, Hm, Hbw, Hbm, Hd'.
  split; intros p Hp.
  - destruct (bucket_of_days weekKeyOf
                (dailyBalancesOf (sortedTransactions txs)) all p Hp) as [Ep Hne].
    rewrite Ep at 1. by apply periodBalanceOf_extremes.
  - destruct (bucket_of_days (slice0 7)
                (dailyBalancesOf (sortedTransactions txs)) all p Hp) as [Ep Hne].
    rewrite Ep at 1. by apply periodBalanceOf_extremes.
Qed.

Lemma periodBalances_bounds_witness :
  exists r,
    analyze fourRows = Done r /\
    map (fun p => (min p, max p)) (monthlyBalances r)
    = [(Some 30, Some 100); (Some (-40), Some (-40))] /\
    (forall p, p ∈ weeklyBalances r ->
       extremesOf p (filter (fun e => weekKeyOf (date e) = period p)
                            (dailyBalances r))) /\
    (forall p, p ∈ monthlyBalances r ->
       extremesOf p (filter (fun e => slice0 7 (date e) = period p)
                            (dailyBalances r))).
Proof.
  assert (exists r, analyze fourRows = Done r
                    /\ map (fun p => (min p, max p)) (monthlyBalances r)
                       = [(Some 30, Some 100); (Some (-40), Some (-40))])
    as (r & Hr & Hm).
  { eexists. split; [vm_compute; reflexivity|reflexivity]. }
  exists r. split; [exact Hr|]. split; [exact Hm|].
  exact (periodBalances_bounds fourRows r Hr).
Defined.

End BucketProperties.

Section SizeProperties.
Import JS Date Calendar DateFacts Dashboard DashboardView DashboardSpec
  DashboardFacts SortFacts OrderFacts AnalysisViewSpec AnalysisFacts GroupFacts
  RankingSpec RankingFacts BalanceSpec BalanceFacts PeriodFacts WeekSpec
  WeekFacts BucketFacts SizeSpec SizeFacts.

(** X15: Every monthly bucket of a result counts at least one and at most 31
    days, and its count is the number of days of the daily series whose
    date begins with the key of the month. *)
Theorem monthlyBalances_days txs r :
  analyze txs = Done r ->
  forall p, p ∈ monthlyBalances r ->
    (1 <= days p <= 31)%nat /\
    days p = length (filter (fun e => slice0 7 (date e) = period p)
                            (dailyBalances r)).
Proof.
  intros Hr p Hp.
  destruct (analyze_inv txs r Hr) as (all & Hall & Hd2 & _ & _ & Hm).
  destruct (allDailyBalancesOf_shape (dailyBalancesOf (sortedTransactions txs)))
    as (a & k & Ha & Hk & Hshape).
  rewrite Hall in Hshape. injection Hshape as Eall.
  assert (dailyBalances r
          = map (dailyEntry (dailyBalancesOf (sortedTransactions txs))) all) as Hd'.
  { rewrite Hd2, Eall. by apply formattedDailyDataOf_days. }
  destruct (bucketsOf_groupBy all) as [_ Hb].
  rewrite Hm, Hb, Eall in Hp.
  destruct (bucket_days (slice0 7) _ a k p Hp) as [Hdays Hpos].
  remember (filter (fun n => slice0 7 (isoDay n) = period p) (daysFrom a k))
    as D eqn:ED.
  assert (NoDup D) as HND by (rewrite ED; apply NoDup_filter, daysFrom_NoDup).
  assert (forall n, n ∈ D -> firstDay <= n <= lastDay
                              /\ slice0 7 (isoDay n) = period p) as HD.
  { intros n Hn. rewrite ED in Hn. apply list_elem_of_filter in Hn as [Hkey Hn].
    apply daysFrom_elem in Hn. split; [lia|done]. }
  split; [split; [done|]|].
  - assert (exists n0, n0 ∈ D) as [n0 H0]
      by (destruct D; [cbn in Hdays; lia|eexists; left]).
    rewrite Hdays.
    destruct (HD n0 H0) as [R0 K0].
    apply (NoDup_window D (firstOfMonth n0) 31).
    + exact HND.
    + intros n Hn. destruct (HD n Hn) as [Rn Kn].
      rewrite <- (monthKey_same_month n n0 Rn R0) by (by rewrite Kn, K0).
      apply firstOfMonth_near.
  - rewrite Hdays, ED.
    rewrite (length_filter_key isoDay), (length_filter_key date).
    rewrite Hd', Eall, map_map. cbn [dailyEntry date].
    change (map (fun x : string * Z => x.1)) with (map (@fst string Z)).
    by rewrite carryForward_keys.
Qed.

Lemma monthlyBalances_days_witness :
  exists r,
    analyze fourRows = Done r /\
    map period (monthlyBalances r) = ["2024-01"; "2024-02"] /\
    map days (monthlyBalances r) = [31; 1]%nat /\
    forall p, p ∈ monthlyBalances r ->
      (1 <= days p <= 31)%nat /\
      days p = length (filter (fun e => slice0 7 (date e) = period p)
                              (dailyBalances r)).
Proof.
  assert (exists r, analyze fourRows = Done r
                    /\ map period (monthlyBalances r) = ["2024-01"; "2024-02"]
                    /\ map days (monthlyBalances r) = [31; 1]%nat)
    as (r & Hr & Hp & Hn).
  { eexists. split; [vm_compute; reflexivity|split; reflexivity]. }
  exists r. split; [exact Hr|]. split; [exact Hp|]. split; [exact Hn|].
  exact (monthlyBalances_days fourRows r Hr).
Defined.

(** X16: When every day of the daily series is 4 January of the year 100 or
    later, every weekly bucket of a result counts at least one and at most
    seven days, and its count is the number of days of the series that
    have the week key of the bucket. *)
Theorem weeklyBalances_days txs r :
  analyze txs = Done r ->
  (forall e, e ∈ dailyBalances r -> textTime "0100-01-04" <= textTime (date e)) ->
  forall p, p ∈ weeklyBalances r ->
    (1 <= days p <= 7)%nat /\
    days p = length (filter (fun e => weekKeyOf (date e) = period p)
                            (dailyBalances r)).
Proof.
  intros Hr Hfrom p Hp.
  destruct (analyze_inv txs r Hr) as (all & Hall & Hd2 & _ & Hw & _).
  destruct (allDailyBalancesOf_shape (dailyBalancesOf (sortedTransactions txs)))
    as (a & k & Ha & Hk & Hshape).
  rewrite Hall in Hshape. injection Hshape as Eall.
  assert (dailyBalances r
          = map (dailyEntry (dailyBalancesOf (sortedTransactions txs))) all) as Hd'.
  { rewrite Hd2, Eall. by apply formattedDailyDataOf_days. }
  destruct (bucketsOf_groupBy all) as [Hb _].
  rewrite Hw, Hb, Eall in Hp.
  destruct (bucket_days weekKeyOf _ a k p Hp) as [Hdays Hpos].
  remember (filter (fun n => weekKeyOf (isoDay n) = period p) (daysFrom a k))
    as D eqn:ED.
  assert (NoDup D) as HND by (rewrite ED; apply NoDup_filter, daysFrom_NoDup).
  assert (textTime "0100-01-04" = makeDay 100 1 4 * msPerDay) as E4
    by (vm_compute; reflexivity).
  assert (forall n, n ∈ daysFrom a k -> makeDay 100 1 4 <= n) as Hlate.
  { intros n Hn.
    assert (isoDay n ∈ map date (dailyBalances r)) as Hin.
    { rewrite Hd', Eall, map_map. cbn [dailyEntry date].
      change (map (fun x : string * Z => x.1)) with (map (@fst string Z)).
      rewrite carryForward_keys. apply list_elem_of_In, in_map.
      by apply list_elem_of_In. }
    apply list_elem_of_In, in_map_iff in Hin as (e & He & Hin).
    apply list_elem_of_In, Hfrom in Hin. rewrite He, E4 in Hin.
    apply daysFrom_elem in Hn.
    unfold textTime in Hin. rewrite parse_isoDay in Hin by lia.
    unfold msPerDay in Hin. lia. }
  assert (forall n, n ∈ D -> firstDay <= n <= lastDay /\ makeDay 100 1 4 <= n
                              /\ weekKeyOf (isoDay n) = period p) as HD.
  { intros n Hn. rewrite ED in Hn. apply list_elem_of_filter in Hn as [Hkey Hn].
    pose proof (Hlate n Hn). apply daysFrom_elem in Hn. split; [lia|done]. }
  split; [split; [done|]|].
  - assert (exists n0, n0 ∈ D) as [n0 H0]
      by (destruct D; [cbn in Hdays; lia|eexists; left]).
    rewrite Hdays.
    destruct (HD n0 H0) as (R0 & L0 & K0).
    apply (NoDup_window D (thursdayOf n0 - 3) 7).
    + exact HND.
    + intros n Hn. destruct (HD n Hn) as (Rn & Ln & Kn).
      rewrite <- (weekKey_same_week n n0 Rn R0 Ln L0) by (by rewrite Kn, K0).
      pose proof (thursdayOf_near n). lia.
  - rewrite Hdays, ED.
    rewrite (length_filter_key isoDay), (length_filter_key date).
    rewrite Hd', Eall, map_map. cbn [dailyEntry date].
    change (map (fun x : string * Z => x.1)) with (map (@fst string Z)).
    by rewrite carryForward_keys.
Qed.

Lemma weeklyBalances_days_witness :
  exists r,
    analyze fourRows = Done r /\
    map days (weeklyBalances r) = [7; 7; 7; 7; 4]%nat /\
    forall p, p ∈ weeklyBalances r ->
      (1 <= days p <= 7)%nat /\
      days p = length (filter (fun e => weekKeyOf (date e) = period p)
                              (dailyBalances r)).
Proof.
  assert (exists r, analyze fourRows = Done r
                    /\ map days (weeklyBalances r) = [7; 7; 7; 7; 4]%nat
                    /\ forallb (fun e => textTime "0100-01-04" <=? textTime (date e))
                               (dailyBalances r) = true)
    as (r & Hr & Hn & Hf).
  { eexists. split; [vm_compute; reflexivity|split; vm_compute; reflexivity]. }
  exists r. split; [exact Hr|]. split; [exact Hn|].
  apply (weeklyBalances_days fourRows r Hr).
  intros e He. rewrite forallb_forall in Hf.
  apply Z.leb_le, Hf, list_elem_of_In, He.
Defined.

End SizeProperties.

Section WeekProperties.
Import JS Date Calendar DateFacts Dashboard DashboardSpec DashboardFacts
  WeekSpec WeekFacts.

(** X17: For a date whose week has its Thursday in the year 100 or later,
    [getWeekNumber] yields the ISO 8601 week: the year is the year of the
    Thursday of the week of the date, and the week is counted from the
    week that holds the first Thursday of that year; it is a number from 1
    to 53. *)
Theorem getWeekNumber_iso n :
  firstDay <= n <= lastDay -> 100 <= yearOfDay (thursdayOf n) ->
  getWeekNumber (isoDay n)
  = (Fin (yearOfDay (thursdayOf n)), Fin (isoWeekOf n)) /\
  1 <= isoWeekOf n <= 53 /\
  weekDay (thursdayOf n * msPerDay) = 4 /\
  n - 3 <= thursdayOf n <= n + 3.
Proof. apply getWeekNumber_isoDay. Qed.

Lemma getWeekNumber_iso_witness :
  getWeekNumber "2024-12-30" = (Fin 2025, Fin 1).
Proof.
  destruct (getWeekNumber_iso 20087 ltac:(vm_compute; split; discriminate)
              ltac:(vm_compute; discriminate)) as (H & _).
  exact H.
Defined.

End WeekProperties.

Section InsightProperties.
Import JS Date Calendar DateFacts Dashboard DashboardView DashboardSpec
  DashboardFacts SortFacts OrderFacts AnalysisViewSpec AnalysisFacts GroupFacts
  RankingSpec RankingFacts BalanceSpec BalanceFacts PeriodFacts InsightSpec
  InsightFacts.

#[local] Arguments sumBy : simpl never.

(** X18: The render of "Key Insights" throws, on the ending balance, exactly
    when the daily series of the result is empty.  This never happens for
    rows with valid booking dates; it does happen for results of the
    analysis, as for a single row with a blank booking date. *)
Theorem keyInsights_throws_iff txs r :
  analyze txs = Done r ->
  ((exists e, keyInsights r = Threw e) <-> dailyBalances r = []) /\
  (dailyBalances r = [] ->
   keyInsights r
   = Threw (TypeError "Cannot read properties of undefined (reading 'balance')")) /\
  (txs <> [] -> validDates txs = true ->
   exists k after, keyInsights r = Done (k, after)).
Proof.
  intros Hr. rewrite keyInsights_eq. cbv zeta.
  split; [|split].
  - destruct (dailyBalances r) as [|e l] eqn:E.
    + split; [done|]. intros _. by eexists.
    + destruct (last_is_Some (e :: l)) as [x ->]; [done|].
      split; [intros [? ?]; discriminate|done].
  - by intros ->.
  - intros Hne Hv.
    destruct (analyze_valid_full txs Hne Hv)
      as (r' & t0 & t1 & a & b & Hr' & _ & _ & _ & _ & Ha & Hab & Hb & Hd & _).
    rewrite Hr in Hr'. injection Hr' as <-.
    destruct (last_is_Some (dailyBalances r)) as [x ->]; [|by eexists _, _].
    rewrite Hd. destruct (Z.to_nat (b - a + 1)) eqn:Ek; [lia|]. done.
Qed.

Lemma keyInsights_throws_iff_witness :
  exists r,
    analyze [blankDateRow] = Done r /\
    keyInsights r
    = Threw (TypeError "Cannot read properties of undefined (reading 'balance')").
Proof.
  assert (exists r, analyze [blankDateRow] = Done r /\ dailyBalances r = [])
    as (r & Hr & Hd).
  { eexists. split; [vm_compute; reflexivity|reflexivity]. }
  destruct (keyInsights_throws_iff [blankDateRow] r Hr) as (_ & H & _).
  exists r. split; [exact Hr|exact (H Hd)].
Defined.

(** X19: A render of "Key Insights" sorts three arrays of the state in place
    and leaves them in the order of its last sort: the monthly statistics
    in descending order of the count, the partners in descending order of
    the count, the monthly balances in ascending order of the mean.  The
    arrays hold the entries they held; the rest of the state is as it
    was. *)
Theorem keyInsights_state analysis k after :
  keyInsights analysis = Done (k, after) ->
  monthlyStats after = monthlyStatsAfter (monthlyStats analysis) /\
  partnerVolumes after = partnerVolumesAfter (partnerVolumes analysis) /\
  monthlyBalances after = monthlyBalancesAfter (monthlyBalances analysis) /\
  monthlyStats after ≡ₚ monthlyStats analysis /\
  Sorted (fun a b => (monthCount b <= monthCount a)%nat) (monthlyStats after) /\
  partnerVolumes after ≡ₚ partnerVolumes analysis /\
  Sorted (fun a b => (count b <= count a)%nat) (partnerVolumes after) /\
  monthlyBalances after ≡ₚ monthlyBalances analysis /\
  Sorted (fun a b => exceeds (avgBalance a) (avgBalance b) = false)
         (monthlyBalances after) /\
  basicStats after = basicStats analysis /\
  dailyBalances after = dailyBalances analysis /\
  weeklyBalances after = weeklyBalances analysis /\
  yearlyBalance after = yearlyBalance analysis /\
  allTransactions after = allTransactions analysis.
Proof.
  rewrite keyInsights_eq. cbv zeta.
  destruct (last (dailyBalances analysis)) as [e|]; [|discriminate].
  intros [= <- <-].
  cbn [monthlyStats partnerVolumes monthlyBalances basicStats dailyBalances
       weeklyBalances yearlyBalance allTransactions].
  split; [done|]. split; [done|]. split; [done|].
  split; [by rewrite !arraySort_Permutation|].
  split.
  { eapply Sorted_weaken; [|apply arraySort_descending_Sorted].
    intros a b. cbn beta. lia. }
  split; [unfold partnerVolumesAfter; by rewrite arraySort_Permutation|].
  split.
  { eapply Sorted_weaken; [|apply arraySort_descending_Sorted].
    intros a b. cbn beta. lia. }
  split.
  { unfold sortByAvgAsc, sortByAvgDesc. by rewrite !stableSort_Permutation. }
  split; [apply sortByAvgAsc_Sorted|done].
Qed.

Lemma keyInsights_state_witness :
  exists r k after,
    analyze fourRows = Done r /\ keyInsights r = Done (k, after) /\
    map month (monthlyStats r) = ["2024-01"; "2024-02"] /\
    monthlyStats after ≡ₚ monthlyStats r /\
    Sorted (fun a b => (monthCount b <= monthCount a)%nat) (monthlyStats after).
Proof.
  assert (exists r, analyze fourRows = Done r
                    /\ map month (monthlyStats r) = ["2024-01"; "2024-02"])
    as (r & Hr & Hm).
  { eexists. split; [vm_compute; reflexivity|reflexivity]. }
  destruct (keyInsights_throws_iff fourRows r Hr) as (_ & _ & H).
  destruct (H ltac:(discriminate) ltac:(reflexivity)) as (k & after & Hk).
  destruct (keyInsights_state r k after Hk) as (_ & _ & _ & H1 & H2 & _).
  exists r, k, after. repeat (split; [assumption|]). assumption.
Defined.

(** X20: What a render shows.  Each item on a month names a month of the
    state that is greatest for its measure (least, for the most negative
    month), with the measure of that very month, although the name and
    the amount come from two calls of [sort]; so does the most frequent
    partner.  The ending balance is the balance of the last day, and the
    top partner by volume is the first partner of the state as the
    render finds it. *)
Theorem keyInsights_items analysis k after :
  keyInsights analysis = Done (k, after) ->
  namesGreatest month monthInflow monthInflow
    (monthlyStats analysis) (highestInflows k) /\
  namesGreatest month monthOutflow monthOutflow
    (monthlyStats analysis) (largestOutflows k) /\
  namesGreatest month monthNet monthNet
    (monthlyStats analysis) (mostPositiveMonth k) /\
  namesGreatest month monthNet (fun s => - monthNet s)
    (monthlyStats analysis) (mostNegativeMonth k) /\
  namesGreatest month monthCount (fun s => Z.of_nat (monthCount s))
    (monthlyStats analysis) (frequencyPeak k) /\
  namesGreatest name count (fun p => Z.of_nat (count p))
    (partnerVolumes analysis) (mostFrequentPartner k) /\
  (exists e, last (dailyBalances analysis) = Some e /\ endingBalance k = balance e) /\
  topPartnerByVolume k
  = (fun p => (name p, partnerTotalVolume p)) <$> head (partnerVolumes analysis).
Proof.
  rewrite keyInsights_eq. cbv zeta.
  destruct (last (dailyBalances analysis)) as [e|]; [|discriminate].
  intros [= <- <-].
  cbn [highestInflows largestOutflows mostPositiveMonth mostNegativeMonth
       frequencyPeak mostFrequentPartner endingBalance topPartnerByVolume].
  split; [by apply namesGreatest_descending|].
  split; [apply namesGreatest_descending; by rewrite !arraySort_Permutation|].
  split; [apply namesGreatest_descending; by rewrite !arraySort_Permutation|].
  split; [apply namesGreatest_ascending; by rewrite !arraySort_Permutation|].
  split; [apply namesGreatest_descending; by rewrite !arraySort_Permutation|].
  split; [by apply namesGreatest_descending|].
  split; [by exists e|done].
Qed.

Lemma keyInsights_items_witness :
  exists r k after,
    analyze fourRows = Done r /\ keyInsights r = Done (k, after) /\
    namesGreatest month monthInflow monthInflow
      (monthlyStats r) (highestInflows k).
Proof.
  assert (exists r k after,
            analyze fourRows = Done r /\ keyInsights r = Done (k, after))
    as (r & k & after & Hr & Hk).
  { eexists _, _, _. split; vm_compute; reflexivity. }
  destruct (keyInsights_items r k after Hk) as (H & _).
  exists r, k, after. split; [exact Hr|]. split; [exact Hk|exact H].
Defined.

(** X21: The sorts of a render show in the next one.  In the render after,
    the item "top partner by volume" names the partner that the render
    before found to be the most frequent: a partner of the greatest
    count, shown with its volume. *)
Theorem topPartner_after_render analysis k1 after1 k2 after2 :
  keyInsights analysis = Done (k1, after1) ->
  keyInsights after1 = Done (k2, after2) ->
  fst <$> topPartnerByVolume k2 = (mostFrequentPartner k1).1 /\
  namesGreatest name partnerTotalVolume (fun p => Z.of_nat (count p))
    (partnerVolumes analysis)
    (fst <$> topPartnerByVolume k2, snd <$> topPartnerByVolume k2).
Proof.
  intros H1 H2.
  destruct (keyInsights_partners analysis k1 after1 H1) as (Hpv & Hmf & _).
  destruct (keyInsights_partners after1 k2 after2 H2) as (_ & _ & Htop).
  rewrite Htop, Hpv, Hmf. cbn [fst]. unfold partnerVolumesAfter.
  pose proof (namesGreatest_descending name partnerTotalVolume
                (fun p => Z.of_nat (count p))
                (partnerVolumes analysis) (partnerVolumes analysis)
                (reflexivity _)) as HG.
  destruct (head (arraySort _ (partnerVolumes analysis))) as [p|]; by split.
Qed.

Lemma topPartner_after_render_witness :
  exists r k1 after1 k2 after2,
    analyze fourRows = Done r /\
    keyInsights r = Done (k1, after1) /\
    keyInsights after1 = Done (k2, after2) /\
    topPartnerByVolume k1 = Some ("Employer", 100) /\
    topPartnerByVolume k2 = Some ("Grocer", 70) /\
    fst <$> topPartnerByVolume k2 = (mostFrequentPartner k1).1.
Proof.
  assert (exists r k1 after1 k2 after2,
            analyze fourRows = Done r /\
            keyInsights r = Done (k1, after1) /\
            keyInsights after1 = Done (k2, after2) /\
            topPartnerByVolume k1 = Some ("Employer", 100) /\
            topPartnerByVolume k2 = Some ("Grocer", 70))
    as (r & k1 & a1 & k2 & a2 & Hr & H1 & H2 & T1 & T2).
  { eexists _, _, _, _, _.
    split; [vm_compute; reflexivity|]. split; [vm_compute; reflexivity|].
    split; [vm_compute; reflexivity|]. split; reflexivity. }
  destruct (topPartner_after_render r k1 a1 k2 a2 H1 H2) as [H _].
  exists r, k1, a1, k2, a2. repeat (split; [assumption|]). exact H.
Defined.

End InsightProperties.

(* ================================================================== *)
(** * Further properties of the table *)
(* ================================================================== *)

Section TableViewProperties.
Import JS Date DateFacts SortableTable SortableTableHeader TableSpec
  TableViewSpec SortFacts OrderFacts TableFacts TableViewFacts.

(** X22: In any sort state the sorted view holds the rows of [data], each as
    often as [data] does: sorting loses and repeats no row. *)
Theorem sortedData_Permutation lc data columns cfg :
  sortedData lc data columns cfg ≡ₚ data.
Proof.
  unfold sortedData. destruct (sortKey cfg) as [k|]; [|done].
  destruct (String.eqb k EmptyString); [done|].
  apply stableSort_Permutation.
Qed.

(** X23: Sorted by a number column whose cells all count as numbers (a missing
    cell counts as 0), the view is in ascending or descending order of
    these numbers, and rows of the same number keep the order they have in
    [data]. *)
Theorem sortedData_by_number lc data columns k dir :
  k <> EmptyString -> typeOf columns k = "number" ->
  (forall row, row ∈ data -> numberOf (get row k) <> NaN) ->
  let view := sortedData lc data columns (byNumber k dir) in
  Sorted (fun a b => match dir with
                     | asc => cellNumber k a <= cellNumber k b
                     | desc => cellNumber k b <= cellNumber k a
                     end) view /\
  forall v, filter (fun row => cellNumber k row = v) view
            = filter (fun row => cellNumber k row = v) data.
Proof.
  intros Hk Hty Hnum view. subst view. unfold sortedData, byNumber.
  cbn [sortKey direction].
  apply String.eqb_neq in Hk. rewrite Hk, Hty. unfold arraySort.
  assert (forall x y, x ∈ data -> y ∈ data ->
            isPositive (compareRows lc "number" k dir x y)
            = match dir with
              | asc => cellNumber k y <? cellNumber k x
              | desc => cellNumber k x <? cellNumber k y
              end) as Hafter.
  { intros x y Hx Hy. unfold compareRows. cbn [String.eqb Ascii.eqb Bool.eqb].
    rewrite (numberOf_cellNumber k x), (numberOf_cellNumber k y) by auto.
    destruct dir; cbn [numSub isPositive]; apply eq_true_iff_eq;
      rewrite !Z.ltb_lt; lia. }
  split.
  - destruct dir.
    + apply stableSort_Sorted. intros x y Hx Hy. by rewrite Hafter.
    + apply (Sorted_weaken (fun a b => - cellNumber k a <= - cellNumber k b));
        [intros a b; lia|].
      apply stableSort_Sorted. intros x y Hx Hy. rewrite Hafter by done.
      apply eq_true_iff_eq. rewrite !Z.ltb_lt. lia.
  - intros v. apply stableSort_filter_key.
    intros x y Hx Hy. rewrite Hafter by done.
    destruct dir; rewrite Z.ltb_lt; lia.
Qed.

Lemma sortedData_by_number_witness :
  Sorted (fun a b => cellNumber "value" b <= cellNumber "value" a)
    (sortedData localeCompare
       [ {[ "value" := VNum (Fin 7) ]}; nullAmountRow; {[ "value" := VNum (Fin 3) ]} ]
       [amountColumn] (byNumber "value" desc)) /\
  forall v,
    filter (fun row => cellNumber "value" row = v)
      (sortedData localeCompare
         [ {[ "value" := VNum (Fin 7) ]}; nullAmountRow; {[ "value" := VNum (Fin 3) ]} ]
         [amountColumn] (byNumber "value" desc))
    = filter (fun row => cellNumber "value" row = v)
        [ {[ "value" := VNum (Fin 7) ]}; nullAmountRow; {[ "value" := VNum (Fin 3) ]} ].
Proof.
  apply (sortedData_by_number localeCompare
    [ {[ "value" := VNum (Fin 7) ]}; nullAmountRow; {[ "value" := VNum (Fin 3) ]} ]
    [amountColumn] "value" desc); [discriminate|reflexivity|].
  intros row Hrow.
  repeat (apply elem_of_cons in Hrow as [->|Hrow]; [discriminate|]).
  by apply elem_of_nil in Hrow.
Defined.

(** X24: Header clicks.  After a click on a header the table is sorted by that
    column, and its header alone shows an arrow; a second click on the
    same header turns the direction round and a third one gives the state
    of the first again.  A click on a header after a click on another one
    starts from the direction of the column's type, whatever was before. *)
Theorem requestSort_clicks columns k cfg :
  let once := requestSort columns k cfg in
  let twice := requestSort columns k once in
  sortKey once = Some k /\
  direction twice <> direction once /\
  requestSort columns k twice = once /\
  (forall k', getSortIndicator once k' = Neutral <-> k' <> k) /\
  (forall k' cfg', k' <> k ->
     requestSort columns k (requestSort columns k' cfg')
     = requestSort columns k unsorted).
Proof.
  intros once twice.
  assert (sortKey once = Some k) as Hkey.
  { subst once. unfold requestSort.
    by destruct (bool_decide _), (isNumberOrDate _). }
  assert (forall c, sortKey c = Some k ->
            requestSort columns k c
            = {| sortKey := Some k;
                 direction := match direction c with asc => desc | desc => asc end |})
    as Hact.
  { intros [sk d] Hc. cbn in Hc. subst sk. apply requestSort_active. }
  assert (sortKey twice = Some k) as Hkey2.
  { subst twice. by rewrite (Hact once Hkey). }
  split; [done|]. split; [|split; [|split]].
  - subst twice. rewrite (Hact once Hkey). cbn [direction].
    by destruct (direction once).
  - rewrite (Hact twice Hkey2). subst twice. rewrite (Hact once Hkey).
    cbn [direction]. destruct once as [sk d]. cbn in *. subst sk.
    by destruct d.
  - intros k'. unfold getSortIndicator. rewrite Hkey.
    destruct (decide (k' = k)) as [->|Hne].
    + rewrite bool_decide_eq_true_2 by done.
      split; [by destruct (direction once)|done].
    + rewrite bool_decide_eq_false_2 by congruence. done.
  - intros k' cfg' Hne.
    rewrite !requestSort_new; [done|done|].
    assert (sortKey (requestSort columns k' cfg') = Some k') as ->.
    { unfold requestSort. by destruct (bool_decide _), (isNumberOrDate _). }
    congruence.
Qed.

Lemma requestSort_clicks_witness :
  requestSort [dateColumn] "date" (requestSort [dateColumn] "name" byDate)
  = {| sortKey := Some "date"; direction := desc |}.
Proof.
  destruct (requestSort_clicks [dateColumn] "date" unsorted) as (_ & _ & _ & _ & H).
  rewrite (H "name" byDate ltac:(discriminate)). reflexivity.
Defined.

(** X25: The CSV export fails, with the alert of the [catch], exactly when some
    row has, in a date column with a renderer, a cell that is truthy and
    is not a date; in every other case it alerts "No data to export" or
    saves a file. *)
Theorem exportToCSV_fails_iff lc props cfg now :
  exportToCSV lc props cfg now = Alert failedToExport <->
  exists row col,
    row ∈ data props /\ col ∈ columns props /\ badDateCell col row.
Proof.
  unfold exportToCSV.
  destruct (data props) as [|r0 rows] eqn:Hd.
  - cbn. split; [discriminate|].
    intros (row & _ & Hrow & _). by apply elem_of_nil in Hrow.
  - cbn [length Nat.eqb]. rewrite <- Hd.
    set (sorted := sortedData lc (data props) (columns props) cfg).
    assert ((exists e, mapM (csvRow (columns props)) sorted = Threw e) <->
            exists row col, row ∈ data props /\ col ∈ columns props
                            /\ badDateCell col row) as Hiff.
    { rewrite mapM_Threw. split.
      - intros (row & Hrow & e & He). unfold csvRow in He.
        destruct (mapM (fun col => csvValue col row) (columns props))
          as [vs|e'] eqn:Hv; [discriminate|].
        destruct (proj1 (mapM_Threw _ _) (ex_intro _ e' Hv)) as (col & Hcol & Hc).
        exists row, col. split; [by apply sortedData_elem_of in Hrow|].
        split; [done|]. by apply csvValue_Threw.
      - intros (row & col & Hrow & Hcol & Hbad). exists row.
        split; [by apply sortedData_elem_of|].
        apply csvValue_Threw in Hbad.
        destruct (proj2 (mapM_Threw (fun col => csvValue col row) (columns props)))
          as [e He]; [by exists col|].
        exists e. unfold csvRow. by rewrite He. }
    destruct (mapM (csvRow (columns props)) sorted) as [lines|e].
    + split; [discriminate|]. intros H. apply Hiff in H as [e He]. discriminate.
    + split; [|done]. intros _. apply Hiff. by exists e.
Qed.

(** X26: In the CSV export a date column with a renderer gives back the text of
    a cell that holds a calendar date in the form YYYY-MM-DD: the text is
    parsed, written as an ISO text and cut at the [T], and is exported
    without quotes. *)
Theorem csvValue_date_round_trip col row s t :
  is_Some (render col) -> isType col "date" = true ->
  get row (key col) = VStr s -> Date.parse s = Fin t ->
  csvValue col row = Done (VStr s) /\ csvField (VStr s) = s.
Proof.
  intros [f Hf] Hd Hs Hp. split.
  - unfold csvValue. rewrite Hf, Hs.
    assert (isType col "number" = false) as ->.
    { unfold isType in *. destruct (type col) as [ty|]; [|done].
      apply String.eqb_eq in Hd. by subst ty. }
    rewrite Hd. cbn [andb].
    assert (truthy (VStr s) = true) as ->.
    { destruct s; [discriminate Hp|done]. }
    cbn [Date.create]. rewrite Hp. cbn [toISOString bind].
    by rewrite (beforeT_parse s t Hp).
  - cbn [csvField]. by rewrite (includesChar_comma_date s t Hp).
Qed.

Lemma csvValue_date_round_trip_witness :
  csvValue (renderedDateColumn "date") laterRow = Done (VStr "2024-01-01")
  /\ csvField (VStr "2024-01-01") = "2024-01-01".
Proof.
  apply (csvValue_date_round_trip (renderedDateColumn "date") laterRow
           "2024-01-01" 1704067200000); [by eexists|reflexivity..].
Defined.

(** X27: In the name of an exported file every run of white space of the table
    name has become one underscore: that part of the file name holds no
    white space.  A table name without white space is kept as it is, and
    is followed by an underscore, the date of the day and the extension. *)
Theorem fileNameOf_no_space tableName now ext :
  noSpace (replaceSpaces false tableName) /\
  (noSpace tableName ->
   fileNameOf tableName now ext
   = tableName +:+ "_" +:+ slice0 10 (isoOfTime now) +:+ ext).
Proof.
  split.
  - intros c Hc. by apply includesChar_replaceSpaces.
  - intros H. unfold fileNameOf. by rewrite replaceSpaces_noSpace.
Qed.

Lemma fileNameOf_no_space_witness :
  fileNameOf "Table" 0 ".csv" = "Table_1970-01-01.csv".
Proof.
  destruct (fileNameOf_no_space "Table" 0 ".csv") as [_ H].
  rewrite H; [reflexivity|].
  intros [[] [] [] [] [] [] [] []] Hc; try discriminate Hc; reflexivity.
Defined.

(** X28: For a table none of whose columns has a renderer, the row renderer of
    the virtualized list gives, at every index within the rows, the row
    that the non-virtualized body has at that index. *)
Theorem RowRenderer_plain props rows index row :
  Forall (fun col => render col = None) (columns props) ->
  rows !! index = Some row ->
  RowRenderer props rows index = Done (renderRow props row).
Proof.
  intros Hplain Hrow. unfold RowRenderer, renderRow. rewrite Hrow.
  do 2 f_equal.
  apply map_ext_Forall. eapply Forall_impl; [exact Hplain|].
  intros col Hcol. cbn beta. by rewrite Hcol.
Qed.

Lemma RowRenderer_plain_witness :
  RowRenderer (tableOf [laterRow; epochRow] [dateColumn] true)
              [laterRow; epochRow] 1
  = Done (renderRow (tableOf [laterRow; epochRow] [dateColumn] true) epochRow).
Proof.
  apply RowRenderer_plain; [|reflexivity].
  constructor; [reflexivity|constructor].
Defined.

End TableViewProperties.
